(** * Dashboard progress engine: a shallow embedding of
      [archive/_old_cleanup/dashboard_server.py]

    The development follows the Python module function by function.
    - Python [int] is [Z]; Python [float] is modelled by the exact
      rationals [Q] (rounding error of the binary representation is not
      modelled, the branch structure and the formulas are).
    - Python [dict]s with a fixed set of string keys read through
      [.get(key, default)] are records of optional fields; the [stats]
      dictionary of [_sqlite_get_task_stats], which is indexed by strings
      coming from the database, is a [gmap string Z].
    - The file system, the clock and the SQLite database are explicit
      arguments (what each probe or query returns during one call).
    - Raised exceptions are the [Raise] constructor of [result].
    - Strings hold ASCII text and the checkpoint documents are well typed
      (a task is an object, its dates a list when present, the counts of
      the run state numbers): this is the range on which the string
      primitives below agree with Python's and on which the JSON paths of
      the module return. *)

From Stdlib Require Import ZArith QArith Qround String Ascii List Lia Lqa.
From Stdlib Require DecimalString.
From stdpp Require Import base option list strings gmap sorting.

Local Open Scope string_scope.
Local Open Scope Z_scope.

(** ** Python primitives used by the module *)

Module Py.

(** [str.lower] and [str.upper] on the ASCII range; every other character
    is left as it is (Python also maps letters outside that range, for
    instance U+0131 to [I]). *)
Definition lower_ascii (c : ascii) : ascii :=
  let n := N_of_ascii c in
  if ((65 <=? n) && (n <=? 90))%N then ascii_of_N (n + 32) else c.

Definition upper_ascii (c : ascii) : ascii :=
  let n := N_of_ascii c in
  if ((97 <=? n) && (n <=? 122))%N then ascii_of_N (n - 32) else c.

Fixpoint lower (s : string) : string :=
  match s with
  | EmptyString => EmptyString
  | String c r => String (lower_ascii c) (lower r)
  end.

Fixpoint upper (s : string) : string :=
  match s with
  | EmptyString => EmptyString
  | String c r => String (upper_ascii c) (upper r)
  end.

(** [str.strip()]: ASCII white space removed at both ends (Python also
    removes the Unicode spaces such as U+00A0 and U+0085). *)
Definition is_space (c : ascii) : bool :=
  let n := N_of_ascii c in
  ((9 <=? n) && (n <=? 13) || (28 <=? n) && (n <=? 32))%N.

Fixpoint lstrip (s : string) : string :=
  match s with
  | EmptyString => EmptyString
  | String c r => if is_space c then lstrip r else s
  end.

Fixpoint rstrip (s : string) : string :=
  match s with
  | EmptyString => EmptyString
  | String c r =>
      match rstrip r with
      | EmptyString => if is_space c then EmptyString else String c EmptyString
      | r' => String c r'
      end
  end.

Definition strip (s : string) : string := rstrip (lstrip s).

(** [int(x)] on a float: truncation towards zero. *)
Definition int_of (x : Q) : Z := Z.quot (Qnum x) (Zpos (Qden x)).

(** [x // y] and [x % y] on floats. *)
Definition floordiv (x y : Q) : Q := inject_Z (Qfloor (x / y)).
Definition fmod (x y : Q) : Q := (x - y * inject_Z (Qfloor (x / y)))%Q.

(** Round half to even of a rational to an integer. *)
Definition round_half_even (x : Q) : Z :=
  let f := Qfloor x in
  let r := (x - inject_Z f)%Q in
  match (r ?= 1 # 2)%Q with
  | Lt => f
  | Gt => f + 1
  | Eq => if Z.even f then f else f + 1
  end.

(** [round(x, n)] for the two precisions the module uses, on the exact
    rational (Python rounds the binary double, which differs at a value
    that lies on a rounding boundary). *)
Definition round (x : Q) (ndigits : nat) : Q :=
  let p := Z.pow 10 (Z.of_nat ndigits) in
  (inject_Z (round_half_even (x * inject_Z p)) / inject_Z p)%Q.

(** [max(a, b)]: the first argument unless the second is greater. *)
Definition max (a b : Q) : Q := if Qlt_le_dec a b then b else a.
Definition min (a b : Q) : Q := if Qlt_le_dec b a then b else a.

(** [str(n)] / [f"{n}"] for an integer. *)
Definition str_of_int (n : Z) : string :=
  DecimalString.NilZero.string_of_int (Z.to_int n).

(** Truthiness of an optional float ([None] and [0.0] are falsy). *)
Definition truthy (o : option Q) : bool :=
  match o with
  | Some x => negb (Qeq_bool x 0)
  | None => false
  end.

End Py.

(** Strict and weak comparisons of rationals as booleans. *)
Definition Qltb (a b : Q) : bool := match (a ?= b)%Q with Lt => true | _ => false end.
Definition Qgeb (a b : Q) : bool := Qle_bool b a.

(** ** Exceptions *)

Inductive exn : Type :=
  | OperationalError (msg : string)   (* sqlite3: locked database, timeout *)
  | OtherError (msg : string).

Inductive result (A : Type) : Type :=
  | Ok (a : A)
  | Raise (e : exn).
Arguments Ok {A} a.
Arguments Raise {A} e.

#[global] Instance result_ret : MRet result := fun A a => Ok a.
#[global] Instance result_bind : MBind result := fun A B k r =>
  match r with
  | Ok a => k a
  | Raise e => Raise e
  end.

(** [try: body except Exception: handler] *)
Definition try_except {A} (body : result A) (handler : exn -> result A) : result A :=
  match body with
  | Ok a => Ok a
  | Raise e => handler e
  end.

(** ** JSON scalars as they appear in the checkpoint documents *)

Inductive jscalar : Type :=
  | JNull
  | JBool (b : bool)
  | JNum (n : Z)
  | JStr (s : string).

#[global] Instance jscalar_eq_dec : EqDecision jscalar.
Proof. solve_decision. Defined.

Definition jstr_eqb (v : jscalar) (s : string) : bool := bool_decide (v = JStr s).

(** ** Checkpoint data *)

(** A row of the [chunk_tasks] table.  SQL [NULL] is [None]; [tr_dates]
    is the [dates] column after [json.loads] ([None] when the column is
    [NULL] or does not parse, which the code turns into the empty list). *)
Record ChunkTask : Type := {
  tr_task_id : string;
  tr_route : option string;
  tr_chunk_idx : Z;
  tr_state : option string;
  tr_worker_id : option string;
  tr_dates : option (list string);
  tr_lease_expires_at : option Q;
  tr_updated_at : option Q
}.

(** A row of the [worker_heartbeats] table. *)
Record Heartbeat : Type := {
  hb_worker_id : option string;
  hb_status : option string;
  hb_task_id : option string
}.

(** The four statements the module sends to the database. *)
Inductive Query : Type :=
  | QStateCounts      (* SELECT state, COUNT( * ) ... GROUP BY state *)
  | QRunningTasks     (* SELECT ... WHERE state = 'running' ORDER BY updated_at DESC *)
  | QHeartbeats       (* SELECT ... FROM worker_heartbeats w LEFT JOIN chunk_tasks t *)
  | QAllTasks.        (* SELECT route, state, dates FROM chunk_tasks *)

(** The database as one poll sees it: the two tables, and for each
    statement whether [connect]/[execute] raises (busy or locked file). *)
Record SqliteDb : Type := {
  chunk_tasks : list ChunkTask;
  worker_heartbeats : list Heartbeat;
  db_raises : Query -> option exn
}.

(** [_sqlite_connect] followed by [conn.execute(...).fetchall()]. *)
Definition sqlite_fetchall {A} (db : SqliteDb) (q : Query) (rows : list A) : result (list A) :=
  match db_raises db q with
  | Some e => Raise e
  | None => Ok rows
  end.

(** A task of [tasks_state.json]; an absent key is [None].  The task is
    an object and its [dates], when present, a list: on a [null] there
    the source raises out of the loops that call [len] or [extend]. *)
Record Task : Type := {
  t_status : option jscalar;
  t_route : option string;
  t_chunk_idx : option jscalar;
  t_assigned_worker : option string;
  t_dates : option (list string);
  t_started_at : option jscalar;
  t_completed_at : option jscalar
}.

(** An entry of [tasks_detail]. *)
Record TaskDetail : Type := {
  d_id : string;
  d_route : jscalar;
  d_chunk : jscalar;
  d_status : jscalar;
  d_worker : jscalar;
  d_dates_count : Z;
  d_started_at : jscalar;
  d_completed_at : jscalar
}.

(** The dictionary returned by [calculate_progress_from_tasks]. *)
Record Progress : Type := {
  p_total : Z;
  p_done : Z;
  p_running : Z;
  p_pending : Z;
  p_failed : Z;
  p_percent : Q;
  p_tasks_detail : list TaskDetail
}.

Definition jopt (o : option jscalar) : jscalar := default JNull o.
Definition jstr_opt (o : option string) : jscalar :=
  match o with Some s => JStr s | None => JNull end.

(** ** SQLite backend: task statistics *)

(** [GROUP BY state] with [COUNT( * )]: one row per distinct state.  The
    statement has no [ORDER BY]; the rows are listed in order of first
    occurrence (SQLite's sorter lists them by state, which matters to the
    counters only when two states differ in letter case alone). *)
Fixpoint group_bump (s : option string) (groups : list (option string * Z))
  : list (option string * Z) :=
  match groups with
  | [] => [(s, 1)]
  | (s', c) :: rest =>
      if decide (s' = s) then (s', c + 1) :: rest else (s', c) :: group_bump s rest
  end.

Definition group_count (states : list (option string)) : list (option string * Z) :=
  fold_left (fun groups s => group_bump s groups) states [].

(** The initial [stats] dictionary of [_sqlite_get_task_stats]. *)
Definition stats_init : gmap string Z :=
  list_to_map [("total", 0); ("pending", 0); ("running", 0); ("done", 0);
               ("failed", 0); ("failed_exhausted", 0)].

(** [stats.get(key, 0)] *)
Definition stats_get (stats : gmap string Z) (key : string) : Z :=
  default 0 (stats !! key).

(** The body of [for row in cur.fetchall()]. *)
Definition stats_row (stats : gmap string Z) (row : option string * Z) : gmap string Z :=
  let state := Py.lower (default "" (fst row)) in
  let count := snd row in
  let stats :=
    if decide (is_Some (stats !! state)) then <[state := count]> stats else stats in
  <["total" := stats_get stats "total" + count]> stats.

Definition _sqlite_get_task_stats (db : SqliteDb) : result (gmap string Z) :=
  rows ← sqlite_fetchall db QStateCounts (group_count (map tr_state (chunk_tasks db)));
  let stats := fold_left stats_row rows stats_init in
  (* Normalize failure count to include exhausted tasks *)
  let stats :=
    <["failed" := stats_get stats "failed" + stats_get stats "failed_exhausted"]> stats in
  Ok stats.

Definition _map_sqlite_state_to_task_status (state : option string) : string :=
  let s := Py.lower (default "" state) in
  if decide (s = "running") then "RUNNING"
  else if decide (s = "done") then "DONE"
  else if decide (s = "failed" \/ s = "failed_exhausted") then "FAILED"
  else "PENDING".

Definition _SQLITE_LEASE_DURATION_SECONDS : Q := 900.

(** [ORDER BY updated_at DESC]; a [NULL] sorts below every number. *)
Definition updated_desc (a b : ChunkTask) : Prop :=
  match tr_updated_at a, tr_updated_at b with
  | _, None => True
  | None, Some _ => False
  | Some x, Some y => (y <= x)%Q
  end.

#[global] Instance updated_desc_dec a b : Decision (updated_desc a b).
Proof.
  unfold updated_desc.
  destruct (tr_updated_at a) as [x|], (tr_updated_at b) as [y|];
    try (left; exact I); try (right; exact (fun H => H)).
  destruct (Qlt_le_dec x y) as [H|H]; [right | left; exact H].
  intros H'. exact (Qlt_not_le _ _ H H').
Defined.

(** The timestamp an entry of the running panel starts from; [now] is
    [datetime.now()].  A lease expiry or update time of 0 is falsy. *)
Definition running_started_ts (now : Q) (row : ChunkTask) : Q :=
  let started_ts :=
    match tr_lease_expires_at row with
    | Some l =>
        if Qeq_bool l 0 then
          (match tr_updated_at row with
           | Some u => if Qeq_bool u 0 then None else Some u
           | None => None
           end)
        else Some (l - _SQLITE_LEASE_DURATION_SECONDS)%Q
    | None =>
        match tr_updated_at row with
        | Some u => if Qeq_bool u 0 then None else Some u
        | None => None
        end
    end in
  match started_ts with
  | Some t => if Qeq_bool t 0 then now else t
  | None => now
  end.

(** Timestamps are kept as numbers; [isoformat()] is not modelled. *)
Definition jtime (t : Q) : jscalar := JNum (Qfloor t).

Definition running_detail (now : Q) (row : ChunkTask) : TaskDetail :=
  {| d_id := tr_task_id row;
     d_route := jstr_opt (tr_route row);
     d_chunk := JNum (tr_chunk_idx row);
     d_status := JStr (_map_sqlite_state_to_task_status (tr_state row));
     d_worker := jstr_opt (tr_worker_id row);
     d_dates_count := Z.of_nat (length (default [] (tr_dates row)));
     d_started_at := jtime (running_started_ts now row);
     d_completed_at := JNull |}.

Definition percent_of (done total : Z) : Q :=
  if 0 <? total then (inject_Z done / inject_Z total * 100)%Q else 0%Q.

Definition _calculate_progress_from_sqlite (now : Q) (db : SqliteDb) : result Progress :=
  stats ← _sqlite_get_task_stats db;
  let total := stats_get stats "total" in
  let done := stats_get stats "done" in
  let running := stats_get stats "running" in
  let pending := stats_get stats "pending" in
  let failed := stats_get stats "failed" in
  let percent := percent_of done total in
  rows ← sqlite_fetchall db QRunningTasks
         (merge_sort updated_desc
            (filter (fun r => tr_state r = Some "running") (chunk_tasks db)));
  Ok {| p_total := total; p_done := done; p_running := running;
        p_pending := pending; p_failed := failed;
        p_percent := Py.round percent 1;
        p_tasks_detail := map (running_detail now) rows |}.

(** ** JSON backend: progress from [tasks_state.json] *)

Record Counts : Type := {
  c_done : Z; c_running : Z; c_pending : Z; c_failed : Z;
  c_detail : list TaskDetail
}.

Definition counts_init : Counts :=
  {| c_done := 0; c_running := 0; c_pending := 0; c_failed := 0; c_detail := [] |}.

Definition json_detail (task_id : string) (task : Task) (status : jscalar) : TaskDetail :=
  {| d_id := task_id;
     d_route := jstr_opt (t_route task);
     d_chunk := jopt (t_chunk_idx task);
     d_status := status;
     d_worker := jstr_opt (t_assigned_worker task);
     d_dates_count := Z.of_nat (length (default [] (t_dates task)));
     d_started_at := jopt (t_started_at task);
     d_completed_at := jopt (t_completed_at task) |}.

(** The body of [for task_id, task in tasks.items()]. *)
Definition count_task (c : Counts) (item : string * Task) : Counts :=
  let (task_id, task) := item in
  let status := default (JStr "PENDING") (t_status task) in
  let d := (c_detail c ++ [json_detail task_id task status])%list in
  if jstr_eqb status "DONE" then
    {| c_done := c_done c + 1; c_running := c_running c; c_pending := c_pending c;
       c_failed := c_failed c; c_detail := d |}
  else if jstr_eqb status "RUNNING" then
    {| c_done := c_done c; c_running := c_running c + 1; c_pending := c_pending c;
       c_failed := c_failed c; c_detail := d |}
  else if jstr_eqb status "FAILED" then
    {| c_done := c_done c; c_running := c_running c; c_pending := c_pending c;
       c_failed := c_failed c + 1; c_detail := d |}
  else
    {| c_done := c_done c; c_running := c_running c; c_pending := c_pending c + 1;
       c_failed := c_failed c; c_detail := d |}.

(** [sorted(tasks_detail, key=lambda x: x.get("id", ""))] *)
Definition detail_le (a b : TaskDetail) : Prop :=
  String.leb (d_id a) (d_id b) = true.

#[global] Instance detail_le_dec a b : Decision (detail_le a b).
Proof. unfold detail_le. apply _. Defined.

(** The part of [calculate_progress_from_tasks] after the SQLite attempt;
    [tasks] is [tasks.items()] of the loaded dictionary, in its order. *)
Definition progress_from_json (tasks : list (string * Task)) : Progress :=
  match tasks with
  | [] =>
      {| p_total := 0; p_done := 0; p_running := 0; p_pending := 0; p_failed := 0;
         p_percent := 0; p_tasks_detail := [] |}
  | _ =>
      let total := Z.of_nat (length tasks) in
      let c := fold_left count_task tasks counts_init in
      {| p_total := total; p_done := c_done c; p_running := c_running c;
         p_pending := c_pending c; p_failed := c_failed c;
         p_percent := Py.round (percent_of (c_done c) total) 1;
         p_tasks_detail := merge_sort detail_le (c_detail c) |}
  end.

(** ** The checkpoint directory as one poll sees it *)

(** [run_state.json]; an absent key is [None]. *)
Record RunState : Type := {
  rs_routes : option (list string);
  rs_dates : option (list string);
  rs_ports : option (list Z);
  rs_chunks_count : option Z;
  rs_oal_workers : option Z;
  rs_oal_passes : option Z;
  rs_run_id : option string;
  rs_mode : option string;
  rs_started_at : option string;
  rs_shutdown_type : option jscalar
}.

(** [oal_state.json]; an absent key is [None]. *)
Record OalState : Type := {
  oal_percent : option Q;
  oal_status : option string;
  oal_current_pass : option Z;
  oal_total_passes : option Z;
  oal_routes_completed_in_pass : option Z;
  oal_routes_total_per_pass : option Z;
  oal_total_operations : option Z;
  oal_completed_operations : option Z
}.

(** What the loaders return during one poll.  [w_run_state] and
    [w_oal_state] are [None] for a missing or unreadable file and for a
    falsy document; [w_tasks_state] is the item list of the task map
    (empty when the file is missing or unreadable). *)
Record World : Type := {
  w_now : Q;
  w_sqlite_exists : bool;
  w_db : SqliteDb;
  w_run_state : option RunState;
  w_tasks_state : list (string * Task);
  w_oal_state : option OalState;
  w_parse_iso : string -> option Q;
  w_excel_mtimes : list Q
}.

Definition _sqlite_checkpoint_available (w : World) : bool := w_sqlite_exists w.
Definition load_run_state (w : World) : option RunState := w_run_state w.
Definition load_tasks_state (w : World) : list (string * Task) := w_tasks_state w.
Definition load_oal_state (w : World) : option OalState := w_oal_state w.

Record Config : Type := {
  cfg_routes : list string;
  cfg_dates : list string;
  cfg_ports : list Z;
  cfg_chunks_count : Z;
  cfg_oal_workers : Z;
  cfg_oal_passes : Z;
  cfg_run_id : string;
  cfg_mode : string;
  cfg_started_at : option string
}.

Definition get_config_from_checkpoint (w : World) : Config :=
  match load_run_state w with
  | None =>
      {| cfg_routes := []; cfg_dates := []; cfg_ports := [9222; 9223; 9224];
         cfg_chunks_count := 0; cfg_oal_workers := 0; cfg_oal_passes := 0;
         cfg_run_id := "unknown"; cfg_mode := "unknown"; cfg_started_at := None |}
  | Some run_state =>
      {| cfg_routes := default [] (rs_routes run_state);
         cfg_dates := default [] (rs_dates run_state);
         cfg_ports := default [] (rs_ports run_state);
         cfg_chunks_count := default 0 (rs_chunks_count run_state);
         cfg_oal_workers := default 0 (rs_oal_workers run_state);
         cfg_oal_passes := default 2 (rs_oal_passes run_state);
         cfg_run_id := default "unknown" (rs_run_id run_state);
         cfg_mode := default "unknown" (rs_mode run_state);
         cfg_started_at := rs_started_at run_state |}
  end.

(** [calculate_progress_from_tasks]: the SQLite attempt is wrapped in
    [try ... except Exception], after which the JSON path runs. *)
Definition calculate_progress_from_tasks (w : World) : result Progress :=
  let json := Ok (progress_from_json (load_tasks_state w)) in
  if _sqlite_checkpoint_available w then
    try_except (_calculate_progress_from_sqlite (w_now w) (w_db w)) (fun _ => json)
  else json.

(** ** Worker status *)

Record WorkerInfo : Type := {
  wk_status : string;
  wk_active_route : jscalar;
  wk_active_task : jscalar
}.

Definition worker_idle : WorkerInfo :=
  {| wk_status := "idle"; wk_active_route := JNull; wk_active_task := JNull |}.

Definition is_digit (c : ascii) : bool :=
  let n := N_of_ascii c in ((48 <=? n) && (n <=? 57))%N.

Fixpoint take_digits (s : string) : string :=
  match s with
  | String c r => if is_digit c then String c (take_digits r) else EmptyString
  | EmptyString => EmptyString
  end.

Fixpoint strip_prefix (p s : string) : option string :=
  match p, s with
  | EmptyString, _ => Some s
  | String a p', String b s' => if Ascii.eqb a b then strip_prefix p' s' else None
  | String _ _, EmptyString => None
  end.

(** [re.search(r"Worker_(\d+)", s)], returning [group(1)]. *)
Fixpoint search_worker_port (s : string) : option string :=
  let here :=
    match strip_prefix "Worker_" s with
    | Some rest =>
        match take_digits rest with
        | EmptyString => None
        | ds => Some ds
        end
    | None => None
    end in
  match here with
  | Some ds => Some ds
  | None =>
      match s with
      | EmptyString => None
      | String _ r => search_worker_port r
      end
  end.

Definition workers_init (ports : list Z) : gmap string WorkerInfo :=
  fold_left (fun workers port => <[Py.str_of_int port := worker_idle]> workers) ports ∅.

(** [worker_heartbeats w LEFT JOIN chunk_tasks t ON w.task_id = t.task_id] *)
Definition heartbeat_join (db : SqliteDb) : list (Heartbeat * option string) :=
  flat_map (fun hb =>
    match filter (fun t => Some (tr_task_id t) = hb_task_id hb) (chunk_tasks db) with
    | [] => [(hb, None)]
    | ts => map (fun t => (hb, tr_route t)) ts
    end) (worker_heartbeats db).

Definition heartbeat_row (workers : gmap string WorkerInfo)
    (row : Heartbeat * option string) : gmap string WorkerInfo :=
  let (hb, route) := row in
  match search_worker_port (default "" (hb_worker_id hb)) with
  | None => workers
  | Some port =>
      match workers !! port with
      | None => workers
      | Some _ =>
          let status := Py.upper (default "" (hb_status hb)) in
          match hb_task_id hb with
          | Some task_id =>
              if decide (status = "RUNNING" /\ task_id <> "") then
                <[port := {| wk_status := "working"; wk_active_route := jstr_opt route;
                             wk_active_task := JStr task_id |}]> workers
              else <[port := worker_idle]> workers
          | None => <[port := worker_idle]> workers
          end
      end
  end.

Definition task_worker_row (workers : gmap string WorkerInfo)
    (item : string * Task) : gmap string WorkerInfo :=
  let (task_id, task) := item in
  if bool_decide (t_status task = Some (JStr "RUNNING")) then
    match search_worker_port (default "" (t_assigned_worker task)) with
    | Some port =>
        match workers !! port with
        | Some _ =>
            <[port := {| wk_status := "working"; wk_active_route := jstr_opt (t_route task);
                         wk_active_task := JStr task_id |}]> workers
        | None => workers
        end
    | None => workers
    end
  else workers.

(** [get_worker_status_from_tasks]: the SQLite branch has [try ... finally]
    only, so an exception of the query leaves the function. *)
Definition get_worker_status_from_tasks (w : World) : result (gmap string WorkerInfo) :=
  let config := get_config_from_checkpoint w in
  if _sqlite_checkpoint_available w then
    let workers := workers_init (cfg_ports config) in
    rows ← sqlite_fetchall (w_db w) QHeartbeats (heartbeat_join (w_db w));
    Ok (fold_left heartbeat_row rows workers)
  else
    let tasks := load_tasks_state w in
    let workers := workers_init (cfg_ports config) in
    Ok (fold_left task_worker_row tasks workers).

(** ** Pending routes *)

Record RouteInfo : Type := {
  total_tasks : Z;
  done_tasks : Z;
  pending_dates : list string;
  done_dates : list string
}.

Definition route_info_init : RouteInfo :=
  {| total_tasks := 0; done_tasks := 0; pending_dates := []; done_dates := [] |}.

Definition pending_row_sql (m : gmap (option string) RouteInfo) (row : ChunkTask)
  : gmap (option string) RouteInfo :=
  let route := tr_route row in
  let state := Py.lower (default "" (tr_state row)) in
  let r := default route_info_init (m !! route) in
  if decide (state = "done") then
    <[route := {| total_tasks := total_tasks r + 1; done_tasks := done_tasks r + 1;
                  pending_dates := pending_dates r; done_dates := done_dates r |}]> m
  else
    <[route := {| total_tasks := total_tasks r + 1; done_tasks := done_tasks r;
                  pending_dates := (pending_dates r ++ default [] (tr_dates row))%list;
                  done_dates := done_dates r |}]> m.

Definition pending_row_json (m : gmap (option string) RouteInfo) (item : string * Task)
  : gmap (option string) RouteInfo :=
  let task := snd item in
  let route := t_route task in
  let dates := default [] (t_dates task) in
  let r := default route_info_init (m !! route) in
  if bool_decide (t_status task = Some (JStr "DONE")) then
    <[route := {| total_tasks := total_tasks r + 1; done_tasks := done_tasks r + 1;
                  pending_dates := pending_dates r;
                  done_dates := (done_dates r ++ dates)%list |}]> m
  else
    <[route := {| total_tasks := total_tasks r + 1; done_tasks := done_tasks r;
                  pending_dates := (pending_dates r ++ dates)%list;
                  done_dates := done_dates r |}]> m.

(** [get_pending_routes_info]: as for the worker status, the SQLite
    branch has no [except] clause. *)
Definition get_pending_routes_info (w : World) : result (gmap (option string) RouteInfo) :=
  if _sqlite_checkpoint_available w then
    rows ← sqlite_fetchall (w_db w) QAllTasks (chunk_tasks (w_db w));
    Ok (fold_left pending_row_sql rows ∅)
  else
    Ok (fold_left pending_row_json (load_tasks_state w) ∅).

(** ** Speed and error metrics *)

(** The module-level variables [_speed_history], [_last_error_count] and
    [_error_rate_history]. *)
Record MetricsState : Type := {
  _speed_history : list (Q * Z);
  _last_error_count : Z;
  _error_rate_history : list (Q * Z)
}.

Definition metrics_init : MetricsState :=
  {| _speed_history := []; _last_error_count := 0; _error_rate_history := [] |}.

Record SpeedMetrics : Type := {
  speed_per_minute : Q;
  speed_per_hour : Q;
  recent_errors : Z;
  error_rate : Q;
  data_points : Z
}.

(** [[(t, x) for t, x in history if t > cutoff]] *)
Definition after_cutoff (cutoff : Q) (history : list (Q * Z)) : list (Q * Z) :=
  filter (fun p => Qltb cutoff (fst p) = true) history.

Definition sum_deltas (history : list (Q * Z)) : Z :=
  fold_right (fun p acc => snd p + acc) 0 history.

Definition speed_of_history (history : list (Q * Z)) : Q :=
  match history, last history with
  | oldest :: _ :: _, Some newest =>
      let time_diff := (fst newest - fst oldest)%Q in
      let tasks_diff := snd newest - snd oldest in
      if Qltb 0 time_diff then (inject_Z tasks_diff / time_diff * 60)%Q else 0%Q
  | _, _ => 0%Q
  end.

(** The error history after the "Track error rate" block. *)
Definition track_errors (current_time : Q) (tasks_failed : Z) (st : MetricsState)
  : Z * list (Q * Z) :=
  if decide (tasks_failed <> _last_error_count st) then
    (tasks_failed,
     (_error_rate_history st ++ [(current_time, tasks_failed - _last_error_count st)])%list)
  else (_last_error_count st, _error_rate_history st).

Definition calculate_speed_metrics (current_time : Q) (tasks_done tasks_failed : Z)
    (st : MetricsState) : SpeedMetrics * MetricsState :=
  (* Add current data point, keep only last 60 seconds of data *)
  let history := (_speed_history st ++ [(current_time, tasks_done)])%list in
  let cutoff := (current_time - 60)%Q in
  let history := after_cutoff cutoff history in
  let speed := speed_of_history history in
  (* Track error rate, keep only last 5 minutes of error history *)
  let '(last_count, errors) := track_errors current_time tasks_failed st in
  let error_cutoff := (current_time - 300)%Q in
  let errors := after_cutoff error_cutoff errors in
  let recent := sum_deltas errors in
  ({| speed_per_minute := Py.round speed 2;
      speed_per_hour := Py.round (speed * 60) 1;
      recent_errors := recent;
      error_rate := if 0 <? recent then Py.round (inject_Z recent / 5) 2 else 0%Q;
      data_points := Z.of_nat (length history) |},
   {| _speed_history := history; _last_error_count := last_count;
      _error_rate_history := errors |}).

(** ** ETA *)

Definition format_duration (minutes : Q) : string :=
  if Qltb minutes 1 then "< 1 min"
  else if Qltb minutes 60 then (Py.str_of_int (Py.int_of minutes) ++ " min")%string
  else
    let hours := Py.int_of (Py.floordiv minutes 60) in
    let mins := Py.int_of (Py.fmod minutes 60) in
    if 0 <? mins then
      (Py.str_of_int hours ++ "h " ++ Py.str_of_int mins ++ "m")%string
    else (Py.str_of_int hours ++ "h")%string.

Record Eta : Type := {
  lf_eta : option Q;
  oal_eta : option Q;
  total_eta : option Q;
  lf_eta_formatted : string;
  oal_eta_formatted : string;
  total_eta_formatted : string
}.

Definition eta_init : Eta :=
  {| lf_eta := None; oal_eta := None; total_eta := None;
     lf_eta_formatted := "N/A"; oal_eta_formatted := "N/A";
     total_eta_formatted := "N/A" |}.

(** The "LF ETA" block: the ETA of the task queue and its text. *)
Definition eta_lf (tasks_total tasks_done : Z) (speed : Q) : option Q * string :=
  let lf_remaining_tasks := tasks_total - tasks_done in
  if 0 <? lf_remaining_tasks then
    let lf_minutes := (inject_Z lf_remaining_tasks / speed)%Q in
    (Some lf_minutes, format_duration lf_minutes)
  else (None, "Done").

(** The "OAL ETA" block. *)
Definition eta_oal (oal_state : option OalState) (oal_workers : Z) : option Q * string :=
  match oal_state with
  | Some st =>
      if 0 <? oal_workers then
        let total_ops := default 0 (oal_total_operations st) in
        let completed_ops := default 0 (oal_completed_operations st) in
        let remaining_ops := total_ops - completed_ops in
        if 0 <? remaining_ops then
          let routes_total := default 0 (oal_routes_total_per_pass st) in
          if 0 <? routes_total then
            let oal_speed := (inject_Z oal_workers * (3 # 2))%Q in
            let oal_minutes := (inject_Z remaining_ops / oal_speed)%Q in
            (Some oal_minutes, format_duration oal_minutes)
          else (None, "N/A")
        else (None, "Done")
      else if oal_workers =? 0 then (None, "Disabled")
      else (None, "N/A")
  | None =>
      if oal_workers =? 0 then (None, "Disabled") else (None, "N/A")
  end.

(** The "Total ETA" block. *)
Definition eta_total (lf oal : option Q * string) (oal_workers : Z) : option Q * string :=
  let total_minutes := 0%Q in
  let total_minutes :=
    match fst lf with
    | Some x => if Py.truthy (Some x) then (total_minutes + x)%Q else total_minutes
    | None => total_minutes
    end in
  let total_minutes :=
    match fst oal with
    | Some y => if Py.truthy (Some y) then Py.max total_minutes y else total_minutes
    | None => total_minutes
    end in
  if Qltb 0 total_minutes then (Some total_minutes, format_duration total_minutes)
  else if (String.eqb (snd lf) "Done"
           && (String.eqb (snd oal) "Done" || (oal_workers =? 0)))%bool
  then (None, "Done")
  else (None, "N/A").

(** [calculate_eta]; [tasks_total] and [tasks_done] are [tasks["total"]]
    and [tasks["done"]], [speed] is [speed_metrics["speed_per_minute"]]. *)
Definition calculate_eta (tasks_total tasks_done : Z) (speed : Q)
    (oal_state : option OalState) (oal_workers : Z) : Eta :=
  if Qle_bool speed 0 then eta_init
  else
    let lf := eta_lf tasks_total tasks_done speed in
    let oal := eta_oal oal_state oal_workers in
    let total := eta_total lf oal oal_workers in
    {| lf_eta := fst lf; oal_eta := fst oal; total_eta := fst total;
       lf_eta_formatted := snd lf; oal_eta_formatted := snd oal;
       total_eta_formatted := snd total |}.

(** ** Snapshot assembly: [update_status] *)

(** [count_excel_files]: the files of the output directory modified at or
    after the start of the run. *)
Definition count_excel_files (w : World) (run_started_at : option string) : list Q :=
  let run_start_timestamp :=
    match run_started_at with
    | Some s => if String.eqb s "" then 0%Q else default 0%Q (w_parse_iso w s)
    | None => 0%Q
    end in
  filter (fun mtime => Qltb 0 run_start_timestamp = true /\ Qle_bool run_start_timestamp mtime = true)
         (w_excel_mtimes w).

(** [run_state and run_state.get("shutdown_type") == "COMPLETED"] *)
Definition run_is_completed (w : World) : bool :=
  match load_run_state w with
  | Some rs => bool_decide (rs_shutdown_type rs = Some (JStr "COMPLETED"))
  | None => false
  end.

Record OalProgress : Type := {
  op_percent : Q;
  op_status : string;
  op_current_pass : Z;
  op_total_passes : Z;
  op_routes_completed : Z;
  op_routes_total : Z;
  op_is_estimated : bool
}.

(** The "OAL progress" block of [update_status]. *)
Definition oal_progress (config : Config) (oal_state : option OalState)
    (run_completed : bool) (progress : Progress) : OalProgress :=
  let oal_workers := cfg_oal_workers config in
  if 0 <? oal_workers then
    match oal_state with
    | Some st =>
        let oal_status := default "unknown" (oal_status st) in
        {| op_percent :=
             if String.eqb oal_status "completed" then 100%Q
             else default 0%Q (oal_percent st);
           op_status := oal_status;
           op_current_pass := default 0 (oal_current_pass st);
           op_total_passes := default 2 (oal_total_passes st);
           op_routes_completed := default 0 (oal_routes_completed_in_pass st);
           op_routes_total := default 0 (oal_routes_total_per_pass st);
           op_is_estimated := false |}
    | None =>
        let routes_count := Z.of_nat (length (cfg_routes config)) in
        let '(pct, status) :=
          if run_completed then (100%Q, "completed")
          else if ((p_done progress =? p_total progress) && (0 <? p_total progress))%bool
          then (0%Q, "waiting")
          else (0%Q, "pending") in
        {| op_percent := pct; op_status := status; op_current_pass := 0;
           op_total_passes := cfg_oal_passes config; op_routes_completed := 0;
           op_routes_total := routes_count; op_is_estimated := true |}
    end
  else
    {| op_percent := 0; op_status := "disabled"; op_current_pass := 0;
       op_total_passes := 0; op_routes_completed := 0; op_routes_total := 0;
       op_is_estimated := false |}.

(** The "Excel progress" block. *)
Definition excel_progress (is_completed : bool) (excel_count : Z) : Q :=
  if (is_completed && (0 <? excel_count))%bool then 100%Q
  else
    let expected_excel := 4%Q in
    Py.min 100 (inject_Z excel_count / expected_excel * 100)%Q.

(** The "Overall progress" block. *)
Definition overall_progress (lf_percent : Q) (oal_workers : Z) (oal_percent excel_percent : Q)
  : Q :=
  if (Qgeb lf_percent 100 && ((oal_workers =? 0) || Qgeb oal_percent 100))%bool then 100%Q
  else if 0 <? oal_workers then
    (lf_percent * (1 # 2) + oal_percent * (35 # 100) + excel_percent * (15 # 100))%Q
  else (lf_percent * (85 # 100) + excel_percent * (15 # 100))%Q.

(** The "Determine status" block. *)
Definition run_status_of (progress : Progress) : string :=
  if 0 <? p_running progress then "RUNNING"
  else if ((p_done progress =? p_total progress) && (0 <? p_total progress))%bool
  then "COMPLETED"
  else if p_total progress =? 0 then "NO_DATA"
  else "IDLE".

Record Status : Type := {
  s_status : string;
  s_backend : string;
  s_progress : Progress;
  s_lf : Q;
  s_oal : OalProgress;
  s_excel : Q;
  s_overall : Q;
  s_workers : gmap string WorkerInfo;
  s_pending_routes : gmap (option string) RouteInfo;
  s_running_tasks : list TaskDetail;
  s_excel_count : Z;
  s_speed_metrics : SpeedMetrics;
  s_eta : Eta
}.

Definition update_status (w : World) (ms : MetricsState) : result (Status * MetricsState) :=
  let config := get_config_from_checkpoint w in
  progress ← calculate_progress_from_tasks w;
  workers ← get_worker_status_from_tasks w;
  pending_routes ← get_pending_routes_info w;
  let excel_files := count_excel_files w (cfg_started_at config) in
  let lf_percent := p_percent progress in
  let oal_workers := cfg_oal_workers config in
  let run_completed := run_is_completed w in
  let oal_state := load_oal_state w in
  let oal := oal_progress config oal_state run_completed progress in
  let is_completed := run_is_completed w in
  let excel_count := Z.of_nat (length excel_files) in
  let excel_percent := excel_progress is_completed excel_count in
  let overall := overall_progress lf_percent oal_workers (op_percent oal) excel_percent in
  let '(speed_metrics, ms') :=
    calculate_speed_metrics (w_now w) (p_done progress) (p_failed progress) ms in
  let eta :=
    calculate_eta (p_total progress) (p_done progress) (speed_per_minute speed_metrics)
                  oal_state oal_workers in
  Ok ({| s_status := run_status_of progress;
         s_backend := if _sqlite_checkpoint_available w then "sqlite" else "json";
         s_progress := progress;
         s_lf := Py.round lf_percent 1;
         s_oal := oal;
         s_excel := Py.round excel_percent 1;
         s_overall := Py.round overall 1;
         s_workers := workers;
         s_pending_routes := pending_routes;
         s_running_tasks :=
           filter (fun t => d_status t = JStr "RUNNING") (p_tasks_detail progress);
         s_excel_count := excel_count;
         s_speed_metrics := speed_metrics;
         s_eta := eta |}, ms').

(** One iteration of [monitor_loop]: an exception of [update_status] is
    printed and the iteration publishes nothing. *)
Definition monitor_step (w : World) (ms : MetricsState) : option Status * MetricsState :=
  match update_status w ms with
  | Ok (status, ms') => (Some status, ms')
  | Raise _ => (None, ms)
  end.

(** ** Path resolution *)

(** A [pathlib.Path] is the list of its parts (POSIX flavour: the root,
    when present, is the part ["/"]). *)
Definition Path : Type := list string.

(** [p / name] and [p.parent] *)
Definition path_join (p : Path) (name : string) : Path := (p ++ [name])%list.
Definition path_parent (p : Path) : Path := removelast p.

Fixpoint split_slash (s acc : string) : list string :=
  match s with
  | EmptyString => [acc]
  | String c r =>
      if Ascii.eqb c "/" then acc :: split_slash r EmptyString
      else split_slash r (acc ++ String c EmptyString)%string
  end.

(** [Path(s)]: empty and ["."] components are dropped. *)
Definition path_of_string (s : string) : Path :=
  let parts :=
    filter (fun x => x <> "" /\ x <> ".") (split_slash s EmptyString) in
  match s with
  | String c _ => if Ascii.eqb c "/" then "/" :: parts else parts
  | EmptyString => parts
  end.

(** Orders as three-way comparisons, and their lexicographic products:
    this is how Python compares tuples and how [pathlib] compares paths
    (part by part, each part by code points). *)
Definition lex (c1 c2 : comparison) : comparison :=
  match c1 with
  | Eq => c2
  | _ => c1
  end.

Fixpoint list_compare {A} (cmp : A -> A -> comparison) (l1 l2 : list A) : comparison :=
  match l1, l2 with
  | [], [] => Eq
  | [], _ :: _ => Lt
  | _ :: _, [] => Gt
  | a :: l1', b :: l2' => lex (cmp a b) (list_compare cmp l1' l2')
  end.

Definition path_compare (p q : Path) : comparison := list_compare String.compare p q.

(** The ranking key [(is_active, activity_ts, started_ts, run_state_mtime,
    run_state_file)]. *)
Record Key : Type := {
  k_is_active : Z;
  k_activity_ts : Q;
  k_started_ts : Q;
  k_run_state_mtime : Q;
  k_path : Path
}.

Definition key_compare (a b : Key) : comparison :=
  lex (k_is_active a ?= k_is_active b)
   (lex (k_activity_ts a ?= k_activity_ts b)%Q
     (lex (k_started_ts a ?= k_started_ts b)%Q
       (lex (k_run_state_mtime a ?= k_run_state_mtime b)%Q
         (path_compare (k_path a) (k_path b))))).

(** [key > best] on tuples. *)
Definition key_gt (key best : Key) : bool :=
  match key_compare key best with
  | Gt => true
  | _ => false
  end.

(** The pointer file [.active_output_dir]. *)
Inductive PointerFile : Type :=
  | PointerAbsent
  | PointerMalformed                          (* [json.load] or [data.get] raises *)
  | PointerDoc (active_output_dir : option string).

(** The file system during one call. [fs_run_state] is [json.load(f) or {}]
    ([None] when reading raises or the document is falsy); [fs_stat] is
    [p.stat().st_mtime] ([None] when it raises); [fs_glob] is the result of
    the recursive [glob.glob] for a base directory. *)
Record FileSystem : Type := {
  fs_time : Q;
  fs_pointer : PointerFile;
  fs_exists : Path -> bool;
  fs_stat : Path -> option Q;
  fs_run_state : Path -> option RunState;
  fs_parse_iso : string -> option Q;
  fs_glob : Path -> list Path
}.

Definition _parse_iso_timestamp (fs : FileSystem) (value : option string) : Q :=
  match value with
  | None => 0%Q
  | Some v => if String.eqb v "" then 0%Q else default 0%Q (fs_parse_iso fs v)
  end.

(** [max(mtimes)] of a non-empty list. *)
Definition list_max (x : Q) (xs : list Q) : Q := fold_left Py.max xs x.

Definition _activity_timestamp_for_checkpoint (fs : FileSystem) (checkpoint_dir : Path) : Q :=
  let candidates :=
    [ path_join checkpoint_dir "chunk_state.db";
      path_join checkpoint_dir "oal_state.json";
      path_join checkpoint_dir "flight_booking_data.json";
      path_join checkpoint_dir "worker_heartbeats.json";
      path_join checkpoint_dir "tasks_state.json" ] in
  let mtimes :=
    flat_map (fun p =>
      if fs_exists fs p then
        match fs_stat fs p with Some m => [m] | None => [] end
      else []) candidates in
  match mtimes with
  | [] => 0%Q
  | m :: rest => list_max m rest
  end.

(** [(run_state.get("shutdown_type") or "").strip().upper()]; [None] when
    the value is a truthy non-string, on which [.strip] raises. *)
Definition shutdown_type_of (v : option jscalar) : option string :=
  match v with
  | None | Some JNull | Some (JBool false) => Some ""
  | Some (JNum n) => if n =? 0 then Some "" else None
  | Some (JBool true) => None
  | Some (JStr s) => Some (Py.upper (Py.strip s))
  end.

(** The body of the loop of [_select_active_run_state_file]: the key of one
    candidate, [None] when the outer [try] catches an exception. *)
Definition candidate_key (fs : FileSystem) (run_state_file : Path) : option Key :=
  let checkpoint_dir := path_parent run_state_file in
  let run_state := fs_run_state fs run_state_file in
  shutdown_type ← shutdown_type_of (run_state ≫= rs_shutdown_type);
  let is_active := if String.eqb shutdown_type "COMPLETED" then 0 else 1 in
  let started_ts := _parse_iso_timestamp fs (run_state ≫= rs_started_at) in
  let activity_ts := _activity_timestamp_for_checkpoint fs checkpoint_dir in
  run_state_mtime ← fs_stat fs run_state_file;
  Some {| k_is_active := is_active; k_activity_ts := activity_ts;
          k_started_ts := started_ts; k_run_state_mtime := run_state_mtime;
          k_path := run_state_file |}.

Definition select_step (fs : FileSystem) (best : option Key) (run_state_file : Path)
  : option Key :=
  match candidate_key fs run_state_file with
  | None => best
  | Some key =>
      match best with
      | None => Some key
      | Some b => if key_gt key b then Some key else best
      end
  end.

Definition _select_active_run_state_file (fs : FileSystem) (run_state_files : list Path)
  : option Path :=
  k_path <$> fold_left (select_step fs) run_state_files None.

(** [_read_pointer_file] *)
Definition _read_pointer_file (fs : FileSystem) : option Path :=
  match fs_pointer fs with
  | PointerAbsent => None
  | PointerMalformed => None
  | PointerDoc d =>
      let active_dir := path_of_string (default "" d) in
      if (fs_exists fs active_dir && fs_exists fs (path_join active_dir "checkpoints"))%bool
      then Some active_dir
      else None
  end.

(** The module-level variables written by [refresh_active_paths]. *)
Record ResolverState : Type := {
  ACTIVE_OUTPUT_DIR : Path;
  ACTIVE_CHECKPOINT_DIR : Path;
  ACTIVE_LOGS_DIR : Path;
  RUN_STATE_FILE : Path;
  TASKS_STATE_FILE : Path;
  OAL_STATE_FILE : Path;
  FLIGHT_BOOKING_FILE : Path;
  SQLITE_STATE_DB : Path;
  _last_active_scan_ts : Q;
  _active_run_state_file : option Path
}.

(** What a call does to the file system, in order. *)
Inductive FsEvent : Type :=
  | EvReadPointer
  | EvGlob (base_dir : Path)
  | EvSelect (candidates : list Path).

Definition is_scan (e : FsEvent) : bool :=
  match e with
  | EvReadPointer => false
  | EvGlob _ | EvSelect _ => true
  end.

Definition scan_count (trace : list FsEvent) : nat := length (filter (fun e => is_scan e = true) trace).

Definition _ACTIVE_SCAN_INTERVAL_SECONDS : Q := 2.

Definition set_paths (st : ResolverState) (now : Q) (output_dir checkpoint_dir : Path)
    (active : option Path) : ResolverState :=
  {| ACTIVE_OUTPUT_DIR := output_dir;
     ACTIVE_CHECKPOINT_DIR := checkpoint_dir;
     ACTIVE_LOGS_DIR := path_join output_dir "logs";
     RUN_STATE_FILE := path_join checkpoint_dir "run_state.json";
     TASKS_STATE_FILE := path_join checkpoint_dir "tasks_state.json";
     OAL_STATE_FILE := path_join checkpoint_dir "oal_state.json";
     FLIGHT_BOOKING_FILE := path_join checkpoint_dir "flight_booking_data.json";
     SQLITE_STATE_DB := path_join checkpoint_dir "chunk_state.db";
     _last_active_scan_ts := now;
     _active_run_state_file := active |}.

Section Resolver.

Variable PROJECT_ROOT : Path.
Variable BASE_OUTPUT_DIRS : list Path.

(** Whether the call returns at once because the last resolution is
    younger than the scan interval. *)
Definition cache_hit (fs : FileSystem) (force : bool) (st : ResolverState) : bool :=
  (negb force
   && Qltb (fs_time fs - _last_active_scan_ts st)%Q _ACTIVE_SCAN_INTERVAL_SECONDS)%bool.

(** The fallback branch: glob every base directory, then rank. *)
Definition scan_fallback (fs : FileSystem) : option Path * list FsEvent :=
  let all_run_state_files := flat_map (fs_glob fs) BASE_OUTPUT_DIRS in
  (_select_active_run_state_file fs all_run_state_files,
   (map EvGlob BASE_OUTPUT_DIRS ++ [EvSelect all_run_state_files])%list).

Definition refresh_active_paths (fs : FileSystem) (force : bool) (st : ResolverState)
  : ResolverState * list FsEvent :=
  let now := fs_time fs in
  if cache_hit fs force st then (st, [])
  else
    match _read_pointer_file fs with
    | Some pointer_dir =>
        let output_dir := pointer_dir in
        let checkpoint_dir := path_join pointer_dir "checkpoints" in
        (set_paths st now output_dir checkpoint_dir
                   (Some (path_join checkpoint_dir "run_state.json")),
         [EvReadPointer])
    | None =>
        let '(selected, events) := scan_fallback fs in
        let '(checkpoint_dir, active) :=
          match selected with
          | None =>
              (path_join (default (path_join PROJECT_ROOT "outputs") (head BASE_OUTPUT_DIRS))
                         "checkpoints",
               _active_run_state_file st)
          | Some sel => (path_parent sel, Some sel)
          end in
        let output_dir := path_parent checkpoint_dir in
        (set_paths st now output_dir checkpoint_dir active, EvReadPointer :: events)
    end.

End Resolver.

(** ** Live log tail: [get_live_logs] *)

(** A log file found by the recursive glob: its base name, its
    modification time ([None] when [os.path.getmtime] raises) and its
    lines without their line ends ([None] when opening or reading
    raises). *)
Record LogFile : Type := {
  log_basename : string;
  log_mtime : option Q;
  log_lines : option (list string)
}.

Inductive LogError : Type :=
  | NoLogFilesFound       (* "No log files found" *)
  | LogException.         (* [str(e)] of a caught exception *)

(** The dictionary returned by [get_live_logs]. *)
Record LiveLogs : Type := {
  ll_lines : list string;
  ll_file : option string;
  ll_total_lines : option Z;
  ll_error : option LogError
}.

Definition live_logs_error (e : LogError) : LiveLogs :=
  {| ll_lines := []; ll_file := None; ll_total_lines := None; ll_error := Some e |}.

(** [max(log_files, key=os.path.getmtime)]: every key is computed, the
    first file with the greatest key is returned. *)
Fixpoint latest_log (best : LogFile * Q) (files : list LogFile) : option LogFile :=
  match files with
  | [] => Some (fst best)
  | f :: rest =>
      match log_mtime f with
      | None => None
      | Some m => latest_log (if Qltb (snd best) m then (f, m) else best) rest
      end
  end.

(** The content of [deque(maxlen=max_lines)] after every line was
    appended: the last [max_lines] lines. *)
Definition tail_lines (max_lines : nat) (lines : list string) : list string :=
  drop (length lines - max_lines) lines.

(** [[line.strip() for line in tail if line and line.strip()]] *)
Definition format_lines (tail : list string) : list string :=
  map Py.strip (filter (fun line => line <> "" /\ Py.strip line <> "") tail).

Definition get_live_logs (max_lines : Z) (log_files : list LogFile) : LiveLogs :=
  match log_files with
  | [] => live_logs_error NoLogFilesFound
  | f :: rest =>
      match log_mtime f with
      | None => live_logs_error LogException
      | Some m =>
          match latest_log (f, m) rest with
          | None => live_logs_error LogException
          | Some latest =>
              match log_lines latest with
              | None => live_logs_error LogException
              | Some lines =>
                  if max_lines <? 0 then live_logs_error LogException
                  else
                    {| ll_lines := format_lines (tail_lines (Z.to_nat max_lines) lines);
                       ll_file := Some (log_basename latest);
                       ll_total_lines := Some (Z.of_nat (length lines));
                       ll_error := None |}
              end
          end
      end
  end.

(** ** Predicates used in the statements *)

(** A JSON task whose status is absent or is none of the three strings
    the counting loop tests for. *)
Definition unrecognised_json (t : Task) : Prop :=
  t_status t <> Some (JStr "DONE") /\ t_status t <> Some (JStr "RUNNING")
  /\ t_status t <> Some (JStr "FAILED").

#[global] Instance unrecognised_json_dec t : Decision (unrecognised_json t).
Proof. unfold unrecognised_json. apply _. Defined.

(** A database state that, lower-cased, is none of the recognised ones. *)
Definition unrecognised_sql (state : option string) : Prop :=
  let s := Py.lower (default "" state) in
  s <> "running" /\ s <> "done" /\ s <> "failed" /\ s <> "failed_exhausted".

(** A database state that is one of the five the statistics know, in
    lower case. *)
Definition recognised_state (s : option string) : Prop :=
  s = Some "pending" \/ s = Some "running" \/ s = Some "done"
  \/ s = Some "failed" \/ s = Some "failed_exhausted".

(** The five state counters of the [stats] dictionary. *)
Definition stats_five (stats : gmap string Z) : Z :=
  stats_get stats "pending" + stats_get stats "running" + stats_get stats "done"
  + stats_get stats "failed" + stats_get stats "failed_exhausted".

Definition counts_sum (c : Counts) : Z :=
  c_done c + c_running c + c_pending c + c_failed c.

Definition progress_sum (p : Progress) : Z :=
  p_done p + p_running p + p_pending p + p_failed p.

(** A three-way comparison that is a total order up to its [Eq] classes. *)
Record GoodCmp {A : Type} (cmp : A -> A -> comparison) : Prop := {
  gc_antisym : forall a b, cmp b a = CompOpp (cmp a b);
  gc_eq_l : forall a b c, cmp a b = Eq -> cmp a c = cmp b c;
  gc_gt_trans : forall a b c, cmp a b = Gt -> cmp b c = Gt -> cmp a c = Gt
}.

(** The minutes of an ETA, an absent one counting as 0. *)
Definition eta_minutes (o : option Q) : Q := default 0%Q o.

(** Strings made of decimal digits. *)
Fixpoint all_digits (s : string) : bool :=
  match s with
  | EmptyString => true
  | String c r => is_digit c && all_digits r
  end.

(** The key under which a port is kept in the worker dictionary. *)
Definition port_key (port : Z) : string := Py.str_of_int port.

(** An entry of the worker dictionary is either the idle entry or a
    working one that names its task. *)
Definition worker_entry_ok (i : WorkerInfo) : Prop :=
  i = worker_idle \/ (wk_status i = "working" /\ exists t, wk_active_task i = JStr t).

(** The shape shared by the two loops of [get_pending_routes_info]: one
    row updates the entry of its route; [record_done] tells whether the
    dates of a done row are kept (the JSON loop) or dropped (the SQLite
    loop, which leaves the loop body early). *)
Definition route_row {A : Type} (route_of : A -> option string) (is_done : A -> bool)
    (dates_of : A -> list string) (record_done : bool)
    (m : gmap (option string) RouteInfo) (a : A) : gmap (option string) RouteInfo :=
  let route := route_of a in
  let r := default route_info_init (m !! route) in
  if is_done a then
    <[route := {| total_tasks := total_tasks r + 1; done_tasks := done_tasks r + 1;
                  pending_dates := pending_dates r;
                  done_dates := if record_done then (done_dates r ++ dates_of a)%list
                                else done_dates r |}]> m
  else
    <[route := {| total_tasks := total_tasks r + 1; done_tasks := done_tasks r;
                  pending_dates := (pending_dates r ++ dates_of a)%list;
                  done_dates := done_dates r |}]> m.

Definition json_route (it : string * Task) : option string := t_route (snd it).
Definition json_done (it : string * Task) : bool :=
  bool_decide (t_status (snd it) = Some (JStr "DONE")).
Definition json_dates (it : string * Task) : list string := default [] (t_dates (snd it)).

Definition sql_done (row : ChunkTask) : bool :=
  bool_decide (Py.lower (default "" (tr_state row)) = "done").
Definition sql_dates (row : ChunkTask) : list string := default [] (tr_dates row).

(** All dates of a list of rows, in order. *)
Definition all_dates {A : Type} (dates_of : A -> list string) (rows : list A) : list string :=
  concat (map dates_of rows).

(** The rows of one route, and among rows the done and the open ones. *)
Definition rows_of_route {A : Type} (route_of : A -> option string) (r : option string)
    (rows : list A) : list A :=
  filter (fun a => route_of a = r) rows.
Definition done_rows {A : Type} (is_done : A -> bool) (rows : list A) : list A :=
  filter (fun a => is_done a = true) rows.
Definition open_rows {A : Type} (is_done : A -> bool) (rows : list A) : list A :=
  filter (fun a => is_done a = false) rows.

(** The same file system with another pointer file. *)
Definition with_pointer (fs : FileSystem) (p : PointerFile) : FileSystem :=
  {| fs_time := fs_time fs; fs_pointer := p; fs_exists := fs_exists fs;
     fs_stat := fs_stat fs; fs_run_state := fs_run_state fs;
     fs_parse_iso := fs_parse_iso fs; fs_glob := fs_glob fs |}.

(** The module-level paths agree with each other: the output directory is
    the parent of the checkpoint directory and every state file lies in
    the checkpoint directory. *)
Definition resolver_consistent (st : ResolverState) : Prop :=
  ACTIVE_OUTPUT_DIR st = path_parent (ACTIVE_CHECKPOINT_DIR st)
  /\ ACTIVE_LOGS_DIR st = path_join (ACTIVE_OUTPUT_DIR st) "logs"
  /\ RUN_STATE_FILE st = path_join (ACTIVE_CHECKPOINT_DIR st) "run_state.json"
  /\ TASKS_STATE_FILE st = path_join (ACTIVE_CHECKPOINT_DIR st) "tasks_state.json"
  /\ OAL_STATE_FILE st = path_join (ACTIVE_CHECKPOINT_DIR st) "oal_state.json"
  /\ FLIGHT_BOOKING_FILE st = path_join (ACTIVE_CHECKPOINT_DIR st) "flight_booking_data.json"
  /\ SQLITE_STATE_DB st = path_join (ACTIVE_CHECKPOINT_DIR st) "chunk_state.db".

(** The five work-indicating artifacts of a checkpoint directory. *)
Definition activity_artifacts : list string :=
  ["chunk_state.db"; "oal_state.json"; "flight_booking_data.json";
   "worker_heartbeats.json"; "tasks_state.json"].

(** The ranking key as the specification words it, component by
    component, for a candidate run-state file [f]. *)

(** [isActive] is 1 unless the shutdown-type marker, stripped and in upper
    case, equals "COMPLETED"; an absent or falsy marker counts as active. *)
Definition spec_is_active (marker : option jscalar) (a : Z) : Prop :=
  match marker with
  | Some (JStr s) => a = if String.eqb (Py.upper (Py.strip s)) "COMPLETED" then 0 else 1
  | _ => a = 1
  end.

(** [startedAt] is the parsed start time of the run state, 0 when it is
    absent, empty or does not parse. *)
Definition spec_started (fs : FileSystem) (started_at : option string) (t : Q) : Prop :=
  match started_at with
  | Some v => t = if String.eqb v "" then 0%Q else default 0%Q (fs_parse_iso fs v)
  | None => t = 0%Q
  end.

(** An artifact of the checkpoint directory that exists and whose
    modification time can be read. *)
Definition artifact_mtime (fs : FileSystem) (checkpoint_dir : Path) (name : string) (m : Q)
  : Prop :=
  In name activity_artifacts
  /\ fs_exists fs (path_join checkpoint_dir name) = true
  /\ fs_stat fs (path_join checkpoint_dir name) = Some m.

(** [lastActivityTime] is the greatest modification time among the work
    artifacts, 0 when there is none. *)
Definition spec_activity (fs : FileSystem) (checkpoint_dir : Path) (t : Q) : Prop :=
  (forall name m, artifact_mtime fs checkpoint_dir name m -> (m <= t)%Q)
  /\ ((exists name, artifact_mtime fs checkpoint_dir name t)
      \/ (t = 0%Q /\ forall name m, ~ artifact_mtime fs checkpoint_dir name m)).

Definition spec_key_of (fs : FileSystem) (f : Path) (k : Key) : Prop :=
  spec_is_active (fs_run_state fs f ≫= rs_shutdown_type) (k_is_active k)
  /\ spec_activity fs (path_parent f) (k_activity_ts k)
  /\ spec_started fs (fs_run_state fs f ≫= rs_started_at) (k_started_ts k)
  /\ fs_stat fs f = Some (k_run_state_mtime k)
  /\ k_path k = f.

(** A candidate the loop skips: its [stat] raises, or its shutdown-type
    marker is a truthy value that is not a string. *)
Definition unrankable (fs : FileSystem) (f : Path) : Prop :=
  fs_stat fs f = None
  \/ (fs_run_state fs f ≫= rs_shutdown_type) = Some (JBool true)
  \/ (exists n, n <> 0 /\ (fs_run_state fs f ≫= rs_shutdown_type) = Some (JNum n)).

(** The descending lexicographic order of the five components, written
    out: [k'] of the candidate [f] does not exceed [k] of the candidate
    [p]. *)
Definition ranked_below (k' : Key) (f : Path) (k : Key) (p : Path) : Prop :=
  k_is_active k' < k_is_active k
  \/ (k_is_active k' = k_is_active k
      /\ ((k_activity_ts k' < k_activity_ts k)%Q
          \/ ((k_activity_ts k' == k_activity_ts k)%Q
              /\ ((k_started_ts k' < k_started_ts k)%Q
                  \/ ((k_started_ts k' == k_started_ts k)%Q
                      /\ ((k_run_state_mtime k' < k_run_state_mtime k)%Q
                          \/ ((k_run_state_mtime k' == k_run_state_mtime k)%Q
                              /\ (path_compare f p = Lt \/ f = p)))))))).

(** A string of ASCII characters, on which [Py.lower] and [Py.upper] are
    [str.lower] and [str.upper]. *)
Definition is_ascii (s : string) : Prop :=
  Forall (fun c => (N_of_ascii c < 128)%N) (list_ascii_of_string s).

(** The run state of the candidate [f] carries the shutdown type
    "COMPLETED", up to surrounding white space and letter case. *)
Definition marked_completed (fs : FileSystem) (f : Path) : Prop :=
  exists s, (fs_run_state fs f ≫= rs_shutdown_type) = Some (JStr s)
            /\ Py.upper (Py.strip s) = "COMPLETED".

(** A pointer file that is present but of no use: it does not parse, or
    the directory it names is missing or has no "checkpoints"
    subdirectory. *)
Definition pointer_unusable (fs : FileSystem) : Prop :=
  fs_pointer fs = PointerMalformed
  \/ exists d, fs_pointer fs = PointerDoc d
       /\ (fs_exists fs (path_of_string (default "" d)) = false
           \/ fs_exists fs (path_join (path_of_string (default "" d)) "checkpoints")
              = false).


(** ** Scenarios *)

Module Scenario.

Definition chunk (id : string) (state : option string) : ChunkTask :=
  {| tr_task_id := id; tr_route := Some "CAI-JED"; tr_chunk_idx := 0;
     tr_state := state; tr_worker_id := None; tr_dates := None;
     tr_lease_expires_at := None; tr_updated_at := None |}.

Definition task (status : option jscalar) : Task :=
  {| t_status := status; t_route := Some "CAI-JED"; t_chunk_idx := None;
     t_assigned_worker := None; t_dates := None; t_started_at := None;
     t_completed_at := None |}.

(** Five tasks, three of them in a state the statistics do not know. *)
Definition db_cancelled : SqliteDb :=
  {| chunk_tasks := [chunk "a" (Some "cancelled"); chunk "b" (Some "done");
                     chunk "c" (Some "cancelled"); chunk "d" (Some "done");
                     chunk "e" (Some "cancelled")];
     worker_heartbeats := [];
     db_raises := fun _ => None |}.

(** A database whose heartbeat query hits a lock. *)
Definition db_locked : SqliteDb :=
  {| chunk_tasks := [chunk "a" (Some "done"); chunk "b" (Some "running")];
     worker_heartbeats := [];
     db_raises := fun q =>
       match q with
       | QHeartbeats => Some (OperationalError "database is locked")
       | _ => None
       end |}.

Definition world (exists_db : bool) (db : SqliteDb) : World :=
  {| w_now := 1000; w_sqlite_exists := exists_db; w_db := db;
     w_run_state := None;
     w_tasks_state := [("a", task (Some (JStr "DONE"))); ("b", task None);
                       ("c", task (Some (JStr "done")))];
     w_oal_state := None; w_parse_iso := fun _ => None; w_excel_mtimes := [] |}.

Definition oal (total completed : Z) (routes : option Z) : OalState :=
  {| oal_percent := None; oal_status := None; oal_current_pass := None;
     oal_total_passes := None; oal_routes_completed_in_pass := None;
     oal_routes_total_per_pass := routes; oal_total_operations := Some total;
     oal_completed_operations := Some completed |}.

Definition metrics (last : Z) : MetricsState :=
  {| _speed_history := []; _last_error_count := last; _error_rate_history := [] |}.

Definition run_file (run : string) : Path :=
  ["/"; "outputs"; run; "checkpoints"; "run_state.json"].

(** A file system with a valid pointer and two candidate runs that differ
    in their path only. *)
Definition fs_pointer_ok : FileSystem :=
  {| fs_time := 100;
     fs_pointer := PointerDoc (Some "/outputs/run_b");
     fs_exists := fun p =>
       bool_decide (p = ["/"; "outputs"; "run_b"]
                    \/ p = ["/"; "outputs"; "run_b"; "checkpoints"]);
     fs_stat := fun _ => Some 50%Q;
     fs_run_state := fun _ => None;
     fs_parse_iso := fun _ => None;
     fs_glob := fun _ => [run_file "run_b"; run_file "run_a"] |}.

Definition resolver_init : ResolverState :=
  {| ACTIVE_OUTPUT_DIR := ["/"; "outputs"];
     ACTIVE_CHECKPOINT_DIR := ["/"; "outputs"; "checkpoints"];
     ACTIVE_LOGS_DIR := ["/"; "outputs"; "logs"];
     RUN_STATE_FILE := ["/"; "outputs"; "checkpoints"; "run_state.json"];
     TASKS_STATE_FILE := ["/"; "outputs"; "checkpoints"; "tasks_state.json"];
     OAL_STATE_FILE := ["/"; "outputs"; "checkpoints"; "oal_state.json"];
     FLIGHT_BOOKING_FILE := ["/"; "outputs"; "checkpoints"; "flight_booking_data.json"];
     SQLITE_STATE_DB := ["/"; "outputs"; "checkpoints"; "chunk_state.db"];
     _last_active_scan_ts := 0;
     _active_run_state_file := None |}.

(** A database with recognised states only. *)
Definition db_known : SqliteDb :=
  {| chunk_tasks := [chunk "a" (Some "done"); chunk "b" (Some "running");
                     chunk "c" (Some "failed_exhausted"); chunk "d" (Some "done")];
     worker_heartbeats := [];
     db_raises := fun _ => None |}.

(** A database whose statistics query hits a lock, the others not. *)
Definition db_stats_locked : SqliteDb :=
  {| chunk_tasks := [chunk "a" (Some "done"); chunk "b" (Some "running")];
     worker_heartbeats := [];
     db_raises := fun q =>
       match q with
       | QStateCounts => Some (OperationalError "database is locked")
       | _ => None
       end |}.

(** A file system in which run_b has a database file. *)
Definition fs_with_db : FileSystem :=
  {| fs_time := 100;
     fs_pointer := PointerAbsent;
     fs_exists := fun p =>
       bool_decide (p = ["/"; "outputs"; "run_b"; "checkpoints"; "chunk_state.db"]);
     fs_stat := fun _ => Some 50%Q;
     fs_run_state := fun _ => None;
     fs_parse_iso := fun _ => None;
     fs_glob := fun _ => [run_file "run_b"; run_file "run_a"] |}.

Definition log_files : list LogFile :=
  [ {| log_basename := "old.log"; log_mtime := Some 10%Q;
       log_lines := Some ["stale"] |};
    {| log_basename := "run.log"; log_mtime := Some 20%Q;
       log_lines := Some ["  start  "; ""; "   "; "step 1"; "step 2 "] |} ].

Definition run_state_doc (shutdown : option jscalar) (started : option string) : RunState :=
  {| rs_routes := None; rs_dates := None; rs_ports := None; rs_chunks_count := None;
     rs_oal_workers := None; rs_oal_passes := None; rs_run_id := None; rs_mode := None;
     rs_started_at := started; rs_shutdown_type := shutdown |}.

Definition run_db (run : string) : Path :=
  ["/"; "outputs"; run; "checkpoints"; "chunk_state.db"].

(** Three runs: run_a is completed, started last and was active last;
    run_b and run_c are active and differ in their path only. *)
Definition fs_ranked : FileSystem :=
  {| fs_time := 100;
     fs_pointer := PointerAbsent;
     fs_exists := fun p =>
       bool_decide (p = run_db "run_a" \/ p = run_db "run_b" \/ p = run_db "run_c");
     fs_stat := fun p =>
       if bool_decide (p = run_db "run_a") then Some 90%Q
       else if bool_decide (p = run_db "run_b" \/ p = run_db "run_c") then Some 50%Q
       else Some 40%Q;
     fs_run_state := fun p =>
       if bool_decide (p = run_file "run_a")
       then Some (run_state_doc (Some (JStr " completed ")) (Some "2026-01-02"))
       else Some (run_state_doc None (Some "2026-01-01"));
     fs_parse_iso := fun v =>
       if String.eqb v "2026-01-02" then Some 2000%Q
       else if String.eqb v "2026-01-01" then Some 1000%Q else None;
     fs_glob := fun _ => [run_file "run_a"; run_file "run_b"; run_file "run_c"] |}.

(** The file system [fs_with_db] after [run_state.json] of run_b was
    touched. *)
Definition fs_touched : FileSystem :=
  {| fs_time := 100;
     fs_pointer := PointerAbsent;
     fs_exists := fun p =>
       bool_decide (p = ["/"; "outputs"; "run_b"; "checkpoints"; "chunk_state.db"]
                    \/ p = ["/"; "outputs"; "run_b"; "checkpoints"; "run_state.json"]);
     fs_stat := fun p =>
       if bool_decide (p = ["/"; "outputs"; "run_b"; "checkpoints"; "run_state.json"])
       then Some 99%Q else Some 50%Q;
     fs_run_state := fun _ => None;
     fs_parse_iso := fun _ => None;
     fs_glob := fun _ => [run_file "run_b"; run_file "run_a"] |}.

(** A database whose all-tasks statement hits a lock, the others not. *)
Definition db_routes_locked : SqliteDb :=
  {| chunk_tasks := [chunk "a" (Some "done"); chunk "b" (Some "running")];
     worker_heartbeats := [];
     db_raises := fun q =>
       match q with
       | QAllTasks => Some (OperationalError "database is locked")
       | _ => None
       end |}.

(** A pointer that names an existing run directory without a
    "checkpoints" subdirectory. *)
Definition fs_no_checkpoints : FileSystem :=
  {| fs_time := 100;
     fs_pointer := PointerDoc (Some "/outputs/run_b");
     fs_exists := fun p => bool_decide (p = ["/"; "outputs"; "run_b"]);
     fs_stat := fun _ => Some 50%Q;
     fs_run_state := fun _ => None;
     fs_parse_iso := fun _ => None;
     fs_glob := fun _ => [run_file "run_a"] |}.



End Scenario.

(** * Properties *)

(** ** Task counts *)

Lemma count_task_sum c item : counts_sum (count_task c item) = counts_sum c + 1.
Proof.
  destruct item as [task_id task]. unfold count_task, counts_sum.
  repeat case_match; simpl; lia.
Qed.

Lemma fold_count_task_sum tasks c :
  counts_sum (fold_left count_task tasks c) = counts_sum c + Z.of_nat (length tasks).
Proof.
  revert c. induction tasks as [|item tasks IH]; intros c; simpl.
  - lia.
  - rewrite IH, count_task_sum. lia.
Qed.

(** The JSON backend keeps the four counters in step with the total. *)
Lemma progress_from_json_sum tasks :
  progress_sum (progress_from_json tasks) = p_total (progress_from_json tasks).
Proof.
  unfold progress_from_json, progress_sum.
  destruct tasks as [|item tasks]; [reflexivity|].
  cbn [p_done p_running p_pending p_failed p_total].
  pose proof (fold_count_task_sum (item :: tasks) counts_init) as H.
  unfold counts_sum in H. rewrite H. reflexivity.
Qed.

Lemma count_task_pending c id t :
  c_pending (count_task c (id, t)) =
  c_pending c + (if decide (unrecognised_json t) then 1 else 0).
Proof.
  unfold count_task, jstr_eqb. cbv zeta.
  destruct (decide (unrecognised_json t)) as [(Hd & Hr & Hf)|Hn].
  - destruct (t_status t) as [v|]; simpl in *;
      repeat case_bool_decide; subst; simpl; try lia; congruence.
  - destruct (decide (t_status t = Some (JStr "DONE"))) as [E|Ed];
      [rewrite E; simpl; lia|].
    destruct (decide (t_status t = Some (JStr "RUNNING"))) as [E|Er];
      [rewrite E; simpl; lia|].
    destruct (decide (t_status t = Some (JStr "FAILED"))) as [E|Ef];
      [rewrite E; simpl; lia|].
    exfalso. apply Hn. repeat split; assumption.
Qed.

Lemma fold_count_task_pending tasks c :
  c_pending (fold_left count_task tasks c) =
  c_pending c + Z.of_nat (length (filter (fun it => unrecognised_json (snd it)) tasks)).
Proof.
  revert c. induction tasks as [|[id t] tasks IH]; intros c.
  - simpl. lia.
  - cbn [fold_left]. rewrite IH, count_task_pending, filter_cons. cbn [snd].
    case_decide; simpl length; lia.
Qed.

(** C10. In the JSON backend a task whose status is absent or is not
    "DONE", "RUNNING" or "FAILED" is counted as pending and counts in the
    total: the pending counter is the number of such tasks and the total
    is the number of all tasks.  The status mapping of the SQLite
    backend sends every state it does not recognise to "PENDING". *)
Theorem unrecognised_status_is_pending :
  (forall tasks,
     p_pending (progress_from_json tasks) =
       Z.of_nat (length (filter (fun it => unrecognised_json (snd it)) tasks))
     /\ p_total (progress_from_json tasks) = Z.of_nat (length tasks))
  /\ (forall state, unrecognised_sql state ->
        _map_sqlite_state_to_task_status state = "PENDING").
Proof.
  split.
  - intros tasks. unfold progress_from_json.
    destruct tasks as [|item tasks]; [split; reflexivity|].
    cbn [p_pending p_total]. split; [|reflexivity].
    rewrite fold_count_task_pending. reflexivity.
  - intros state (Hr & Hd & Hf & Hx). unfold _map_sqlite_state_to_task_status.
    cbv zeta.
    destruct (decide (_ = "running")); [contradiction|].
    destruct (decide (_ = "done")); [contradiction|].
    destruct (decide (_ \/ _)) as [[?|?]|?]; [contradiction..|reflexivity].
Qed.

Lemma unrecognised_status_is_pending_witness :
  unrecognised_sql (Some "Cancelled")
  /\ _map_sqlite_state_to_task_status (Some "Cancelled") = "PENDING"
  /\ p_pending (progress_from_json (w_tasks_state (Scenario.world false Scenario.db_locked))) = 2.
Proof.
  split; [|split].
  - unfold unrecognised_sql. repeat split; discriminate.
  - apply (proj2 unrecognised_status_is_pending).
    unfold unrecognised_sql. repeat split; discriminate.
  - rewrite (proj1 (proj1 unrecognised_status_is_pending _)). reflexivity.
Defined.

(** ** SQLite statistics on recognised states *)

Lemma group_bump_keys s groups :
  map fst (group_bump s groups) =
  if decide (s ∈ map fst groups) then map fst groups
  else (map fst groups ++ [s])%list.
Proof.
  induction groups as [|[s' c] groups IH]; cbn [group_bump map fst].
  - destruct (decide (s ∈ [])) as [Hin|_]; [|reflexivity].
    apply elem_of_nil in Hin. contradiction.
  - destruct (decide (s' = s)) as [->|Hne]; cbn [map fst].
    + destruct (decide (s ∈ s :: map fst groups)) as [_|Hn]; [reflexivity|].
      exfalso. apply Hn, elem_of_cons. left. reflexivity.
    + rewrite IH.
      destruct (decide (s ∈ map fst groups)) as [Hin|Hn];
        destruct (decide (s ∈ s' :: map fst groups)) as [Hin'|Hn'];
        try reflexivity.
      * exfalso. apply Hn', elem_of_cons. right. exact Hin.
      * apply elem_of_cons in Hin'. destruct Hin' as [?|?]; [congruence | contradiction].
Qed.

Lemma group_fold_keys states groups :
  NoDup (map fst groups) ->
  NoDup (map fst (fold_left (fun g s => group_bump s g) states groups))
  /\ forall s, s ∈ map fst (fold_left (fun g s => group_bump s g) states groups) ->
       s ∈ map fst groups \/ s ∈ states.
Proof.
  revert groups. induction states as [|s states IH]; intros groups Hnd; cbn [fold_left].
  - split; [exact Hnd | auto].
  - assert (Hnd' : NoDup (map fst (group_bump s groups))).
    { rewrite group_bump_keys. destruct (decide (s ∈ map fst groups)) as [|Hn];
        [exact Hnd|].
      apply NoDup_app. split; [exact Hnd|]. split; [|apply NoDup_singleton].
      intros x Hx Hs. apply list_elem_of_singleton in Hs. subst x. contradiction. }
    destruct (IH _ Hnd') as [H1 H2]. split; [exact H1|].
    intros x Hx. destruct (H2 x Hx) as [Hb|Hs];
      [|right; apply elem_of_cons; right; exact Hs].
    rewrite group_bump_keys in Hb.
    destruct (decide (s ∈ map fst groups)); [left; exact Hb|].
    apply elem_of_app in Hb. destruct Hb as [?|Hb]; [left; assumption|].
    apply list_elem_of_singleton in Hb. subst x.
    right. apply elem_of_cons. left. reflexivity.
Qed.

Lemma stats_row_known stats state c :
  recognised_state state ->
  stats !! Py.lower (default "" state) = Some 0 ->
  stats_five (stats_row stats (state, c)) - stats_get (stats_row stats (state, c)) "total"
    = stats_five stats - stats_get stats "total"
  /\ forall other, recognised_state other -> other <> state ->
       stats_row stats (state, c) !! Py.lower (default "" other)
       = stats !! Py.lower (default "" other).
Proof.
  intros Hk H0. unfold stats_row. cbn [fst snd].
  destruct (decide (is_Some (stats !! Py.lower (default "" state)))) as [_|Hn];
    [|exfalso; apply Hn; rewrite H0; eauto].
  split.
  - unfold stats_five, stats_get.
    destruct Hk as [-> | [-> | [-> | [-> | ->]]]]; cbn in H0 |- *;
      simplify_map_eq; cbn; lia.
  - intros other Ho Hne.
    destruct Hk as [-> | [-> | [-> | [-> | ->]]]], Ho as [-> | [-> | [-> | [-> | ->]]]];
      try congruence; cbn; simplify_map_eq; reflexivity.
Qed.

Lemma stats_fold_known rows stats :
  NoDup (map fst rows) ->
  Forall (fun r => recognised_state (fst r)
                   /\ stats !! Py.lower (default "" (fst r)) = Some 0) rows ->
  stats_five (fold_left stats_row rows stats)
    - stats_get (fold_left stats_row rows stats) "total"
  = stats_five stats - stats_get stats "total".
Proof.
  revert stats. induction rows as [|[state c] rows IH]; intros stats Hnd Hall;
    cbn [fold_left]; [reflexivity|].
  cbn [map fst] in Hnd. apply NoDup_cons in Hnd. destruct Hnd as [Hnotin Hnd].
  inversion Hall as [|r rs [Hk H0] Hrest]; subst. cbn [fst] in Hk, H0.
  destruct (stats_row_known stats state c Hk H0) as [Hsum Hother].
  rewrite IH; [exact Hsum | exact Hnd |].
  clear IH Hsum Hall. induction Hrest as [|[state' c'] rows' [Hk' H0'] Hrest IHr];
    constructor.
  - cbn [fst] in *. split; [exact Hk'|]. rewrite Hother; [exact H0' | exact Hk' |].
    intros ->. apply Hnotin. cbn [map fst]. apply elem_of_cons. left. reflexivity.
  - apply IHr.
    + intros Hin. apply Hnotin. cbn [map fst]. apply elem_of_cons. right. exact Hin.
    + cbn [map fst] in Hnd. apply NoDup_cons in Hnd. apply Hnd.
Qed.

Lemma elem_of_map_fst {A B} (l : list (A * B)) r : r ∈ l -> fst r ∈ map fst l.
Proof.
  intros H. apply list_elem_of_In. apply in_map. apply list_elem_of_In. exact H.
Qed.

(** On a table whose states are all among the five recognised ones the
    four counters of the SQLite summary add up to its total. *)
Lemma sqlite_sum_recognised now db :
  (forall q, db_raises db q = None) ->
  Forall (fun t => recognised_state (tr_state t)) (chunk_tasks db) ->
  exists p, _calculate_progress_from_sqlite now db = Ok p /\ progress_sum p = p_total p.
Proof.
  intros Hok Hall. unfold _calculate_progress_from_sqlite, _sqlite_get_task_stats,
    sqlite_fetchall. rewrite !Hok. cbn [mbind result_bind]. cbv zeta.
  eexists. split; [reflexivity|]. unfold progress_sum.
  cbn [p_done p_running p_pending p_failed p_total].
  destruct (group_fold_keys (map tr_state (chunk_tasks db)) [] ltac:(constructor))
    as [Hnd Hin]. fold (group_count (map tr_state (chunk_tasks db))) in Hnd, Hin.
  set (rows := group_count (map tr_state (chunk_tasks db))) in *.
  assert (Hrec : forall r, r ∈ rows -> recognised_state (fst r)).
  { intros r Hr. destruct (Hin (fst r) (elem_of_map_fst _ _ Hr)) as [Hn|Hs].
    - apply elem_of_nil in Hn. contradiction.
    - apply list_elem_of_In, in_map_iff in Hs. destruct Hs as (t & <- & Ht).
      rewrite Forall_forall in Hall. apply Hall, list_elem_of_In. exact Ht. }
  assert (Hpre : Forall (fun r => recognised_state (fst r)
                   /\ stats_init !! Py.lower (default "" (fst r)) = Some 0) rows).
  { apply Forall_forall. intros r Hr.
    pose proof (Hrec r Hr) as Hk. split; [exact Hk|].
    destruct Hk as [-> | [-> | [-> | [-> | ->]]]]; reflexivity. }
  pose proof (stats_fold_known rows stats_init Hnd Hpre) as Hsum.
  change (stats_five stats_init - stats_get stats_init "total") with 0 in Hsum.
  set (stats := fold_left stats_row rows stats_init) in *.
  unfold stats_five in Hsum. unfold stats_get in *. simplify_map_eq. lia.
Qed.

(** C1. On the SQLite backend the four counters do not add up to the
    total when the table holds a state outside the known ones: here
    three "cancelled" rows enter [total] and no counter. *)
Theorem sqlite_counters_miss_unknown_state :
  exists p,
    _calculate_progress_from_sqlite 0 Scenario.db_cancelled = Ok p
    /\ p_total p = 5 /\ progress_sum p = 2
    /\ calculate_progress_from_tasks (Scenario.world true Scenario.db_cancelled) = Ok
         {| p_total := 5; p_done := 2; p_running := 0; p_pending := 0; p_failed := 0;
            p_percent := p_percent p; p_tasks_detail := [] |}.
Proof.
  eexists. split; [vm_compute; reflexivity|].
  split; [reflexivity|]. split; reflexivity.
Qed.

(** ** Fallback to the JSON backend *)

(** The progress summary never raises: an exception of the SQLite path
    is caught and the JSON path, which does not raise, answers. *)
Lemma calculate_progress_never_raises w :
  exists p, calculate_progress_from_tasks w = Ok p.
Proof.
  unfold calculate_progress_from_tasks, try_except.
  destruct (_sqlite_checkpoint_available w); [|eauto].
  destruct (_calculate_progress_from_sqlite _ _); eauto.
Qed.

(** When a statement of the progress path raises, the poll answers from
    [tasks_state.json]. *)
Lemma calculate_progress_falls_back w e :
  _calculate_progress_from_sqlite (w_now w) (w_db w) = Raise e ->
  calculate_progress_from_tasks w = Ok (progress_from_json (load_tasks_state w)).
Proof.
  intros H. unfold calculate_progress_from_tasks, try_except. rewrite H.
  destruct (_sqlite_checkpoint_available w); reflexivity.
Qed.

(** The worker status has no such handler: with the database file
    present, an error of the heartbeat query leaves the function. *)
Lemma worker_status_raises w e :
  _sqlite_checkpoint_available w = true ->
  db_raises (w_db w) QHeartbeats = Some e ->
  get_worker_status_from_tasks w = Raise e.
Proof.
  intros Ha Hq. unfold get_worker_status_from_tasks, sqlite_fetchall.
  rewrite Ha, Hq. reflexivity.
Qed.

Lemma pending_routes_raises w e :
  _sqlite_checkpoint_available w = true ->
  db_raises (w_db w) QAllTasks = Some e ->
  get_pending_routes_info w = Raise e.
Proof.
  intros Ha Hq. unfold get_pending_routes_info, sqlite_fetchall.
  rewrite Ha, Hq. reflexivity.
Qed.

(** C2. With the database file present and the heartbeat query hitting a
    lock, the worker status does not fall back to the JSON backend: the
    error leaves [get_worker_status_from_tasks] and [update_status], and
    the iteration of the monitor loop publishes no snapshot, although the
    progress summary of the same poll is computed. *)
Theorem sql_error_leaves_worker_status :
  let w := Scenario.world true Scenario.db_locked in
  let e := OperationalError "database is locked" in
  (exists p, calculate_progress_from_tasks w = Ok p)
  /\ get_worker_status_from_tasks w = Raise e
  /\ update_status w metrics_init = Raise e
  /\ monitor_step w metrics_init = (None, metrics_init).
Proof.
  intros w e. split; [apply calculate_progress_never_raises|].
  assert (Hw : get_worker_status_from_tasks w = Raise e)
    by (apply worker_status_raises; reflexivity).
  assert (Hu : update_status w metrics_init = Raise e).
  { unfold update_status. rewrite Hw.
    destruct (calculate_progress_never_raises w) as [p ->]. reflexivity. }
  split; [exact Hw|]. split; [exact Hu|].
  unfold monitor_step. rewrite Hu. reflexivity.
Qed.

(** ** Rational comparisons *)

Lemma Qltb_lt a b : Qltb a b = true <-> (a < b)%Q.
Proof.
  unfold Qltb. rewrite Qlt_alt. destruct (a ?= b)%Q; split; congruence.
Qed.

Lemma Qltb_ge a b : Qltb a b = false <-> (b <= a)%Q.
Proof.
  split.
  - intros H. apply Qnot_lt_le. intros Hlt. apply Qltb_lt in Hlt. congruence.
  - intros H. destruct (Qltb a b) eqn:E; [|reflexivity].
    apply Qltb_lt in E. exfalso. exact (Qlt_not_le _ _ E H).
Qed.

Lemma Qle_bool_false a b : Qle_bool a b = false <-> (b < a)%Q.
Proof.
  split.
  - intros H. apply Qnot_le_lt. intros Hle. apply Qle_bool_iff in Hle. congruence.
  - intros H. destruct (Qle_bool a b) eqn:E; [|reflexivity].
    apply Qle_bool_iff in E. exfalso. exact (Qlt_not_le _ _ H E).
Qed.

Lemma Qdiv_pos a b : (0 < a)%Q -> (0 < b)%Q -> (0 < a / b)%Q.
Proof.
  intros Ha Hb. unfold Qdiv.
  apply Qmult_lt_0_compat; [exact Ha | apply Qinv_lt_0_compat; exact Hb].
Qed.

Lemma inject_Z_pos z : 0 < z -> (0 < inject_Z z)%Q.
Proof. intros H. change 0%Q with (inject_Z 0). rewrite <- Zlt_Qlt. exact H. Qed.

Lemma truthy_pos x : (0 < x)%Q -> Py.truthy (Some x) = true.
Proof.
  intros H. unfold Py.truthy. destruct (Qeq_bool x 0) eqn:E; [|reflexivity].
  apply Qeq_bool_iff in E. rewrite E in H. exfalso. exact (Qlt_irrefl _ H).
Qed.

Lemma py_max_zero_l y : (0 < y)%Q -> Py.max 0 y = y.
Proof.
  intros H. unfold Py.max. destruct (Qlt_le_dec 0 y) as [_|Hle]; [reflexivity|].
  exfalso. exact (Qlt_not_le _ _ H Hle).
Qed.

Lemma py_max_zero_r x : (0 <= x)%Q -> Py.max x 0 = x.
Proof.
  intros H. unfold Py.max. destruct (Qlt_le_dec x 0) as [Hlt|_]; [|reflexivity].
  exfalso. exact (Qlt_not_le _ _ Hlt H).
Qed.

Lemma py_max_pos_r x y : (0 < y)%Q -> (0 < Py.max x y)%Q.
Proof.
  intros H. unfold Py.max. destruct (Qlt_le_dec x y) as [_|Hle]; [exact H|].
  eapply Qlt_le_trans; eassumption.
Qed.

Lemma py_max_compat x x' y : (x == x')%Q -> (Py.max x y == Py.max x' y)%Q.
Proof.
  intros H. unfold Py.max.
  destruct (Qlt_le_dec x y) as [H1|H1], (Qlt_le_dec x' y) as [H2|H2];
    try reflexivity; try exact H.
  - rewrite H in H1. apply Qle_antisym; [exact H2 | apply Qlt_le_weak; exact H1].
  - rewrite H in H1 |- *. apply Qle_antisym; [apply Qlt_le_weak; exact H2 | exact H1].
Qed.

(** ** Duration texts *)

Lemma str_of_int_head z sfx :
  exists c r, (Py.str_of_int z ++ sfx)%string = String c r /\ c <> "D"%char.
Proof.
  unfold Py.str_of_int, DecimalString.NilZero.string_of_int,
    DecimalString.NilZero.string_of_uint.
  destruct (Z.to_int z) as [d|d]; destruct d; simpl;
    eexists _, _; (split; [reflexivity | discriminate]).
Qed.

Lemma format_duration_head minutes :
  exists c r, format_duration minutes = String c r /\ c <> "D"%char.
Proof.
  unfold format_duration.
  destruct (Qltb minutes 1); [eexists _, _; split; [reflexivity|discriminate]|].
  destruct (Qltb minutes 60); [apply str_of_int_head|].
  destruct (0 <? _); apply str_of_int_head.
Qed.

Lemma format_duration_not_done minutes : format_duration minutes <> "Done".
Proof.
  destruct (format_duration_head minutes) as (c & r & -> & Hc).
  intros H. injection H as H _. exact (Hc H).
Qed.

Lemma format_duration_not_disabled minutes : format_duration minutes <> "Disabled".
Proof.
  destruct (format_duration_head minutes) as (c & r & -> & Hc).
  intros H. injection H as H _. exact (Hc H).
Qed.

(** ** The three blocks of [calculate_eta] *)

Lemma calculate_eta_no_speed total done speed oal_state oal_workers :
  (speed <= 0)%Q -> calculate_eta total done speed oal_state oal_workers = eta_init.
Proof.
  intros H. unfold calculate_eta. apply Qle_bool_iff in H. rewrite H. reflexivity.
Qed.

Lemma calculate_eta_speed total done speed oal_state oal_workers :
  (0 < speed)%Q ->
  calculate_eta total done speed oal_state oal_workers =
  let lf := eta_lf total done speed in
  let oal := eta_oal oal_state oal_workers in
  let tot := eta_total lf oal oal_workers in
  {| lf_eta := fst lf; oal_eta := fst oal; total_eta := fst tot;
     lf_eta_formatted := snd lf; oal_eta_formatted := snd oal;
     total_eta_formatted := snd tot |}.
Proof.
  intros H. unfold calculate_eta. apply Qle_bool_false in H. rewrite H. reflexivity.
Qed.

Lemma eta_lf_positive total done speed x :
  (0 < speed)%Q -> fst (eta_lf total done speed) = Some x -> (0 < x)%Q.
Proof.
  intros Hs. unfold eta_lf. destruct (0 <? total - done) eqn:E; simpl; [|discriminate].
  intros [= <-]. apply Qdiv_pos; [|exact Hs].
  apply inject_Z_pos. apply Z.ltb_lt. exact E.
Qed.

Lemma eta_oal_positive oal_state oal_workers y :
  fst (eta_oal oal_state oal_workers) = Some y -> (0 < y)%Q.
Proof.
  unfold eta_oal. destruct oal_state as [st|]; cbv zeta.
  - destruct (Z.ltb_spec 0 oal_workers) as [Hw|Hw].
    + destruct (Z.ltb_spec 0 (default 0 (oal_total_operations st)
                              - default 0 (oal_completed_operations st))) as [Hr|Hr];
        [|discriminate].
      destruct (Z.ltb_spec 0 (default 0 (oal_routes_total_per_pass st))) as [Ht|Ht];
        [|discriminate].
      intros [= <-].
      apply Qdiv_pos; [apply inject_Z_pos; exact Hr|].
      apply Qmult_lt_0_compat; [apply inject_Z_pos; exact Hw | reflexivity].
    + destruct (oal_workers =? 0); discriminate.
  - destruct (oal_workers =? 0); discriminate.
Qed.

Lemma eta_oal_disabled_none oal_state oal_workers :
  oal_workers <= 0 -> fst (eta_oal oal_state oal_workers) = None.
Proof.
  intros H. unfold eta_oal.
  assert (E : (0 <? oal_workers) = false) by (apply Z.ltb_ge; exact H).
  destruct oal_state; rewrite ?E; destruct (oal_workers =? 0); reflexivity.
Qed.

Lemma eta_total_fst lf oal oal_workers :
  fst (eta_total lf oal oal_workers) =
  let t0 :=
    match fst lf with
    | Some x => if Py.truthy (Some x) then (0 + x)%Q else 0%Q
    | None => 0%Q
    end in
  let t :=
    match fst oal with
    | Some y => if Py.truthy (Some y) then Py.max t0 y else t0
    | None => t0
    end in
  if Qltb 0 t then Some t else None.
Proof.
  unfold eta_total. cbv zeta. destruct (Qltb 0 _); [reflexivity|].
  destruct (_ && _)%bool; reflexivity.
Qed.

Lemma eta_total_minutes lf oal oal_workers :
  (forall x, fst lf = Some x -> (0 < x)%Q) ->
  (forall y, fst oal = Some y -> (0 < y)%Q) ->
  (eta_minutes (fst (eta_total lf oal oal_workers))
     == Py.max (eta_minutes (fst lf)) (eta_minutes (fst oal)))%Q
  /\ (fst (eta_total lf oal oal_workers) = None <-> fst lf = None /\ fst oal = None).
Proof.
  intros Hx Hy. rewrite eta_total_fst. cbv zeta.
  destruct lf as [[x|] sl], oal as [[y|] so]; cbn [fst].
  - specialize (Hx x eq_refl). specialize (Hy y eq_refl).
    rewrite (truthy_pos x Hx), (truthy_pos y Hy).
    assert (Hp : Qltb 0 (Py.max (0 + x) y) = true)
      by (apply Qltb_lt, py_max_pos_r; exact Hy).
    rewrite Hp. split.
    + cbn [eta_minutes default from_option id]. apply py_max_compat, Qplus_0_l.
    + split; [discriminate | intros [? _]; discriminate].
  - specialize (Hx x eq_refl). rewrite (truthy_pos x Hx).
    assert (Hp : Qltb 0 (0 + x) = true) by (apply Qltb_lt; rewrite Qplus_0_l; exact Hx).
    rewrite Hp. split.
    + cbn [eta_minutes default from_option id]. rewrite py_max_zero_r by (apply Qlt_le_weak; exact Hx).
      apply Qplus_0_l.
    + split; [discriminate | intros [? _]; discriminate].
  - specialize (Hy y eq_refl). rewrite (truthy_pos y Hy), (py_max_zero_l y Hy).
    assert (Hp : Qltb 0 y = true) by (apply Qltb_lt; exact Hy).
    rewrite Hp. split.
    + cbn [eta_minutes default from_option id]. rewrite ?(py_max_zero_l y Hy). reflexivity.
    + split; [discriminate | intros [_ ?]; discriminate].
  - split; [reflexivity | split; [intros _; split; reflexivity | reflexivity]].
Qed.

Lemma eta_total_done lf oal oal_workers :
  snd (eta_total lf oal oal_workers) = "Done" ->
  snd lf = "Done" /\ (snd oal = "Done" \/ oal_workers = 0).
Proof.
  unfold eta_total. cbv zeta. destruct (Qltb 0 _).
  - cbn [snd]. intros H. exfalso. exact (format_duration_not_done _ H).
  - destruct (String.eqb (snd lf) "Done") eqn:El; cbn [andb]; [|discriminate].
    destruct (String.eqb (snd oal) "Done") eqn:Eo; cbn [orb].
    + intros _. apply String.eqb_eq in El, Eo. auto.
    + destruct (oal_workers =? 0) eqn:Ew; [|discriminate].
      intros _. apply String.eqb_eq in El. apply Z.eqb_eq in Ew. auto.
Qed.

Lemma eta_total_not_disabled lf oal oal_workers :
  snd (eta_total lf oal oal_workers) <> "Disabled".
Proof.
  unfold eta_total. cbv zeta. destruct (Qltb 0 _).
  - apply format_duration_not_disabled.
  - destruct (_ && _)%bool; discriminate.
Qed.

Lemma eta_oal_disabled oal_state oal_workers :
  snd (eta_oal oal_state oal_workers) = "Disabled" <-> oal_workers = 0.
Proof.
  unfold eta_oal. split.
  - destruct oal_state as [st|]; cbv zeta.
    + destruct (Z.ltb_spec 0 oal_workers) as [Hw|Hw].
      * destruct (0 <? _); [destruct (0 <? _)|]; cbn [snd];
          [intros H; exfalso; exact (format_duration_not_disabled _ H)
          | discriminate | discriminate].
      * destruct (Z.eqb_spec oal_workers 0); [auto | discriminate].
    + destruct (Z.eqb_spec oal_workers 0); [auto | discriminate].
  - intros ->. destruct oal_state; reflexivity.
Qed.

(** ** ETA of the task queue *)

(** C3 as stated fails: with every task done and no measured speed the
    queue ETA reads "N/A", not "Done". *)
Lemma primary_eta_done_needs_speed :
  5 - 5 <= 0
  /\ lf_eta_formatted (calculate_eta 5 5 0 None 0) = "N/A"
  /\ lf_eta_formatted (calculate_eta 5 5 0 None 0) <> "Done".
Proof. split; [lia|]. split; [reflexivity | discriminate]. Qed.

(** C3 (amended). With a positive speed the queue ETA is
    [(total - done) / speed] minutes while work remains and "Done" once
    [total - done <= 0]; with a speed that is not positive it is "N/A",
    whether or not work remains. *)
Theorem primary_eta total done speed oal_state oal_workers :
  let e := calculate_eta total done speed oal_state oal_workers in
  ((0 < speed)%Q -> 0 < total - done ->
     lf_eta e = Some (inject_Z (total - done) / speed)%Q
     /\ lf_eta_formatted e = format_duration (inject_Z (total - done) / speed))
  /\ ((0 < speed)%Q -> total - done <= 0 ->
       lf_eta e = None /\ lf_eta_formatted e = "Done")
  /\ ((speed <= 0)%Q -> lf_eta e = None /\ lf_eta_formatted e = "N/A").
Proof.
  intros e. subst e. repeat split.
  - rewrite calculate_eta_speed by assumption. cbn [lf_eta]. unfold eta_lf.
    destruct (Z.ltb_spec 0 (total - done)); [reflexivity | lia].
  - rewrite calculate_eta_speed by assumption. cbn [lf_eta_formatted]. unfold eta_lf.
    destruct (Z.ltb_spec 0 (total - done)); [reflexivity | lia].
  - rewrite calculate_eta_speed by assumption. cbn [lf_eta]. unfold eta_lf.
    destruct (Z.ltb_spec 0 (total - done)); [lia | reflexivity].
  - rewrite calculate_eta_speed by assumption. cbn [lf_eta_formatted]. unfold eta_lf.
    destruct (Z.ltb_spec 0 (total - done)); [lia | reflexivity].
  - rewrite calculate_eta_no_speed by assumption. reflexivity.
  - rewrite calculate_eta_no_speed by assumption. reflexivity.
Qed.

Lemma primary_eta_witness :
  lf_eta (calculate_eta 10 4 2 None 0) = Some (inject_Z (10 - 4) / 2)%Q
  /\ lf_eta_formatted (calculate_eta 4 4 2 None 0) = "Done"
  /\ lf_eta_formatted (calculate_eta 10 4 0 None 0) = "N/A".
Proof.
  split; [|split].
  - apply (proj1 (primary_eta 10 4 2 None 0)); [reflexivity | lia].
  - apply (proj1 (proj2 (primary_eta 4 4 2 None 0))); [reflexivity | lia].
  - apply (proj2 (proj2 (primary_eta 10 4 0 None 0))). discriminate.
Defined.

(** ** ETA of the secondary phase *)

(** C4 as stated fails: with two workers, six operations left and a
    positive speed, no ETA is computed when the state has no positive
    [routes_total_per_pass]; and none is computed, whatever the state,
    when the measured speed of the task queue is not positive. *)
Lemma secondary_eta_needs_routes_and_speed :
  0 < 2 /\ 0 < 10 - 4
  /\ oal_eta (calculate_eta 10 0 1 (Some (Scenario.oal 10 4 None)) 2) = None
  /\ oal_eta_formatted (calculate_eta 10 0 1 (Some (Scenario.oal 10 4 None)) 2) = "N/A"
  /\ oal_eta (calculate_eta 10 0 0 (Some (Scenario.oal 10 4 (Some 3))) 2) = None
  /\ oal_eta (calculate_eta 10 0 1 (Some (Scenario.oal 10 4 None)) 2)
       <> Some (inject_Z (10 - 4) / (inject_Z 2 * (3 # 2)))%Q.
Proof. repeat split; try lia; try reflexivity; discriminate. Qed.

(** C4 (amended). With a positive worker count, the secondary-phase state
    present and a positive measured speed of the task queue: the ETA is
    [(totalOps - completedOps) / (workerCount * 1.5)] minutes when
    operations remain and [routes_total_per_pass] is positive, and it is
    "Done" when no operation remains. *)
Theorem secondary_eta total done speed st oal_workers :
  let e := calculate_eta total done speed (Some st) oal_workers in
  let remaining_ops :=
    default 0 (oal_total_operations st) - default 0 (oal_completed_operations st) in
  0 < oal_workers -> (0 < speed)%Q ->
  (0 < remaining_ops -> 0 < default 0 (oal_routes_total_per_pass st) ->
     oal_eta e = Some (inject_Z remaining_ops / (inject_Z oal_workers * (3 # 2)))%Q
     /\ oal_eta_formatted e =
          format_duration (inject_Z remaining_ops / (inject_Z oal_workers * (3 # 2))))
  /\ (remaining_ops <= 0 -> oal_eta e = None /\ oal_eta_formatted e = "Done").
Proof.
  intros e remaining_ops Hw Hs. subst e remaining_ops.
  rewrite calculate_eta_speed by exact Hs. cbn [oal_eta oal_eta_formatted].
  unfold eta_oal. cbv zeta.
  destruct (Z.ltb_spec 0 oal_workers) as [_|]; [|lia].
  destruct (Z.ltb_spec 0 (default 0 (oal_total_operations st)
                          - default 0 (oal_completed_operations st))) as [Hr|Hr].
  - split; [|lia]. intros _ Ht.
    destruct (Z.ltb_spec 0 (default 0 (oal_routes_total_per_pass st))); [|lia].
    split; reflexivity.
  - split; [lia|]. intros _. split; reflexivity.
Qed.

Lemma secondary_eta_witness :
  oal_eta (calculate_eta 10 0 1 (Some (Scenario.oal 10 4 (Some 3))) 2)
    = Some (inject_Z (10 - 4) / (inject_Z 2 * (3 # 2)))%Q
  /\ oal_eta_formatted (calculate_eta 10 0 1 (Some (Scenario.oal 10 10 (Some 3))) 2) = "Done".
Proof.
  split.
  - apply (proj1 (secondary_eta 10 0 1 (Scenario.oal 10 4 (Some 3)) 2 ltac:(lia) eq_refl));
      simpl; lia.
  - apply (proj2 (secondary_eta 10 0 1 (Scenario.oal 10 10 (Some 3)) 2 ltac:(lia) eq_refl)).
    simpl; lia.
Defined.

(** ** Overall ETA *)

(** C5 as stated fails: with no secondary-phase worker the overall text
    is the duration of the task queue (or "Done", or "N/A"), not
    "Disabled"; that text is the one of the secondary phase. *)
Lemma overall_eta_is_not_disabled :
  total_eta_formatted (calculate_eta 10 0 1 None 0) = "10 min"
  /\ total_eta_formatted (calculate_eta 10 0 1 None 0) <> "Disabled"
  /\ oal_eta_formatted (calculate_eta 10 0 1 None 0) = "Disabled".
Proof. split; [reflexivity|]. split; [discriminate | reflexivity]. Qed.

(** C5 (amended). The overall ETA in minutes is the maximum of the two
    phase ETAs, an absent ETA counting as 0 (and the overall ETA is absent
    exactly when both are); with no secondary-phase worker it is the ETA
    of the task queue.  The overall text is "Done" only if the task queue
    reports "Done" and the secondary phase reports "Done" or has no
    worker.  The overall text is never "Disabled": it is the text of the
    secondary phase that reads "Disabled", exactly when the worker count
    is 0 and the measured speed is positive. *)
Theorem overall_eta total done speed oal_state oal_workers :
  let e := calculate_eta total done speed oal_state oal_workers in
  (eta_minutes (total_eta e)
     == Py.max (eta_minutes (lf_eta e)) (eta_minutes (oal_eta e)))%Q
  /\ (total_eta e = None <-> lf_eta e = None /\ oal_eta e = None)
  /\ (oal_workers <= 0 -> (eta_minutes (total_eta e) == eta_minutes (lf_eta e))%Q)
  /\ (total_eta_formatted e = "Done" ->
        lf_eta_formatted e = "Done" /\ (oal_eta_formatted e = "Done" \/ oal_workers = 0))
  /\ total_eta_formatted e <> "Disabled"
  /\ (oal_eta_formatted e = "Disabled" <-> (0 < speed)%Q /\ oal_workers = 0).
Proof.
  intros e. subst e. destruct (Qlt_le_dec 0 speed) as [Hs|Hs].
  - rewrite calculate_eta_speed by exact Hs. cbv zeta.
    cbn [lf_eta oal_eta total_eta lf_eta_formatted oal_eta_formatted total_eta_formatted].
    pose proof (eta_total_minutes (eta_lf total done speed) (eta_oal oal_state oal_workers)
                  oal_workers (fun x => eta_lf_positive total done speed x Hs)
                  (eta_oal_positive oal_state oal_workers)) as [Hmax Hnone].
    split; [exact Hmax|]. split; [exact Hnone|]. split; [|split; [|split]].
    + intros Hw. rewrite Hmax, (eta_oal_disabled_none oal_state oal_workers Hw).
      cbn [eta_minutes default from_option id].
      destruct (fst (eta_lf total done speed)) as [x|] eqn:Ex; cbn [from_option id].
      * rewrite py_max_zero_r; [reflexivity|].
        apply Qlt_le_weak, (eta_lf_positive total done speed x Hs Ex).
      * reflexivity.
    + apply eta_total_done.
    + apply eta_total_not_disabled.
    + rewrite eta_oal_disabled. split; [auto | intros [_ ?]; assumption].
  - rewrite calculate_eta_no_speed by exact Hs. cbn.
    split; [reflexivity|]. split; [split; auto|]. split; [reflexivity|].
    split; [discriminate|]. split; [discriminate|].
    split; [discriminate|]. intros [Hs' _]. exfalso. exact (Qlt_not_le _ _ Hs' Hs).
Qed.

Lemma overall_eta_witness :
  (eta_minutes (total_eta (calculate_eta 10 0 1 None 0))
     == eta_minutes (lf_eta (calculate_eta 10 0 1 None 0)))%Q
  /\ lf_eta_formatted (calculate_eta 5 5 1 None 0) = "Done"
  /\ oal_eta_formatted (calculate_eta 5 5 1 None 0) = "Disabled".
Proof.
  split; [|split].
  - apply (proj1 (proj2 (proj2 (overall_eta 10 0 1 None 0)))). lia.
  - apply (proj1 (proj2 (proj2 (proj2 (overall_eta 5 5 1 None 0))))). reflexivity.
  - apply (proj2 (proj2 (proj2 (proj2 (proj2 (overall_eta 5 5 1 None 0)))))).
    split; [reflexivity | reflexivity].
Defined.

(** ** Error events *)

Lemma round_half_even_Z q z : (q == inject_Z z)%Q -> Py.round_half_even q = z.
Proof.
  intros H. unfold Py.round_half_even. cbv zeta.
  assert (Hf : Qfloor q = z) by (rewrite H; apply Qfloor_Z).
  rewrite Hf.
  assert (Hlt : (q - inject_Z z < 1 # 2)%Q).
  { rewrite H. assert (E : (inject_Z z - inject_Z z == 0)%Q) by ring.
    rewrite E. reflexivity. }
  pose proof (proj1 (Qlt_alt (q - inject_Z z) (1 # 2)) Hlt) as Hc.
  rewrite Hc. reflexivity.
Qed.

(** A number of fifths has at most one decimal: rounding it to two
    decimals leaves it as it is. *)
Lemma round_fifths k : (Py.round (inject_Z k / 5) 2 == inject_Z k / 5)%Q.
Proof.
  unfold Py.round. cbv zeta. change (10 ^ Z.of_nat 2) with 100.
  rewrite (round_half_even_Z _ (20 * k)).
  - rewrite inject_Z_mult. field.
  - rewrite inject_Z_mult. field.
Qed.

Lemma after_cutoff_snoc cutoff history t d :
  (cutoff < t)%Q ->
  after_cutoff cutoff (history ++ [(t, d)]) = (after_cutoff cutoff history ++ [(t, d)])%list.
Proof.
  intros H. unfold after_cutoff. rewrite filter_app. f_equal.
  rewrite filter_cons, filter_nil. cbn [fst].
  apply Qltb_lt in H. case_decide; [reflexivity | contradiction].
Qed.

Lemma after_cutoff_recent cutoff history :
  Forall (fun p => (cutoff < fst p)%Q) (after_cutoff cutoff history).
Proof.
  unfold after_cutoff. induction history as [|p h IH]; [constructor|].
  rewrite filter_cons. case_decide; [|exact IH].
  constructor; [apply Qltb_lt; assumption | exact IH].
Qed.

Lemma window_open now : (now - 300 < now)%Q.
Proof.
  apply Qlt_minus_iff.
  assert (E : (now + - (now - 300) == 300)%Q) by ring.
  rewrite E. reflexivity.
Qed.

(** Outside the assumption of a failed counter that never decreases:
    when the counter drops from 3 to 1 an event is appended all the same,
    with the delta -2, and the reported rate is 0. *)
Lemma error_event_on_decrease :
  let r := calculate_speed_metrics 10 0 1 (Scenario.metrics 3) in
  1 < 3
  /\ _error_rate_history (snd r) = [(10%Q, -2)]
  /\ error_rate (fst r) = 0%Q
  /\ ~ (error_rate (fst r) == inject_Z (sum_deltas (_error_rate_history (snd r))) / 5)%Q.
Proof.
  cbv zeta. split; [lia|]. split; [reflexivity|]. split; [reflexivity|].
  vm_compute. discriminate.
Qed.

(** For every failed counter, decreasing or not: an event is appended to
    the error history exactly when the counter differs from the one of the
    previous sample; its delta is the signed difference.  The retained
    events are those of the last 300 seconds, and the reported error rate
    is the sum of their deltas divided by 5 when that sum is not negative,
    and 0 when it is. *)
Theorem error_events now done failed st :
  let r := calculate_speed_metrics now done failed st in
  let kept := after_cutoff (now - 300) (_error_rate_history st) in
  let events := _error_rate_history (snd r) in
  (_last_error_count st < failed ->
     0 < failed - _last_error_count st
     /\ events = (kept ++ [(now, failed - _last_error_count st)])%list)
  /\ (failed < _last_error_count st ->
       events = (kept ++ [(now, failed - _last_error_count st)])%list)
  /\ (failed = _last_error_count st -> events = kept)
  /\ Forall (fun p => (now - 300 < fst p)%Q) events
  /\ recent_errors (fst r) = sum_deltas events
  /\ (0 <= sum_deltas events -> (error_rate (fst r) == inject_Z (sum_deltas events) / 5)%Q)
  /\ (sum_deltas events < 0 -> error_rate (fst r) = 0%Q).
Proof.
  cbv zeta. unfold calculate_speed_metrics, track_errors. cbv zeta.
  destruct (decide (failed <> _last_error_count st)) as [Hne|Heq];
    cbn [fst snd _error_rate_history recent_errors error_rate].
  - rewrite (after_cutoff_snoc _ _ _ _ (window_open now)).
    set (events := (after_cutoff (now - 300) (_error_rate_history st)
                    ++ [(now, failed - _last_error_count st)])%list).
    split; [intros; split; [lia | reflexivity]|].
    split; [reflexivity|]. split; [lia|].
    split.
    { subst events. apply Forall_app. split; [apply after_cutoff_recent|].
      constructor; [apply window_open | constructor]. }
    split; [reflexivity|]. split.
    + intros Hs. destruct (Z.ltb_spec 0 (sum_deltas events)) as [Hp|Hp].
      * apply round_fifths.
      * replace (sum_deltas events) with 0 by lia. reflexivity.
    + intros Hs. destruct (Z.ltb_spec 0 (sum_deltas events)); [lia | reflexivity].
  - set (events := after_cutoff (now - 300) (_error_rate_history st)).
    split; [lia|]. split; [lia|]. split; [reflexivity|].
    split; [apply after_cutoff_recent|].
    split; [reflexivity|]. split.
    + intros Hs. destruct (Z.ltb_spec 0 (sum_deltas events)) as [Hp|Hp].
      * apply round_fifths.
      * replace (sum_deltas events) with 0 by lia. reflexivity.
    + intros Hs. destruct (Z.ltb_spec 0 (sum_deltas events)); [lia | reflexivity].
Qed.

Lemma error_events_witness :
  _error_rate_history (snd (calculate_speed_metrics 10 0 3 (Scenario.metrics 1)))
    = [(10%Q, 3 - 1)]
  /\ _error_rate_history (snd (calculate_speed_metrics 10 0 1 (Scenario.metrics 3)))
    = [(10%Q, 1 - 3)]
  /\ _error_rate_history (snd (calculate_speed_metrics 10 0 3 (Scenario.metrics 3))) = []
  /\ (error_rate (fst (calculate_speed_metrics 10 0 3 (Scenario.metrics 1)))
       == inject_Z 2 / 5)%Q
  /\ error_rate (fst (calculate_speed_metrics 10 0 1 (Scenario.metrics 3))) = 0%Q.
Proof.
  pose proof (error_events 10 0 3 (Scenario.metrics 1)) as (Hup & _ & _ & _ & _ & Hr & _).
  pose proof (error_events 10 0 1 (Scenario.metrics 3)) as (_ & Hdown & _ & _ & _ & _ & Hz).
  pose proof (error_events 10 0 3 (Scenario.metrics 3)) as (_ & _ & Hsame & _).
  split; [|split; [|split; [|split]]].
  - apply Hup. simpl. lia.
  - apply Hdown. simpl. lia.
  - apply Hsame. reflexivity.
  - apply Hr. vm_compute. discriminate.
  - apply Hz. vm_compute. reflexivity.
Defined.





(** ** Overall percentage *)

Lemma Qgeb_iff a b : Qgeb a b = true <-> (b <= a)%Q.
Proof. unfold Qgeb. apply Qle_bool_iff. Qed.

(** C7. With a worker count that is not negative, the overall percentage
    is 100 once every enabled phase is complete (the task queue at 100
    percent, and the secondary phase at 100 percent when it has workers);
    otherwise it is [0.5*lf + 0.35*oal + 0.15*excel] when the secondary
    phase has workers and [0.85*lf + 0.15*excel] when it has none.  The
    forced value differs from the weighted sum: at [lf = 100] with no
    secondary worker and no output file the sum is 85. *)
Theorem overall_percentage lf_percent oal_percent excel_percent oal_workers :
  0 <= oal_workers ->
  let overall := overall_progress lf_percent oal_workers oal_percent excel_percent in
  let complete := (100 <= lf_percent)%Q /\ (0 < oal_workers -> (100 <= oal_percent)%Q) in
  (complete -> overall = 100%Q)
  /\ (~ complete -> 0 < oal_workers ->
       overall = (lf_percent * (1 # 2) + oal_percent * (35 # 100)
                  + excel_percent * (15 # 100))%Q)
  /\ (~ complete -> oal_workers = 0 ->
       overall = (lf_percent * (85 # 100) + excel_percent * (15 # 100))%Q)
  /\ (overall_progress 100 0 0 0 = 100%Q
      /\ (100 * (85 # 100) + 0 * (15 # 100) < 100)%Q).
Proof.
  intros Hw overall complete. subst overall complete. unfold overall_progress.
  destruct (Qgeb lf_percent 100) eqn:El; cbn [andb].
  - apply Qgeb_iff in El.
    destruct (Z.eqb_spec oal_workers 0) as [E0|E0]; cbn [orb].
    + split; [reflexivity|]. split; [intros _ ?; lia|].
      split; [|split; reflexivity].
      intros Hn _. exfalso. apply Hn. split; [exact El | intros; lia].
    + destruct (Qgeb oal_percent 100) eqn:Eo.
      * apply Qgeb_iff in Eo. split; [reflexivity|].
        split; [|split; [intros _ ?; lia | split; reflexivity]].
        intros Hn _. exfalso. apply Hn. split; [exact El | intros _; exact Eo].
      * assert (Hno : ~ (100 <= oal_percent)%Q)
          by (intros H; apply Qgeb_iff in H; congruence).
        destruct (Z.ltb_spec 0 oal_workers) as [Hp|Hp]; [|lia].
        split; [intros [_ H]; exfalso; exact (Hno (H Hp))|].
        split; [reflexivity|]. split; [intros _ ?; lia | split; reflexivity].
  - assert (Hnl : ~ (100 <= lf_percent)%Q)
      by (intros H; apply Qgeb_iff in H; congruence).
    split; [intros [H _]; exfalso; exact (Hnl H)|].
    destruct (Z.ltb_spec 0 oal_workers) as [Hp|Hp].
    + split; [reflexivity|]. split; [intros _ ?; lia | split; reflexivity].
    + split; [intros _ ?; lia|]. split; [reflexivity | split; reflexivity].
Qed.

Lemma overall_percentage_witness :
  overall_progress 100 2 100 50 = 100%Q
  /\ overall_progress 80 2 40 50
      = (80 * (1 # 2) + 40 * (35 # 100) + 50 * (15 # 100))%Q
  /\ overall_progress 80 0 0 50 = (80 * (85 # 100) + 50 * (15 # 100))%Q.
Proof.
  split; [|split].
  - apply (proj1 (overall_percentage 100 100 50 2 ltac:(lia))).
    split; [discriminate | intros _; discriminate].
  - apply (proj1 (proj2 (overall_percentage 80 40 50 2 ltac:(lia)))); [|lia].
    intros [H _]. apply H. reflexivity.
  - apply (proj1 (proj2 (proj2 (overall_percentage 80 0 50 0 ltac:(lia))))); [|lia].
    intros [H _]. apply H. reflexivity.
Defined.

(** The two completion conditions reach the 100 the block tests for: a
    queue with every task done has a rounded percentage of 100, and a
    secondary phase whose state says "completed" is set to 100. *)
Lemma percent_all_done total :
  0 < total -> (Py.round (percent_of total total) 1 == 100)%Q.
Proof.
  intros H. unfold percent_of. destruct (Z.ltb_spec 0 total) as [_|]; [|lia].
  unfold Py.round. cbv zeta. change (10 ^ Z.of_nat 1) with 10.
  assert (Hne : ~ (inject_Z total == 0)%Q).
  { intros E. apply inject_Z_pos in H. rewrite E in H. exact (Qlt_irrefl _ H). }
  rewrite (round_half_even_Z _ 1000); [reflexivity|].
  change (inject_Z 1000) with (100 * inject_Z 10)%Q.
  apply Qmult_comp; [|reflexivity]. field. exact Hne.
Qed.

Lemma oal_completed_percent config st run_completed progress :
  0 < cfg_oal_workers config ->
  oal_status st = Some "completed" ->
  op_percent (oal_progress config (Some st) run_completed progress) = 100%Q.
Proof.
  intros Hw Hs. unfold oal_progress. cbv zeta.
  destruct (Z.ltb_spec 0 (cfg_oal_workers config)) as [_|]; [|lia].
  rewrite Hs. reflexivity.
Qed.

Lemma finished_queue_overall_100 total excel_percent :
  0 < total ->
  overall_progress (Py.round (percent_of total total) 1) 0 0 excel_percent = 100%Q.
Proof.
  intros H. unfold overall_progress.
  assert (E : Qgeb (Py.round (percent_of total total) 1) 100 = true).
  { apply Qgeb_iff. rewrite (percent_all_done total H). apply Qle_refl. }
  rewrite E. reflexivity.
Qed.

(** The published value is the block's result rounded to one decimal. *)
Lemma update_status_overall w ms status ms' :
  update_status w ms = Ok (status, ms') ->
  exists progress,
    calculate_progress_from_tasks w = Ok progress
    /\ s_overall status =
         Py.round
           (overall_progress (p_percent progress)
              (cfg_oal_workers (get_config_from_checkpoint w))
              (op_percent (s_oal status)) (excel_progress (run_is_completed w)
                                                          (s_excel_count status))) 1.
Proof.
  unfold update_status.
  destruct (calculate_progress_from_tasks w) as [progress|e]; [|discriminate].
  destruct (get_worker_status_from_tasks w) as [workers|e]; [|discriminate].
  destruct (get_pending_routes_info w) as [pending|e]; [|discriminate].
  cbn [mbind result_bind]. cbv zeta.
  destruct (calculate_speed_metrics _ _ _ _) as [sm ms''].
  intros [= <- <-]. exists progress. split; reflexivity.
Qed.

(** ** Pointer file *)

(** C8. When the pointer file exists, parses, and names a directory that
    exists together with its "checkpoints" subdirectory, a call of
    [refresh_active_paths] performs no scan (no glob, no ranking), and,
    unless it returns at once from the cache, it sets the active output
    and checkpoint directories to the named directory and its
    "checkpoints" subdirectory after reading the pointer only. *)
Theorem pointer_resolution_never_scans PROJECT_ROOT BASE_OUTPUT_DIRS fs force st d :
  fs_pointer fs = PointerDoc d ->
  let dir := path_of_string (default "" d) in
  fs_exists fs dir = true ->
  fs_exists fs (path_join dir "checkpoints") = true ->
  let r := refresh_active_paths PROJECT_ROOT BASE_OUTPUT_DIRS fs force st in
  scan_count (snd r) = 0%nat
  /\ (cache_hit fs force st = false ->
       snd r = [EvReadPointer]
       /\ ACTIVE_OUTPUT_DIR (fst r) = dir
       /\ ACTIVE_CHECKPOINT_DIR (fst r) = path_join dir "checkpoints"
       /\ SQLITE_STATE_DB (fst r) = path_join (path_join dir "checkpoints") "chunk_state.db"
       /\ _active_run_state_file (fst r)
            = Some (path_join (path_join dir "checkpoints") "run_state.json"))
  /\ (cache_hit fs force st = true -> r = (st, [])).
Proof.
  intros Hp dir Hd Hc r. subst r. unfold refresh_active_paths. cbv zeta.
  assert (Hread : _read_pointer_file fs = Some dir).
  { unfold _read_pointer_file. rewrite Hp. fold dir. rewrite Hd, Hc. reflexivity. }
  rewrite Hread. destruct (cache_hit fs force st).
  - split; [reflexivity|]. split; [discriminate | reflexivity].
  - split; [reflexivity|]. split; [|discriminate].
    intros _. repeat split; reflexivity.
Qed.

Lemma pointer_resolution_never_scans_witness :
  let r := refresh_active_paths ["/"] [["/"; "outputs"]] Scenario.fs_pointer_ok true
             Scenario.resolver_init in
  scan_count (snd r) = 0%nat
  /\ ACTIVE_OUTPUT_DIR (fst r) = ["/"; "outputs"; "run_b"].
Proof.
  pose proof (pointer_resolution_never_scans ["/"] [["/"; "outputs"]]
                Scenario.fs_pointer_ok true Scenario.resolver_init
                (Some "/outputs/run_b") eq_refl eq_refl eq_refl) as (Hs & Hm & _).
  split; [exact Hs|]. apply Hm. reflexivity.
Defined.

Lemma scan_count_globs dirs files :
  scan_count (map EvGlob dirs ++ [EvSelect files]) = S (length dirs).
Proof.
  unfold scan_count. induction dirs as [|d dirs IH]; [reflexivity|].
  cbn [map app]. rewrite filter_cons. cbn [is_scan].
  case_decide; [|congruence]. cbn [length]. rewrite IH. reflexivity.
Qed.

(** Without a usable pointer the same call does scan: one glob per base
    directory and one ranking. *)
Lemma fallback_scans PROJECT_ROOT BASE_OUTPUT_DIRS fs force st :
  _read_pointer_file fs = None ->
  cache_hit fs force st = false ->
  scan_count (snd (refresh_active_paths PROJECT_ROOT BASE_OUTPUT_DIRS fs force st))
  = S (length BASE_OUTPUT_DIRS).
Proof.
  intros Hp Hc. unfold refresh_active_paths. cbv zeta. rewrite Hc, Hp.
  unfold scan_fallback.
  destruct (_select_active_run_state_file _ _); cbn [snd];
    exact (scan_count_globs BASE_OUTPUT_DIRS _).
Qed.

(** ** Three-way comparisons *)

Section GoodCmpFacts.

Context {A : Type} (cmp : A -> A -> comparison) (G : GoodCmp cmp).

Lemma gc_refl a : cmp a a = Eq.
Proof.
  pose proof (gc_antisym cmp G a a) as H. destruct (cmp a a); [reflexivity | ..];
    discriminate.
Qed.

Lemma gc_eq_r a b c : cmp b c = Eq -> cmp a b = cmp a c.
Proof.
  intros H. assert (Hcb : cmp c b = Eq) by (rewrite (gc_antisym cmp G b c), H; reflexivity).
  rewrite (gc_antisym cmp G b a), (gc_antisym cmp G c a). f_equal.
  symmetry. apply (gc_eq_l cmp G). exact Hcb.
Qed.

Lemma gc_lt_gt a b : cmp a b = Lt -> cmp b a = Gt.
Proof. intros H. rewrite (gc_antisym cmp G a b), H. reflexivity. Qed.

(** "not greater" is transitive. *)
Lemma gc_le_trans a b c : cmp a b <> Gt -> cmp b c <> Gt -> cmp a c <> Gt.
Proof.
  intros Hab Hbc Hac.
  destruct (cmp a b) eqn:Eab; [| |congruence].
  - rewrite (gc_eq_l cmp G a b c Eab) in Hac. congruence.
  - destruct (cmp b c) eqn:Ebc; [| |congruence].
    + rewrite (gc_eq_r a b c Ebc) in Eab. congruence.
    + pose proof (gc_gt_trans cmp G c b a (gc_lt_gt b c Ebc) (gc_lt_gt a b Eab)) as H.
      rewrite (gc_antisym cmp G a c), Hac in H. discriminate.
Qed.

(** Pulling a comparison back along a function. *)
Lemma good_pull {B : Type} (f : B -> A) : GoodCmp (fun x y => cmp (f x) (f y)).
Proof.
  constructor; intros.
  - apply (gc_antisym cmp G).
  - apply (gc_eq_l cmp G). assumption.
  - eapply (gc_gt_trans cmp G); eassumption.
Qed.

(** Lists, compared element by element. *)
Lemma good_list : GoodCmp (list_compare cmp).
Proof.
  constructor.
  - intros a. induction a as [|x a IH]; intros [|y b]; cbn; try reflexivity.
    rewrite (gc_antisym cmp G x y), IH. destruct (cmp x y); reflexivity.
  - intros a. induction a as [|x a IH]; intros [|y b] [|z c] H; cbn in *;
      try reflexivity; try discriminate.
    destruct (cmp x y) eqn:E; cbn in H; try discriminate.
    rewrite (gc_eq_l cmp G x y z E), (IH b c H). reflexivity.
  - intros a. induction a as [|x a IH]; intros [|y b] [|z c] H1 H2; cbn in *;
      try reflexivity; try discriminate.
    destruct (cmp x y) eqn:Exy; cbn in H1; try discriminate.
    + rewrite (gc_eq_l cmp G x y z Exy).
      destruct (cmp y z); cbn in *; try discriminate; [|reflexivity].
      exact (IH b c H1 H2).
    + destruct (cmp y z) eqn:Eyz; cbn in H2; try discriminate.
      * rewrite <- (gc_eq_r x y z Eyz), Exy. reflexivity.
      * rewrite (gc_gt_trans cmp G x y z Exy Eyz). reflexivity.
Qed.

End GoodCmpFacts.

(** Pairs, compared lexicographically. *)
Lemma good_pair {A B : Type} (ca : A -> A -> comparison) (cb : B -> B -> comparison) :
  GoodCmp ca -> GoodCmp cb ->
  GoodCmp (fun x y : A * B => lex (ca (fst x) (fst y)) (cb (snd x) (snd y))).
Proof.
  intros Ga Gb. constructor.
  - intros [a1 b1] [a2 b2]. cbn.
    rewrite (gc_antisym ca Ga a1 a2), (gc_antisym cb Gb b1 b2).
    destruct (ca a1 a2); reflexivity.
  - intros [a1 b1] [a2 b2] [a3 b3] H. cbn in *.
    destruct (ca a1 a2) eqn:E; cbn in H; try discriminate.
    rewrite (gc_eq_l ca Ga a1 a2 a3 E), (gc_eq_l cb Gb b1 b2 b3 H). reflexivity.
  - intros [a1 b1] [a2 b2] [a3 b3] H1 H2. cbn in *.
    destruct (ca a1 a2) eqn:E12; cbn in H1; try discriminate.
    + rewrite (gc_eq_l ca Ga a1 a2 a3 E12).
      destruct (ca a2 a3); cbn in *; try discriminate; [|reflexivity].
      exact (gc_gt_trans cb Gb b1 b2 b3 H1 H2).
    + destruct (ca a2 a3) eqn:E23; cbn in H2; try discriminate.
      * rewrite <- (gc_eq_r ca Ga a1 a2 a3 E23), E12. reflexivity.
      * rewrite (gc_gt_trans ca Ga a1 a2 a3 E12 E23). reflexivity.
Qed.

Lemma good_Z : GoodCmp Z.compare.
Proof.
  constructor.
  - intros a b. apply Z.compare_antisym.
  - intros a b c H. apply Z.compare_eq in H. subst. reflexivity.
  - intros a b c H1 H2. apply Z.compare_gt_iff in H1, H2. apply Z.compare_gt_iff. lia.
Qed.

Lemma good_N : GoodCmp N.compare.
Proof.
  constructor.
  - intros a b. apply N.compare_antisym.
  - intros a b c H. apply N.compare_eq in H. subst. reflexivity.
  - intros a b c H1 H2. apply N.compare_gt_iff in H1, H2. apply N.compare_gt_iff. lia.
Qed.

Lemma good_Q : GoodCmp Qcompare.
Proof.
  constructor.
  - intros a b. symmetry. apply Qcompare_antisym.
  - intros a b c H. apply Qeq_alt in H. rewrite H. reflexivity.
  - intros a b c H1 H2. apply Qgt_alt in H1, H2. apply Qgt_alt.
    eapply Qlt_trans; eassumption.
Qed.

Lemma string_compare_list s1 s2 :
  String.compare s1 s2 =
  list_compare (fun a b => N.compare (N_of_ascii a) (N_of_ascii b))
               (list_ascii_of_string s1) (list_ascii_of_string s2).
Proof.
  revert s2. induction s1 as [|c1 s1 IH]; intros [|c2 s2]; cbn; try reflexivity.
  rewrite IH. unfold Ascii.compare, lex.
  destruct (N_of_ascii c1 ?= N_of_ascii c2)%N; reflexivity.
Qed.

Lemma good_string : GoodCmp String.compare.
Proof.
  pose proof (good_pull _ (good_list _ (good_pull _ good_N N_of_ascii))
                list_ascii_of_string) as G.
  destruct G as [Ha He Ht].
  constructor.
  - intros a b. rewrite !string_compare_list. apply Ha.
  - intros a b c. rewrite !string_compare_list. apply He.
  - intros a b c. rewrite !string_compare_list. apply Ht.
Qed.

Lemma good_path : GoodCmp path_compare.
Proof. exact (good_list _ good_string). Qed.

Lemma good_key : GoodCmp key_compare.
Proof.
  exact (good_pull _
           (good_pair _ _ good_Z
              (good_pair _ _ good_Q
                 (good_pair _ _ good_Q (good_pair _ _ good_Q good_path))))
           (fun k => (k_is_active k, (k_activity_ts k, (k_started_ts k,
                       (k_run_state_mtime k, k_path k)))))).
Qed.

Lemma path_compare_eq p q : path_compare p q = Eq -> p = q.
Proof.
  unfold path_compare. revert q.
  induction p as [|x p IH]; intros [|y q] H; cbn in H; try reflexivity; try discriminate.
  destruct (String.compare x y) eqn:E; cbn in H; try discriminate.
  apply String.compare_eq_iff in E. subst y. f_equal. exact (IH q H).
Qed.

(** ** Ranking of the candidate run-state files *)

Lemma candidate_key_path fs f k : candidate_key fs f = Some k -> k_path k = f.
Proof.
  unfold candidate_key. cbv zeta.
  destruct (shutdown_type_of _); cbn; [|discriminate].
  destruct (fs_stat fs f); cbn; [|discriminate].
  intros [= <-]. reflexivity.
Qed.

Lemma select_step_spec fs best f :
  match select_step fs best f with
  | None => best = None /\ candidate_key fs f = None
  | Some k =>
      (best = Some k \/ candidate_key fs f = Some k)
      /\ (forall k0, best = Some k0 -> key_compare k0 k <> Gt)
      /\ (forall k', candidate_key fs f = Some k' -> key_compare k' k <> Gt)
  end.
Proof.
  unfold select_step.
  destruct (candidate_key fs f) as [key|], best as [b|].
  - unfold key_gt. destruct (key_compare key b) eqn:E.
    + split; [auto|]. split.
      * intros k0 [= <-]. rewrite (gc_refl _ good_key). discriminate.
      * intros k' [= <-]. rewrite E. discriminate.
    + split; [auto|]. split.
      * intros k0 [= <-]. rewrite (gc_refl _ good_key). discriminate.
      * intros k' [= <-]. rewrite E. discriminate.
    + split; [auto|]. split.
      * intros k0 [= <-]. rewrite (gc_antisym _ good_key key b), E. discriminate.
      * intros k' [= <-]. rewrite (gc_refl _ good_key). discriminate.
  - split; [auto|]. split; [discriminate|].
    intros k' [= <-]. rewrite (gc_refl _ good_key). discriminate.
  - split; [auto|]. split; [|discriminate].
    intros k0 [= <-]. rewrite (gc_refl _ good_key). discriminate.
  - auto.
Qed.

Lemma fold_select_spec fs files best :
  match fold_left (select_step fs) files best with
  | None => best = None /\ forall f, In f files -> candidate_key fs f = None
  | Some k =>
      (best = Some k \/ exists f, In f files /\ candidate_key fs f = Some k)
      /\ (forall k0, best = Some k0 -> key_compare k0 k <> Gt)
      /\ (forall f k', In f files -> candidate_key fs f = Some k' ->
            key_compare k' k <> Gt)
  end.
Proof.
  revert best. induction files as [|f files IH]; intros best.
  - cbn [fold_left]. destruct best as [b|].
    + split; [auto|]. split.
      * intros k0 [= <-]. rewrite (gc_refl _ good_key). discriminate.
      * intros ? ? [].
    + split; [reflexivity | intros ? []].
  - cbn [fold_left]. specialize (IH (select_step fs best f)).
    pose proof (select_step_spec fs best f) as Hstep.
    destruct (fold_left (select_step fs) files (select_step fs best f)) as [k|].
    + destruct IH as (Hfrom & Hbest & Hall).
      destruct (select_step fs best f) as [kb|].
      * destruct Hstep as (Hkb & Hb0 & Hf0).
        pose proof (Hbest kb eq_refl) as Hle.
        split; [|split].
        -- destruct Hfrom as [[= ->]|(f' & Hin & Hk)].
           ++ destruct Hkb as [?|?]; [auto | right; exists f; split; [left|]; auto].
           ++ right. exists f'. split; [right|]; auto.
        -- intros k0 H0. exact (gc_le_trans _ good_key _ _ _ (Hb0 k0 H0) Hle).
        -- intros f' k' [<-|Hin] Hk'.
           ++ exact (gc_le_trans _ good_key _ _ _ (Hf0 k' Hk') Hle).
           ++ exact (Hall f' k' Hin Hk').
      * destruct Hstep as (-> & Hnone). split; [|split].
        -- destruct Hfrom as [?|(f' & Hin & Hk)]; [discriminate|].
           right. exists f'. split; [right|]; auto.
        -- discriminate.
        -- intros f' k' [<-|Hin] Hk'; [congruence | exact (Hall f' k' Hin Hk')].
    + destruct IH as (Hnone & Hall). rewrite Hnone in Hstep.
      destruct Hstep as (-> & Hf). split; [reflexivity|].
      intros f' [<-|Hin]; [exact Hf | exact (Hall f' Hin)].
Qed.

Lemma key_compare_tie k' k :
  k_is_active k' = k_is_active k ->
  (k_activity_ts k' == k_activity_ts k)%Q ->
  (k_started_ts k' == k_started_ts k)%Q ->
  (k_run_state_mtime k' == k_run_state_mtime k)%Q ->
  key_compare k' k = path_compare (k_path k') (k_path k).
Proof.
  intros Ha Hb Hc Hd. unfold key_compare.
  rewrite Ha, Z.compare_refl. apply Qeq_alt in Hb, Hc, Hd.
  rewrite Hb, Hc, Hd. reflexivity.
Qed.

Lemma activity_eq fs checkpoint_dir :
  _activity_timestamp_for_checkpoint fs checkpoint_dir =
  match flat_map (fun p => if fs_exists fs p
                           then match fs_stat fs p with Some m => [m] | None => [] end
                           else [])
                 (map (path_join checkpoint_dir) activity_artifacts) with
  | [] => 0%Q
  | m :: rest => list_max m rest
  end.
Proof. reflexivity. Qed.

Lemma py_max_ge_l a b : (a <= Py.max a b)%Q.
Proof.
  unfold Py.max. destruct (Qlt_le_dec a b); [apply Qlt_le_weak; assumption | apply Qle_refl].
Qed.

Lemma py_max_ge_r a b : (b <= Py.max a b)%Q.
Proof. unfold Py.max. destruct (Qlt_le_dec a b); [apply Qle_refl | assumption]. Qed.

Lemma list_max_ge x xs :
  (x <= list_max x xs)%Q /\ forall y, In y xs -> (y <= list_max x xs)%Q.
Proof.
  unfold list_max. revert x. induction xs as [|z xs IH]; intros x; cbn [fold_left].
  - split; [apply Qle_refl | intros ? []].
  - destruct (IH (Py.max x z)) as [H1 H2]. split.
    + eapply Qle_trans; [apply py_max_ge_l | exact H1].
    + intros y [<-|Hy]; [|exact (H2 y Hy)].
      eapply Qle_trans; [apply py_max_ge_r | exact H1].
Qed.

(** ** The ranking key against its specification *)

Lemma py_max_cases a b : Py.max a b = a \/ Py.max a b = b.
Proof. unfold Py.max. destruct (Qlt_le_dec a b); auto. Qed.

Lemma list_max_in x xs : In (list_max x xs) (x :: xs).
Proof.
  unfold list_max. revert x. induction xs as [|z xs IH]; intros x; cbn [fold_left].
  - left. reflexivity.
  - destruct (IH (Py.max x z)) as [H|H].
    + destruct (py_max_cases x z) as [E|E].
      * left. rewrite <- H. symmetry. exact E.
      * right. left. rewrite <- H. symmetry. exact E.
    + right. right. exact H.
Qed.

Lemma artifact_mtimes_in fs checkpoint_dir m :
  In m (flat_map (fun p => if fs_exists fs p
                           then match fs_stat fs p with Some m => [m] | None => [] end
                           else [])
                 (map (path_join checkpoint_dir) activity_artifacts))
  <-> exists name, artifact_mtime fs checkpoint_dir name m.
Proof.
  unfold artifact_mtime. rewrite in_flat_map. split.
  - intros (p & Hp & Hm). apply in_map_iff in Hp. destruct Hp as (name & <- & Hname).
    exists name. split; [exact Hname|].
    destruct (fs_exists fs (path_join checkpoint_dir name)); [|destruct Hm].
    destruct (fs_stat fs (path_join checkpoint_dir name)) as [m'|]; [|destruct Hm].
    destruct Hm as [<-|[]]. split; reflexivity.
  - intros (name & Hname & He & Hs). exists (path_join checkpoint_dir name).
    split; [apply in_map; exact Hname|]. rewrite He, Hs. left. reflexivity.
Qed.

(** The activity time computed by the code is the one of the
    specification. *)
Lemma activity_meets_spec fs checkpoint_dir :
  spec_activity fs checkpoint_dir (_activity_timestamp_for_checkpoint fs checkpoint_dir).
Proof.
  unfold spec_activity. rewrite activity_eq.
  pose proof (artifact_mtimes_in fs checkpoint_dir) as Hin.
  destruct (flat_map _ _) as [|m0 rest].
  - split.
    + intros name m Hm. exfalso. exact (proj2 (Hin m) (ex_intro _ name Hm)).
    + right. split; [reflexivity|]. intros name m Hm.
      exact (proj2 (Hin m) (ex_intro _ name Hm)).
  - destruct (list_max_ge m0 rest) as [H0 Hrest]. split.
    + intros name m Hm. destruct (proj2 (Hin m) (ex_intro _ name Hm)) as [<-|Hr];
        [exact H0 | exact (Hrest m Hr)].
    + left. apply Hin. apply list_max_in.
Qed.

Lemma shutdown_type_meets_spec marker sd :
  shutdown_type_of marker = Some sd ->
  spec_is_active marker (if String.eqb sd "COMPLETED" then 0 else 1).
Proof.
  unfold shutdown_type_of, spec_is_active.
  destruct marker as [[|[]|n|s]|]; try discriminate.
  - intros [= <-]. reflexivity.
  - intros [= <-]. reflexivity.
  - destruct (n =? 0); [|discriminate]. intros [= <-]. reflexivity.
  - intros [= <-]. reflexivity.
  - intros [= <-]. reflexivity.
Qed.

(** The key the loop builds for a candidate is the key of the
    specification. *)
Lemma candidate_key_meets_spec fs f k :
  candidate_key fs f = Some k -> spec_key_of fs f k.
Proof.
  unfold candidate_key. cbv zeta.
  destruct (shutdown_type_of (fs_run_state fs f ≫= rs_shutdown_type)) as [sd|] eqn:Esd;
    cbn [mbind option_bind]; [|discriminate].
  destruct (fs_stat fs f) as [mtime|] eqn:Est; cbn [mbind option_bind]; [|discriminate].
  intros [= <-]. unfold spec_key_of.
  cbn [k_is_active k_activity_ts k_started_ts k_run_state_mtime k_path].
  split; [exact (shutdown_type_meets_spec _ _ Esd)|].
  split; [apply activity_meets_spec|].
  split; [|split; [exact Est | reflexivity]].
  unfold spec_started, _parse_iso_timestamp.
  destruct (fs_run_state fs f ≫= rs_started_at); reflexivity.
Qed.

(** A candidate is skipped only for the two reasons the loop has. *)
Lemma candidate_key_none_iff fs f :
  candidate_key fs f = None <-> unrankable fs f.
Proof.
  unfold candidate_key, unrankable. cbv zeta. split.
  - destruct (fs_run_state fs f ≫= rs_shutdown_type) as [[|[]|n|s]|] eqn:Em;
      cbn [shutdown_type_of mbind option_bind];
      try (destruct (fs_stat fs f); cbn [mbind option_bind]; [discriminate | auto]).
    + auto.
    + destruct (Z.eqb_spec n 0) as [->|Hn]; cbn [mbind option_bind].
      * destruct (fs_stat fs f); cbn [mbind option_bind]; [discriminate | auto].
      * intros _. right. right. exists n. auto.
  - intros [Hs|[Hm|(n & Hn & Hm)]].
    + rewrite Hs. destruct (shutdown_type_of _); reflexivity.
    + rewrite Hm. reflexivity.
    + rewrite Hm. cbn [shutdown_type_of].
      destruct (Z.eqb_spec n 0); [contradiction | reflexivity].
Qed.

Lemma key_le_ranked k' k :
  key_compare k' k <> Gt -> ranked_below k' (k_path k') k (k_path k).
Proof.
  unfold key_compare, ranked_below. intros H.
  destruct (k_is_active k' ?= k_is_active k) eqn:Ea; cbn [lex] in H; [| |congruence].
  2:{ left. exact (proj1 (Z.compare_lt_iff _ _) Ea). }
  right. split; [exact (Z.compare_eq _ _ Ea)|].
  destruct (k_activity_ts k' ?= k_activity_ts k)%Q eqn:Eb; cbn [lex] in H; [| |congruence].
  2:{ left. exact (proj2 (Qlt_alt _ _) Eb). }
  right. split; [exact (proj2 (Qeq_alt _ _) Eb)|].
  destruct (k_started_ts k' ?= k_started_ts k)%Q eqn:Ec; cbn [lex] in H; [| |congruence].
  2:{ left. exact (proj2 (Qlt_alt _ _) Ec). }
  right. split; [exact (proj2 (Qeq_alt _ _) Ec)|].
  destruct (k_run_state_mtime k' ?= k_run_state_mtime k)%Q eqn:Ed; cbn [lex] in H;
    [| |congruence].
  2:{ left. exact (proj2 (Qlt_alt _ _) Ed). }
  right. split; [exact (proj2 (Qeq_alt _ _) Ed)|].
  destruct (path_compare (k_path k') (k_path k)) eqn:Ep; [| |congruence].
  - right. exact (path_compare_eq _ _ Ep).
  - left. reflexivity.
Qed.

(** C9. The ranking selects a candidate of the list whose key is the
    composite key of the specification: [isActive] from the shutdown-type
    marker of its run state, [lastActivityTime] the greatest modification
    time of the work artifacts of its checkpoint directory, [startedAt]
    from its run state, the modification time of the file, and its path.
    Every other candidate that can be ranked has such a key too and stands
    below the selected one in the descending lexicographic order of the
    five components; in particular, among candidates that agree on the
    first four components every other path is lexicographically smaller
    than the selected one.  A candidate is left out only when its [stat]
    raises or its marker is a truthy non-string, and nothing is selected
    only when every candidate is left out. *)
Theorem scan_selects_greatest_key fs files :
  (forall p, _select_active_run_state_file fs files = Some p ->
     In p files
     /\ exists k, candidate_key fs p = Some k /\ spec_key_of fs p k
        /\ forall f, In f files ->
             (exists k', candidate_key fs f = Some k' /\ spec_key_of fs f k'
                         /\ key_compare k' k <> Gt /\ ranked_below k' f k p
                         /\ (k_is_active k' = k_is_active k ->
                             (k_activity_ts k' == k_activity_ts k)%Q ->
                             (k_started_ts k' == k_started_ts k)%Q ->
                             (k_run_state_mtime k' == k_run_state_mtime k)%Q ->
                             path_compare f p = Lt \/ f = p))
             \/ (candidate_key fs f = None /\ unrankable fs f))
  /\ (_select_active_run_state_file fs files = None ->
      forall f, In f files -> candidate_key fs f = None /\ unrankable fs f).
Proof.
  unfold _select_active_run_state_file.
  pose proof (fold_select_spec fs files None) as H.
  destruct (fold_left (select_step fs) files None) as [k|]; cbn [fmap option_fmap option_map].
  - destruct H as (Hfrom & _ & Hall). split; [|discriminate].
    intros p [= <-].
    destruct Hfrom as [?|(f0 & Hin & Hk)]; [discriminate|].
    pose proof (candidate_key_path fs f0 k Hk) as Hp. rewrite Hp.
    split; [exact Hin|]. exists k. split; [exact Hk|].
    split; [exact (candidate_key_meets_spec fs f0 k Hk)|].
    intros f Hf. destruct (candidate_key fs f) as [k'|] eqn:Hk'.
    + left. exists k'. split; [reflexivity|].
      split; [exact (candidate_key_meets_spec fs f k' Hk')|].
      pose proof (Hall f k' Hf Hk') as Hle. split; [exact Hle|].
      pose proof (key_le_ranked k' k Hle) as Hr.
      rewrite (candidate_key_path fs f k' Hk'), Hp in Hr. split; [exact Hr|].
      intros Ha Hb Hc Hd. rewrite (key_compare_tie k' k Ha Hb Hc Hd) in Hle.
      rewrite (candidate_key_path fs f k' Hk'), Hp in Hle.
      destruct (path_compare f f0) eqn:E; [right | left | congruence].
      * apply path_compare_eq. exact E.
      * reflexivity.
    + right. split; [reflexivity | apply candidate_key_none_iff; exact Hk'].
  - destruct H as (_ & Hall). split; [discriminate|]. intros _ f Hf.
    split; [exact (Hall f Hf) | apply candidate_key_none_iff; exact (Hall f Hf)].
Qed.

Lemma scan_selects_greatest_key_witness :
  _select_active_run_state_file Scenario.fs_ranked
    [Scenario.run_file "run_a"; Scenario.run_file "run_b"; Scenario.run_file "run_c"]
    = Some (Scenario.run_file "run_c")
  /\ (exists k, candidate_key Scenario.fs_ranked (Scenario.run_file "run_c") = Some k
               /\ k_is_active k = 1 /\ (k_activity_ts k == 50)%Q)
  /\ (exists k', candidate_key Scenario.fs_ranked (Scenario.run_file "run_a") = Some k'
                /\ k_is_active k' = 0 /\ (k_activity_ts k' == 90)%Q
                /\ ranked_below k' (Scenario.run_file "run_a")
                     {| k_is_active := 1; k_activity_ts := 50; k_started_ts := 1000;
                        k_run_state_mtime := 40; k_path := Scenario.run_file "run_c" |}
                     (Scenario.run_file "run_c"))
  /\ path_compare (Scenario.run_file "run_b") (Scenario.run_file "run_c") = Lt.
Proof.
  split; [reflexivity|].
  destruct (proj1 (scan_selects_greatest_key Scenario.fs_ranked
                     [Scenario.run_file "run_a"; Scenario.run_file "run_b";
                      Scenario.run_file "run_c"])
              (Scenario.run_file "run_c") eq_refl) as (_ & k & Hk & Hspec & Hall).
  vm_compute in Hk. injection Hk as <-.
  split; [eexists; split; [reflexivity | split; reflexivity]|].
  split.
  - destruct (Hall (Scenario.run_file "run_a") (or_introl eq_refl))
      as [(k' & Hk' & _ & _ & Hr & _)|[Hnone _]]; [|discriminate Hnone].
    vm_compute in Hk'. injection Hk' as <-.
    eexists. split; [reflexivity|]. split; [reflexivity|]. split; [reflexivity|].
    exact Hr.
  - destruct (Hall (Scenario.run_file "run_b") (or_intror (or_introl eq_refl)))
      as [(k' & Hk' & _ & _ & _ & Htie)|[Hnone _]]; [|discriminate Hnone].
    vm_compute in Hk'. injection Hk' as <-.
    destruct (Htie eq_refl ltac:(reflexivity) ltac:(reflexivity) ltac:(reflexivity))
      as [Hlt|Heq]; [exact Hlt | discriminate Heq].
Defined.


(** * Further properties of the module *)

(** ** Progress summaries *)

Lemma count_task_nonneg c item :
  0 <= c_done c -> 0 <= c_running c -> 0 <= c_pending c -> 0 <= c_failed c ->
  0 <= c_done (count_task c item) /\ 0 <= c_running (count_task c item)
  /\ 0 <= c_pending (count_task c item) /\ 0 <= c_failed (count_task c item).
Proof.
  intros Hd Hr Hp Hf. destruct item as [task_id task]. unfold count_task.
  repeat case_match; cbn; lia.
Qed.

Lemma fold_count_task_nonneg tasks c :
  0 <= c_done c -> 0 <= c_running c -> 0 <= c_pending c -> 0 <= c_failed c ->
  let c' := fold_left count_task tasks c in
  0 <= c_done c' /\ 0 <= c_running c' /\ 0 <= c_pending c' /\ 0 <= c_failed c'.
Proof.
  revert c. induction tasks as [|item tasks IH]; intros c Hd Hr Hp Hf; cbn [fold_left].
  - cbv zeta. auto.
  - destruct (count_task_nonneg c item Hd Hr Hp Hf) as (? & ? & ? & ?).
    apply IH; assumption.
Qed.

Lemma progress_from_json_nonneg tasks :
  let p := progress_from_json tasks in
  0 <= p_done p /\ 0 <= p_running p /\ 0 <= p_pending p /\ 0 <= p_failed p.
Proof.
  unfold progress_from_json. destruct tasks as [|item tasks]; cbv zeta.
  - cbn. lia.
  - cbn [p_done p_running p_pending p_failed].
    apply (fold_count_task_nonneg (item :: tasks) counts_init); cbn; lia.
Qed.

(** Whenever the database file is absent, the summary is the one of the
    task map: its four counters are not negative, add up to the total,
    and the total is the number of tasks of the map. *)
Theorem json_summary_adds_up w :
  _sqlite_checkpoint_available w = false ->
  exists p,
    calculate_progress_from_tasks w = Ok p
    /\ p_done p + p_running p + p_pending p + p_failed p = p_total p
    /\ p_total p = Z.of_nat (length (load_tasks_state w))
    /\ 0 <= p_done p /\ 0 <= p_running p /\ 0 <= p_pending p /\ 0 <= p_failed p.
Proof.
  intros Hdb. unfold calculate_progress_from_tasks. rewrite Hdb.
  eexists. split; [reflexivity|].
  split; [exact (progress_from_json_sum (load_tasks_state w))|].
  split; [|apply progress_from_json_nonneg].
  unfold progress_from_json. destruct (load_tasks_state w); reflexivity.
Qed.

Lemma json_summary_adds_up_witness :
  exists p,
    calculate_progress_from_tasks (Scenario.world false Scenario.db_locked) = Ok p
    /\ p_done p + p_running p + p_pending p + p_failed p = 3.
Proof.
  destruct (json_summary_adds_up (Scenario.world false Scenario.db_locked) eq_refl)
    as (p & Hp & Hsum & Htot & _).
  exists p. split; [exact Hp|]. rewrite Hsum, Htot. reflexivity.
Defined.

(** On the SQLite backend, when no statement raises and every row of the
    task table is in one of the five states "pending", "running", "done",
    "failed", "failed_exhausted", the four counters add up to the total,
    the exhausted failures being counted as failed. *)
Theorem sqlite_summary_adds_up_on_known_states w :
  _sqlite_checkpoint_available w = true ->
  (forall q, db_raises (w_db w) q = None) ->
  Forall (fun t => recognised_state (tr_state t)) (chunk_tasks (w_db w)) ->
  exists p,
    calculate_progress_from_tasks w = Ok p
    /\ p_done p + p_running p + p_pending p + p_failed p = p_total p.
Proof.
  intros Hdb Hok Hall. unfold calculate_progress_from_tasks. rewrite Hdb.
  destruct (sqlite_sum_recognised (w_now w) (w_db w) Hok Hall) as (p & Hp & Hsum).
  exists p. rewrite Hp. split; [reflexivity | exact Hsum].
Qed.

Lemma sqlite_summary_adds_up_on_known_states_witness :
  exists p,
    calculate_progress_from_tasks (Scenario.world true Scenario.db_known) = Ok p
    /\ p_done p + p_running p + p_pending p + p_failed p = p_total p.
Proof.
  apply (sqlite_summary_adds_up_on_known_states
           (Scenario.world true Scenario.db_known) eq_refl (fun _ => eq_refl)).
  repeat (apply List.Forall_cons; [unfold recognised_state; cbn; auto 7|]).
  apply List.Forall_nil.
Defined.

Lemma round_half_even_bounds x a b :
  (inject_Z a <= x)%Q -> (x <= inject_Z b)%Q -> a <= Py.round_half_even x <= b.
Proof.
  intros Ha Hb.
  pose proof (Qfloor_resp_le _ _ Ha) as Hfa. rewrite Qfloor_Z in Hfa.
  pose proof (Qfloor_resp_le _ _ Hb) as Hfb. rewrite Qfloor_Z in Hfb.
  assert (Hup : ~ (x - inject_Z (Qfloor x) < 1 # 2)%Q -> Qfloor x + 1 <= b).
  { intros Hn. destruct (Z_lt_le_dec (Qfloor x) b) as [|Hge]; [lia|].
    exfalso. apply Hn. assert (E : Qfloor x = b) by lia. rewrite E. lra. }
  unfold Py.round_half_even. cbv zeta.
  destruct (x - inject_Z (Qfloor x) ?= 1 # 2)%Q eqn:E.
  - destruct (Z.even (Qfloor x)); [lia|]. split; [lia|]. apply Hup.
    intros Hlt. pose proof (proj1 (Qlt_alt _ _) Hlt) as Hc. congruence.
  - lia.
  - split; [lia|]. apply Hup.
    intros Hlt. pose proof (proj1 (Qlt_alt _ _) Hlt) as Hc. congruence.
Qed.

Lemma round1_percent_bounds x :
  (0 <= x)%Q -> (x <= 100)%Q -> (0 <= Py.round x 1)%Q /\ (Py.round x 1 <= 100)%Q.
Proof.
  intros H0 H1. unfold Py.round. cbv zeta. change (10 ^ Z.of_nat 1) with 10.
  destruct (round_half_even_bounds (x * inject_Z 10) 0 1000) as [Hl Hu].
  - change (inject_Z 0) with 0%Q. change (inject_Z 10) with 10%Q. lra.
  - change (inject_Z 1000) with 1000%Q. change (inject_Z 10) with 10%Q. lra.
  - rewrite Zle_Qle in Hl, Hu.
    change (inject_Z 0) with 0%Q in Hl. change (inject_Z 1000) with 1000%Q in Hu.
    change (inject_Z 10) with 10%Q in *.
    set (r := inject_Z (Py.round_half_even (x * 10))) in *.
    split.
    + apply Qle_shift_div_l; [reflexivity | lra].
    + apply Qle_shift_div_r; [reflexivity | lra].
Qed.

Lemma percent_of_bounds done total :
  0 <= done <= total -> (0 <= percent_of done total)%Q /\ (percent_of done total <= 100)%Q.
Proof.
  intros [Hd Ht]. unfold percent_of. destruct (Z.ltb_spec 0 total) as [Hp|Hp].
  - apply inject_Z_pos in Hp. rewrite Zle_Qle in Hd, Ht.
    change (inject_Z 0) with 0%Q in Hd.
    assert (H0 : (0 <= inject_Z done / inject_Z total)%Q)
      by (apply Qle_shift_div_l; [exact Hp | lra]).
    assert (H1 : (inject_Z done / inject_Z total <= 1)%Q)
      by (apply Qle_shift_div_r; [exact Hp | lra]).
    set (q := (inject_Z done / inject_Z total)%Q) in *. split; lra.
  - split; [apply Qle_refl | discriminate].
Qed.

(** The percentage of the JSON summary lies between 0 and 100, is 0 for an
    empty task map and is 100 when every task is counted as done. *)
Theorem json_percent_in_range tasks :
  let p := progress_from_json tasks in
  (0 <= p_percent p)%Q /\ (p_percent p <= 100)%Q
  /\ (tasks = [] -> p_percent p = 0%Q)
  /\ (tasks <> [] -> p_done p = p_total p -> (p_percent p == 100)%Q).
Proof.
  cbv zeta. pose proof (progress_from_json_sum tasks) as Hsum.
  pose proof (progress_from_json_nonneg tasks) as (Hd & Hr & Hp & Hf).
  unfold progress_sum in Hsum. revert Hsum Hd Hr Hp Hf.
  unfold progress_from_json. destruct tasks as [|item tasks].
  - intros _ _ _ _ _. cbn. repeat split; try discriminate. congruence.
  - cbn [p_done p_running p_pending p_failed p_total p_percent].
    set (c := fold_left count_task (item :: tasks) counts_init).
    set (total := Z.of_nat (length (item :: tasks))).
    intros Hsum Hd Hr Hp Hf.
    destruct (round1_percent_bounds (percent_of (c_done c) total)) as [H0 H1];
      try (apply percent_of_bounds; lia).
    split; [exact H0|]. split; [exact H1|]. split; [discriminate|].
    intros _ E. rewrite E. apply percent_all_done. subst total. cbn [length]. lia.
Qed.

Lemma json_percent_in_range_witness :
  (p_percent (progress_from_json []) = 0)%Q
  /\ (p_percent (progress_from_json [("a", Scenario.task (Some (JStr "DONE")))]) == 100)%Q.
Proof.
  split.
  - apply (proj1 (proj2 (proj2 (json_percent_in_range [])))). reflexivity.
  - apply (proj2 (proj2 (proj2 (json_percent_in_range
             [("a", Scenario.task (Some (JStr "DONE")))]))));
      [discriminate | reflexivity].
Defined.



(** ** Snapshots *)

Lemma worker_status_ok_iff w :
  (exists ws, get_worker_status_from_tasks w = Ok ws)
  <-> (_sqlite_checkpoint_available w = true -> db_raises (w_db w) QHeartbeats = None).
Proof.
  unfold get_worker_status_from_tasks, sqlite_fetchall.
  destruct (_sqlite_checkpoint_available w).
  - destruct (db_raises (w_db w) QHeartbeats) as [e|]; cbn [mbind result_bind].
    + split; [intros [ws ?]; discriminate | intros H; discriminate (H eq_refl)].
    + split; [reflexivity | eauto].
  - split; [discriminate | eauto].
Qed.

Lemma pending_routes_ok_iff w :
  (exists m, get_pending_routes_info w = Ok m)
  <-> (_sqlite_checkpoint_available w = true -> db_raises (w_db w) QAllTasks = None).
Proof.
  unfold get_pending_routes_info, sqlite_fetchall.
  destruct (_sqlite_checkpoint_available w).
  - destruct (db_raises (w_db w) QAllTasks) as [e|]; cbn [mbind result_bind].
    + split; [intros [ws ?]; discriminate | intros H; discriminate (H eq_refl)].
    + split; [reflexivity | eauto].
  - split; [discriminate | eauto].
Qed.

(** With the database file present, an error of the heartbeat statement
    or of the all-tasks statement is not caught on the way: it leaves
    [update_status], and the iteration of the monitor loop publishes no
    snapshot and leaves the speed and error histories as they were,
    whether or not the statements behind the progress summary succeed. *)
Theorem statement_error_blocks_snapshot w ms e :
  _sqlite_checkpoint_available w = true ->
  db_raises (w_db w) QHeartbeats = Some e
  \/ (db_raises (w_db w) QHeartbeats = None /\ db_raises (w_db w) QAllTasks = Some e) ->
  update_status w ms = Raise e /\ monitor_step w ms = (None, ms).
Proof.
  intros Ha Hq.
  assert (Hu : update_status w ms = Raise e).
  { unfold update_status.
    destruct (calculate_progress_never_raises w) as [p ->]. cbn [mbind result_bind].
    destruct Hq as [Hh|[Hh Ht]].
    - rewrite (worker_status_raises w e Ha Hh). reflexivity.
    - destruct (proj2 (worker_status_ok_iff w)) as [ws ->]; [intros _; exact Hh|].
      cbn [mbind result_bind].
      rewrite (pending_routes_raises w e Ha Ht). reflexivity. }
  split; [exact Hu|]. unfold monitor_step. rewrite Hu. reflexivity.
Qed.

Lemma statement_error_blocks_snapshot_witness :
  monitor_step (Scenario.world true Scenario.db_routes_locked) (Scenario.metrics 2)
  = (None, Scenario.metrics 2).
Proof.
  apply (statement_error_blocks_snapshot (Scenario.world true Scenario.db_routes_locked)
           (Scenario.metrics 2) (OperationalError "database is locked") eq_refl).
  right. split; reflexivity.
Defined.

(** When the statistics statement raises while the other statements
    succeed, the published snapshot carries the progress of the JSON task
    map under the backend label "sqlite". *)
Theorem snapshot_label_after_fallback w ms e :
  _sqlite_checkpoint_available w = true ->
  db_raises (w_db w) QStateCounts = Some e ->
  db_raises (w_db w) QHeartbeats = None ->
  db_raises (w_db w) QAllTasks = None ->
  exists status ms',
    update_status w ms = Ok (status, ms')
    /\ s_backend status = "sqlite"
    /\ s_progress status = progress_from_json (load_tasks_state w).
Proof.
  intros Ha Hs Hh Ht. unfold update_status.
  assert (Hp : calculate_progress_from_tasks w
               = Ok (progress_from_json (load_tasks_state w))).
  { unfold calculate_progress_from_tasks, try_except, _calculate_progress_from_sqlite,
      _sqlite_get_task_stats, sqlite_fetchall. rewrite Ha, Hs. reflexivity. }
  rewrite Hp. cbn [mbind result_bind].
  unfold get_worker_status_from_tasks, get_pending_routes_info, sqlite_fetchall.
  rewrite Ha, Hh, Ht. cbn [mbind result_bind]. cbv zeta.
  destruct (calculate_speed_metrics _ _ _ _) as [sm ms''].
  eexists _, _. split; [reflexivity|]. cbn [s_backend s_progress].
  split; reflexivity.
Qed.

Lemma snapshot_label_after_fallback_witness :
  exists status ms',
    update_status (Scenario.world true Scenario.db_stats_locked) metrics_init
      = Ok (status, ms')
    /\ s_backend status = "sqlite"
    /\ p_total (s_progress status) = 3.
Proof.
  destruct (snapshot_label_after_fallback (Scenario.world true Scenario.db_stats_locked)
              metrics_init (OperationalError "database is locked")
              eq_refl eq_refl eq_refl eq_refl) as (status & ms' & Hu & Hl & Hp).
  exists status, ms'. split; [exact Hu|]. split; [exact Hl|]. rewrite Hp. reflexivity.
Defined.

Lemma count_task_done c id t :
  c_done (count_task c (id, t)) =
  c_done c + (if decide (t_status t = Some (JStr "DONE")) then 1 else 0).
Proof.
  unfold count_task, jstr_eqb. cbv zeta.
  destruct (decide (t_status t = Some (JStr "DONE"))) as [E|E].
  - rewrite E. simpl. lia.
  - destruct (t_status t) as [v|]; simpl in *;
      repeat case_bool_decide; subst; simpl; try lia; congruence.
Qed.

Lemma fold_count_task_done tasks c :
  c_done (fold_left count_task tasks c) =
  c_done c
  + Z.of_nat (length (filter (fun it => t_status (snd it) = Some (JStr "DONE")) tasks)).
Proof.
  revert c. induction tasks as [|[id t] tasks IH]; intros c.
  - cbn. lia.
  - cbn [fold_left]. rewrite IH, count_task_done, filter_cons. cbn [snd].
    case_decide; cbn [length]; lia.
Qed.

Lemma filter_all_length {A} (P : A -> Prop) `{!forall x, Decision (P x)} (l : list A) :
  length (filter P l) = length l <-> Forall P l.
Proof.
  induction l as [|x l IH].
  - split; [constructor | reflexivity].
  - rewrite filter_cons. pose proof (length_filter P l) as Hle.
    case_decide as Hx; cbn [length].
    + split.
      * intros E. constructor; [exact Hx | apply IH; lia].
      * intros Hall. inversion Hall; subst. f_equal. apply IH. assumption.
    + split; [lia|]. intros Hall. inversion Hall; subst. contradiction.
Qed.

(** On the JSON backend the coarse status is "COMPLETED" exactly when the
    task map is not empty and every task has the status "DONE". *)
Theorem json_completed_iff_all_done tasks :
  run_status_of (progress_from_json tasks) = "COMPLETED"
  <-> tasks <> [] /\ Forall (fun it => t_status (snd it) = Some (JStr "DONE")) tasks.
Proof.
  pose proof (progress_from_json_sum tasks) as Hsum.
  pose proof (progress_from_json_nonneg tasks) as (Hd & Hr & Hp & Hf).
  assert (Hdone : p_done (progress_from_json tasks)
                  = Z.of_nat (length (filter (fun it => t_status (snd it)
                                                        = Some (JStr "DONE")) tasks))).
  { unfold progress_from_json. destruct tasks; [reflexivity|].
    cbn [p_done]. rewrite fold_count_task_done. reflexivity. }
  assert (Htot : p_total (progress_from_json tasks) = Z.of_nat (length tasks)).
  { unfold progress_from_json. destruct tasks; reflexivity. }
  unfold progress_sum in Hsum.
  rewrite <- (filter_all_length
                (fun it : string * Task => t_status (snd it) = Some (JStr "DONE")) tasks).
  unfold run_status_of.
  set (p := progress_from_json tasks) in *.
  destruct (Z.ltb_spec 0 (p_running p)) as [Hrun|Hrun].
  - split; [discriminate|]. intros [_ E]. lia.
  - destruct (Z.eqb_spec (p_done p) (p_total p)) as [E|E]; cbn [andb].
    + destruct (Z.ltb_spec 0 (p_total p)) as [Hpos|Hpos].
      * split; [|reflexivity]. intros _. split; [|lia].
        intros ->. cbn [length Z.of_nat] in Htot. lia.
      * destruct (p_total p =? 0); split; try discriminate.
        -- intros [Hne E']. destruct tasks; [congruence | cbn [length] in Htot; lia].
        -- intros [Hne E']. destruct tasks; [congruence | cbn [length] in Htot; lia].
    + destruct (p_total p =? 0); split; try discriminate; intros [_ E']; lia.
Qed.

Lemma json_completed_iff_all_done_witness :
  run_status_of (progress_from_json [("a", Scenario.task (Some (JStr "DONE")))])
  = "COMPLETED".
Proof.
  apply (proj2 (json_completed_iff_all_done [("a", Scenario.task (Some (JStr "DONE")))])).
  split; [discriminate|]. repeat constructor.
Defined.

(** ** Worker status *)

Lemma string_of_uint_digits d :
  all_digits (DecimalString.NilEmpty.string_of_uint d) = true.
Proof. induction d; cbn; auto. Qed.

Lemma str_of_int_digits n :
  0 <= n -> all_digits (Py.str_of_int n) = true /\ Py.str_of_int n <> "".
Proof.
  intros Hn. unfold Py.str_of_int, DecimalString.NilZero.string_of_int.
  destruct n as [|p|p]; [cbn; split; [reflexivity | discriminate] | | lia].
  cbn [Z.to_int]. unfold DecimalString.NilZero.string_of_uint.
  destruct (Pos.to_uint p) eqn:E; [cbn; split; [reflexivity | discriminate] | ..];
    (split; [apply string_of_uint_digits | cbn; discriminate]).
Qed.

Lemma take_digits_all s : all_digits s = true -> take_digits s = s.
Proof.
  induction s as [|c s IH]; cbn; [reflexivity|].
  intros H. apply andb_true_iff in H. destruct H as [Hc Hs].
  rewrite Hc, (IH Hs). reflexivity.
Qed.

Lemma search_worker_port_here s rest :
  strip_prefix "Worker_" s = Some rest -> take_digits rest <> "" ->
  search_worker_port s = Some (take_digits rest).
Proof.
  intros H Hne. destruct s; cbn [search_worker_port]; rewrite H;
    destruct (take_digits rest); congruence.
Qed.

Lemma search_worker_port_named ds :
  all_digits ds = true -> ds <> "" ->
  search_worker_port ("Worker_" ++ ds) = Some ds.
Proof.
  intros Hd Hne.
  assert (Hp : strip_prefix "Worker_" ("Worker_" ++ ds) = Some ds) by reflexivity.
  rewrite (search_worker_port_here _ ds Hp);
    rewrite (take_digits_all ds Hd); [reflexivity | exact Hne].
Qed.

(** The worker name written for a port leads back to the key of that
    port: for every port that is not negative, the search for
    [Worker_<digits>] in ["Worker_" ++ str(port)] yields [str(port)]. *)
Theorem worker_name_yields_port_key port :
  0 <= port ->
  search_worker_port ("Worker_" ++ Py.str_of_int port) = Some (port_key port).
Proof.
  intros Hp. destruct (str_of_int_digits port Hp) as [Hd Hne].
  exact (search_worker_port_named _ Hd Hne).
Qed.

Lemma worker_name_yields_port_key_witness :
  search_worker_port ("Worker_" ++ Py.str_of_int 9222) = Some "9222".
Proof. apply (worker_name_yields_port_key 9222). lia. Defined.

(** What the search returns is never empty and holds digits only. *)
Lemma take_digits_digits s : all_digits (take_digits s) = true.
Proof.
  induction s as [|c s IH]; cbn; [reflexivity|].
  destruct (is_digit c) eqn:E; cbn; [rewrite E, IH|]; reflexivity.
Qed.

Theorem worker_port_is_digits s ds :
  search_worker_port s = Some ds -> all_digits ds = true /\ ds <> "".
Proof.
  revert ds. induction s as [|c s IH]; intros ds.
  - cbn. discriminate.
  - cbn [search_worker_port].
    destruct (strip_prefix "Worker_" (String c s)) as [rest|].
    + pose proof (take_digits_digits rest) as Hd.
      destruct (take_digits rest) as [|c' r'] eqn:E.
      * apply IH.
      * intros [= <-]. split; [exact Hd | discriminate].
    + apply IH.
Qed.

Lemma worker_port_is_digits_witness :
  all_digits "9222" = true /\ "9222" <> "".
Proof. apply (worker_port_is_digits "LF_Worker_9222_a" "9222"). reflexivity. Defined.

Lemma workers_fold_lookup ports (acc : gmap string WorkerInfo) k :
  fold_left (fun workers port => <[Py.str_of_int port := worker_idle]> workers) ports acc
    !! k
  = if decide (k ∈ map Py.str_of_int ports) then Some worker_idle else acc !! k.
Proof.
  revert acc. induction ports as [|p ports IH]; intros acc; cbn [fold_left map].
  - destruct (decide (k ∈ [])) as [H|_]; [|reflexivity].
    apply elem_of_nil in H. contradiction.
  - rewrite IH.
    destruct (decide (k ∈ map Py.str_of_int ports)) as [Hin|Hn];
      destruct (decide (k ∈ Py.str_of_int p :: map Py.str_of_int ports)) as [Hin'|Hn'];
      try reflexivity.
    + exfalso. apply Hn', elem_of_cons. right. exact Hin.
    + apply elem_of_cons in Hin'. destruct Hin' as [->|?]; [|contradiction].
      apply lookup_insert_eq.
    + apply lookup_insert_ne. intros <-. apply Hn', elem_of_cons. left. reflexivity.
Qed.

Lemma workers_init_lookup ports k :
  workers_init ports !! k
  = if decide (k ∈ map Py.str_of_int ports) then Some worker_idle else None.
Proof. unfold workers_init. rewrite workers_fold_lookup, lookup_empty. reflexivity. Qed.

Lemma insert_present_keys (m : gmap string WorkerInfo) i x y k :
  m !! i = Some y -> (is_Some (<[i := x]> m !! k) <-> is_Some (m !! k)).
Proof.
  intros Hi. rewrite lookup_insert. case_decide as E; [|reflexivity].
  subst k. rewrite Hi. split; eauto.
Qed.

Lemma insert_entry_ok (m : gmap string WorkerInfo) i x :
  worker_entry_ok x ->
  (forall k v, m !! k = Some v -> worker_entry_ok v) ->
  forall k v, <[i := x]> m !! k = Some v -> worker_entry_ok v.
Proof.
  intros Hx Hm k v. rewrite lookup_insert. case_decide.
  - intros [= <-]. exact Hx.
  - apply Hm.
Qed.

Lemma worker_idle_ok : worker_entry_ok worker_idle.
Proof. left. reflexivity. Qed.

Lemma heartbeat_row_keeps workers row :
  (forall k, is_Some (heartbeat_row workers row !! k) <-> is_Some (workers !! k))
  /\ ((forall k v, workers !! k = Some v -> worker_entry_ok v) ->
      forall k v, heartbeat_row workers row !! k = Some v -> worker_entry_ok v).
Proof.
  destruct row as [hb route]. unfold heartbeat_row.
  destruct (search_worker_port _) as [port|]; [|split; [reflexivity | auto]].
  destruct (workers !! port) as [old|] eqn:E; [|split; [reflexivity | auto]].
  cbv zeta. destruct (hb_task_id hb) as [task_id|].
  - case_decide.
    + split; [intros k; exact (insert_present_keys _ _ _ _ k E)|].
      intros Hm. apply insert_entry_ok; [|exact Hm].
      right. split; [reflexivity | eexists; reflexivity].
    + split; [intros k; exact (insert_present_keys _ _ _ _ k E)|].
      intros Hm. apply insert_entry_ok; [apply worker_idle_ok | exact Hm].
  - split; [intros k; exact (insert_present_keys _ _ _ _ k E)|].
    intros Hm. apply insert_entry_ok; [apply worker_idle_ok | exact Hm].
Qed.

Lemma task_worker_row_keeps workers item :
  (forall k, is_Some (task_worker_row workers item !! k) <-> is_Some (workers !! k))
  /\ ((forall k v, workers !! k = Some v -> worker_entry_ok v) ->
      forall k v, task_worker_row workers item !! k = Some v -> worker_entry_ok v).
Proof.
  destruct item as [task_id task]. unfold task_worker_row.
  case_bool_decide; [|split; [reflexivity | auto]].
  destruct (search_worker_port _) as [port|]; [|split; [reflexivity | auto]].
  destruct (workers !! port) as [old|] eqn:E; [|split; [reflexivity | auto]].
  split; [intros k; exact (insert_present_keys _ _ _ _ k E)|].
  intros Hm. apply insert_entry_ok; [|exact Hm].
  right. split; [reflexivity | eexists; reflexivity].
Qed.

Lemma fold_keeps {A} (step : gmap string WorkerInfo -> A -> gmap string WorkerInfo)
    (rows : list A) workers :
  (forall m row,
     (forall k, is_Some (step m row !! k) <-> is_Some (m !! k))
     /\ ((forall k v, m !! k = Some v -> worker_entry_ok v) ->
         forall k v, step m row !! k = Some v -> worker_entry_ok v)) ->
  (forall k, is_Some (fold_left step rows workers !! k) <-> is_Some (workers !! k))
  /\ ((forall k v, workers !! k = Some v -> worker_entry_ok v) ->
      forall k v, fold_left step rows workers !! k = Some v -> worker_entry_ok v).
Proof.
  intros Hstep. revert workers.
  induction rows as [|row rows IH]; intros workers; cbn [fold_left].
  - split; [reflexivity | auto].
  - destruct (IH (step workers row)) as [Hk Hv].
    destruct (Hstep workers row) as [Hk' Hv']. split.
    + intros k. rewrite Hk. apply Hk'.
    + intros Hm. apply Hv. apply Hv'. exact Hm.
Qed.

(** On either backend, when the worker status is returned, its keys are
    exactly the configured ports (as decimal strings): a heartbeat or a
    task that names another port adds nothing.  Every entry is the idle
    entry or a working entry that names a task. *)
Theorem worker_status_covers_ports w workers :
  get_worker_status_from_tasks w = Ok workers ->
  (forall key, is_Some (workers !! key)
               <-> key ∈ map port_key (cfg_ports (get_config_from_checkpoint w)))
  /\ (forall key entry, workers !! key = Some entry -> worker_entry_ok entry).
Proof.
  unfold get_worker_status_from_tasks, sqlite_fetchall. cbv zeta.
  set (ports := cfg_ports (get_config_from_checkpoint w)).
  assert (Hinit_k : forall key, is_Some (workers_init ports !! key)
                                <-> key ∈ map port_key ports).
  { intros key. rewrite workers_init_lookup. unfold port_key.
    case_decide as Hin.
    - split; [intros _; exact Hin | intros _; eauto].
    - split; [intros [? ?]; discriminate | intros ?; contradiction]. }
  assert (Hinit_v : forall k v, workers_init ports !! k = Some v -> worker_entry_ok v).
  { intros k v. rewrite workers_init_lookup. case_decide; [|discriminate].
    intros [= <-]. apply worker_idle_ok. }
  destruct (_sqlite_checkpoint_available w).
  - destruct (db_raises (w_db w) QHeartbeats); cbn [mbind result_bind]; [discriminate|].
    intros [= <-].
    destruct (fold_keeps heartbeat_row (heartbeat_join (w_db w)) (workers_init ports)
                heartbeat_row_keeps) as [Hk Hv].
    split; [intros key; rewrite Hk; apply Hinit_k | exact (Hv Hinit_v)].
  - intros [= <-].
    destruct (fold_keeps task_worker_row (load_tasks_state w) (workers_init ports)
                task_worker_row_keeps) as [Hk Hv].
    split; [intros key; rewrite Hk; apply Hinit_k | exact (Hv Hinit_v)].
Qed.

Lemma worker_status_covers_ports_witness :
  exists workers,
    get_worker_status_from_tasks (Scenario.world false Scenario.db_locked) = Ok workers
    /\ is_Some (workers !! "9223").
Proof.
  eexists. split; [reflexivity|].
  apply (proj1 (worker_status_covers_ports (Scenario.world false Scenario.db_locked)
                  _ eq_refl)).
  cbn. apply elem_of_cons. right. apply elem_of_cons. left. reflexivity.
Defined.

Lemma fold_task_worker_idle tasks workers :
  Forall (fun it => t_status (snd it) <> Some (JStr "RUNNING")) tasks ->
  fold_left task_worker_row tasks workers = workers.
Proof.
  intros H. revert workers. induction H as [|it rest Hx Hrest IH]; intros workers;
    cbn [fold_left]; [reflexivity|].
  rewrite <- (IH workers) at 2. f_equal. destruct it as [id t].
  unfold task_worker_row. cbn [snd] in Hx.
  case_bool_decide; [contradiction | reflexivity].
Qed.

(** With no running task in the task map (JSON backend), or no heartbeat
    row and no error (SQLite backend), every configured port is reported
    idle. *)
Theorem workers_idle_without_activity w :
  (_sqlite_checkpoint_available w = false /\
   Forall (fun it => t_status (snd it) <> Some (JStr "RUNNING")) (load_tasks_state w))
  \/ (_sqlite_checkpoint_available w = true /\ db_raises (w_db w) QHeartbeats = None
      /\ worker_heartbeats (w_db w) = []) ->
  exists workers,
    get_worker_status_from_tasks w = Ok workers
    /\ forall key entry, workers !! key = Some entry -> entry = worker_idle.
Proof.
  assert (Hidle : forall ports key entry,
            workers_init ports !! key = Some entry -> entry = worker_idle).
  { intros ports key entry. rewrite workers_init_lookup.
    case_decide; [congruence | discriminate]. }
  unfold get_worker_status_from_tasks, sqlite_fetchall, heartbeat_join. cbv zeta.
  intros [[Ha Hall]|(Ha & Hq & Hh)]; rewrite Ha.
  - rewrite (fold_task_worker_idle _ _ Hall). eexists. split; [reflexivity | apply Hidle].
  - rewrite Hq, Hh. cbn. eexists. split; [reflexivity | apply Hidle].
Qed.

Lemma workers_idle_without_activity_witness :
  exists workers,
    get_worker_status_from_tasks (Scenario.world false Scenario.db_locked) = Ok workers
    /\ forall key entry, workers !! key = Some entry -> entry = worker_idle.
Proof.
  apply workers_idle_without_activity. left. split; [reflexivity|].
  repeat (apply List.Forall_cons; [cbn; congruence|]). apply List.Forall_nil.
Defined.

(** ** Pending routes *)

Lemma pending_row_json_shape m it :
  pending_row_json m it = route_row json_route json_done json_dates true m it.
Proof.
  unfold pending_row_json, route_row, json_route, json_done, json_dates. cbv zeta.
  destruct (bool_decide _); reflexivity.
Qed.

Lemma pending_row_sql_shape m row :
  pending_row_sql m row = route_row tr_route sql_done sql_dates false m row.
Proof.
  unfold pending_row_sql, route_row, sql_done, sql_dates. cbv zeta.
  destruct (decide (Py.lower (default "" (tr_state row)) = "done")) as [E|E].
  - rewrite (bool_decide_eq_true_2 _ E). reflexivity.
  - rewrite (bool_decide_eq_false_2 _ E). reflexivity.
Qed.

Lemma fold_left_ext {A B} (f g : B -> A -> B) l b :
  (forall x y, f x y = g x y) -> fold_left f l b = fold_left g l b.
Proof.
  intros H. revert b. induction l as [|a l IH]; intros b; cbn; [reflexivity|].
  rewrite H. apply IH.
Qed.

Section RouteFold.

Context {A : Type} (route_of : A -> option string) (is_done : A -> bool)
        (dates_of : A -> list string) (record_done : bool).

(** What the entry of a route holds after the loop. *)
Lemma route_fold_spec rows r :
  match fold_left (route_row route_of is_done dates_of record_done) rows ∅ !! r with
  | None => rows_of_route route_of r rows = []
  | Some info =>
      rows_of_route route_of r rows <> []
      /\ total_tasks info = Z.of_nat (length (rows_of_route route_of r rows))
      /\ done_tasks info = Z.of_nat (length (done_rows is_done (rows_of_route route_of r rows)))
      /\ pending_dates info = all_dates dates_of (open_rows is_done (rows_of_route route_of r rows))
      /\ done_dates info =
           if record_done then all_dates dates_of (done_rows is_done (rows_of_route route_of r rows))
           else []
  end.
Proof.
  induction rows as [|a rows IH] using rev_ind.
  - cbn. rewrite lookup_empty. reflexivity.
  - rewrite fold_left_app. cbn [fold_left].
    set (m := fold_left (route_row route_of is_done dates_of record_done) rows ∅) in *.
    unfold rows_of_route in *. rewrite filter_app, filter_cons, filter_nil.
    unfold route_row. cbv zeta.
    destruct (decide (route_of a = r)) as [Er|Er].
    + subst r.
      set (rt := filter (fun a0 => route_of a0 = route_of a) rows) in *.
      assert (Hold : total_tasks (default route_info_init (m !! route_of a))
                       = Z.of_nat (length rt)
                     /\ done_tasks (default route_info_init (m !! route_of a))
                        = Z.of_nat (length (done_rows is_done rt))
                     /\ pending_dates (default route_info_init (m !! route_of a))
                        = all_dates dates_of (open_rows is_done rt)
                     /\ done_dates (default route_info_init (m !! route_of a))
                        = if record_done then all_dates dates_of (done_rows is_done rt)
                          else []).
      { destruct (m !! route_of a) as [info|].
        - destruct IH as (_ & ? & ? & ? & ?). cbn. auto.
        - rewrite IH. cbn. destruct record_done; auto. }
      destruct Hold as (Ht & Hd & Hp & Hdd).
      unfold done_rows, open_rows, all_dates in *.
      destruct (is_done a) eqn:Ed.
      * rewrite lookup_insert_eq.
        split; [intros H; apply app_eq_nil in H; destruct H; discriminate|].
        cbn [total_tasks done_tasks pending_dates done_dates].
        rewrite !filter_app, !filter_cons, !filter_nil.
        destruct (decide (is_done a = true)) as [_|]; [|congruence].
        destruct (decide (is_done a = false)) as [|_]; [congruence|].
        rewrite !length_app, !map_app, !concat_app, Ht, Hd, Hp, Hdd. cbn.
        rewrite !app_nil_r. split; [lia|]. split; [lia|]. split; [reflexivity|].
        destruct record_done; reflexivity.
      * rewrite lookup_insert_eq.
        split; [intros H; apply app_eq_nil in H; destruct H; discriminate|].
        cbn [total_tasks done_tasks pending_dates done_dates].
        rewrite !filter_app, !filter_cons, !filter_nil.
        destruct (decide (is_done a = true)) as [|_]; [congruence|].
        destruct (decide (is_done a = false)) as [_|]; [|congruence].
        rewrite !length_app, !map_app, !concat_app, Ht, Hd, Hp, Hdd. cbn.
        rewrite !app_nil_r. split; [lia|]. split; [lia|]. split; [reflexivity|].
        destruct record_done; reflexivity.
    + rewrite app_nil_r.
      assert (Hsame : (if is_done a
                       then <[route_of a := {|
                              total_tasks := total_tasks (default route_info_init (m !! route_of a)) + 1;
                              done_tasks := done_tasks (default route_info_init (m !! route_of a)) + 1;
                              pending_dates := pending_dates (default route_info_init (m !! route_of a));
                              done_dates := if record_done
                                            then (done_dates (default route_info_init (m !! route_of a))
                                                  ++ dates_of a)%list
                                            else done_dates (default route_info_init (m !! route_of a)) |}]> m
                       else <[route_of a := {|
                              total_tasks := total_tasks (default route_info_init (m !! route_of a)) + 1;
                              done_tasks := done_tasks (default route_info_init (m !! route_of a));
                              pending_dates := (pending_dates (default route_info_init (m !! route_of a))
                                                ++ dates_of a)%list;
                              done_dates := done_dates (default route_info_init (m !! route_of a)) |}]> m)
                        !! r = m !! r)
        by (destruct (is_done a); apply lookup_insert_ne; exact Er).
      rewrite Hsame. exact IH.
Qed.

End RouteFold.

(** On the JSON backend the breakdown has an entry for a route exactly
    when a task of the map has that route; the entry counts the tasks of
    the route and the "DONE" ones among them, and lists, in the order of
    the map, the dates of the tasks that are not "DONE" as pending and the
    dates of the "DONE" ones as done. *)
Theorem pending_routes_json_breakdown w r :
  _sqlite_checkpoint_available w = false ->
  exists m,
    get_pending_routes_info w = Ok m
    /\ let tasks := rows_of_route json_route r (load_tasks_state w) in
       match m !! r with
       | None => tasks = []
       | Some info =>
           tasks <> []
           /\ total_tasks info = Z.of_nat (length tasks)
           /\ done_tasks info = Z.of_nat (length (done_rows json_done tasks))
           /\ pending_dates info = all_dates json_dates (open_rows json_done tasks)
           /\ done_dates info = all_dates json_dates (done_rows json_done tasks)
       end.
Proof.
  intros Ha. unfold get_pending_routes_info. rewrite Ha. eexists. split; [reflexivity|].
  cbv zeta. rewrite (fold_left_ext _ _ _ _ pending_row_json_shape).
  exact (route_fold_spec json_route json_done json_dates true (load_tasks_state w) r).
Qed.

Lemma pending_routes_json_breakdown_witness :
  exists m,
    get_pending_routes_info (Scenario.world false Scenario.db_locked) = Ok m
    /\ (total_tasks <$> m !! Some "CAI-JED") = Some 3.
Proof.
  destruct (pending_routes_json_breakdown (Scenario.world false Scenario.db_locked)
              (Some "CAI-JED") eq_refl) as (m & Hm & Hspec).
  exists m. split; [exact Hm|]. cbv zeta in Hspec.
  destruct (m !! Some "CAI-JED") as [info|].
  - destruct Hspec as (_ & Ht & _). cbn. rewrite Ht. reflexivity.
  - discriminate Hspec.
Defined.

(** On the SQLite backend, when the all-tasks statement does not raise,
    the breakdown counts per route the rows and the rows whose state is
    "done" in any letter case, and lists the dates of the other rows as
    pending; it never reports a done date. *)
Theorem pending_routes_sqlite_breakdown w r :
  _sqlite_checkpoint_available w = true ->
  db_raises (w_db w) QAllTasks = None ->
  exists m,
    get_pending_routes_info w = Ok m
    /\ let rows := rows_of_route tr_route r (chunk_tasks (w_db w)) in
       match m !! r with
       | None => rows = []
       | Some info =>
           rows <> []
           /\ total_tasks info = Z.of_nat (length rows)
           /\ done_tasks info = Z.of_nat (length (done_rows sql_done rows))
           /\ pending_dates info = all_dates sql_dates (open_rows sql_done rows)
           /\ done_dates info = []
       end.
Proof.
  intros Ha Hq. unfold get_pending_routes_info, sqlite_fetchall. rewrite Ha, Hq.
  cbn [mbind result_bind]. eexists. split; [reflexivity|].
  cbv zeta. rewrite (fold_left_ext _ _ _ _ pending_row_sql_shape).
  exact (route_fold_spec tr_route sql_done sql_dates false (chunk_tasks (w_db w)) r).
Qed.

Lemma pending_routes_sqlite_breakdown_witness :
  exists m,
    get_pending_routes_info (Scenario.world true Scenario.db_known) = Ok m
    /\ (done_tasks <$> m !! Some "CAI-JED") = Some 2.
Proof.
  destruct (pending_routes_sqlite_breakdown (Scenario.world true Scenario.db_known)
              (Some "CAI-JED") eq_refl eq_refl) as (m & Hm & Hspec).
  exists m. split; [exact Hm|]. cbv zeta in Hspec.
  destruct (m !! Some "CAI-JED") as [info|].
  - destruct Hspec as (_ & _ & Hd & _). cbn. rewrite Hd. reflexivity.
  - discriminate Hspec.
Defined.

(** ** Throughput window *)

Lemma speed_window_open now : (now - 60 < now)%Q.
Proof. lra. Qed.

(** After every sample the retained throughput samples are younger than
    60 seconds, the newest of them is the sample just taken (so at least
    one is retained and counted in [data_points]), and the remembered
    failed counter is the one just seen. *)
Theorem speed_window_after_sample now done failed st :
  let r := calculate_speed_metrics now done failed st in
  Forall (fun p => (now - 60 < fst p)%Q) (_speed_history (snd r))
  /\ last (_speed_history (snd r)) = Some (now, done)
  /\ data_points (fst r) = Z.of_nat (length (_speed_history (snd r)))
  /\ 1 <= data_points (fst r)
  /\ _last_error_count (snd r) = failed.
Proof.
  cbv zeta. unfold calculate_speed_metrics. cbv zeta.
  rewrite (after_cutoff_snoc _ _ _ _ (speed_window_open now)).
  destruct (track_errors now failed st) as [last_count errors] eqn:Et.
  cbn [fst snd _speed_history data_points _last_error_count].
  split; [apply Forall_app; split;
          [apply after_cutoff_recent | constructor; [apply speed_window_open | constructor]]|].
  split; [apply last_snoc|]. split; [reflexivity|].
  split; [rewrite length_app; cbn [length]; lia|].
  unfold track_errors in Et. destruct (decide (failed <> _last_error_count st)) as [|Hn].
  - injection Et as <- _. reflexivity.
  - injection Et as <- _. destruct (decide (failed = _last_error_count st)); [congruence|].
    contradiction.
Qed.

Lemma after_cutoff_all_old cutoff history :
  Forall (fun p => (fst p <= cutoff)%Q) history -> after_cutoff cutoff history = [].
Proof.
  unfold after_cutoff. induction 1 as [|p h Hp _ IH]; [reflexivity|].
  rewrite filter_cons. case_decide as E; [|exact IH].
  apply Qltb_lt in E. exfalso. exact (Qlt_not_le _ _ E Hp).
Qed.

Lemma speed_of_history_ends oldest mid newest :
  speed_of_history (oldest :: mid ++ [newest]) =
  let time_diff := (fst newest - fst oldest)%Q in
  if Qltb 0 time_diff
  then (inject_Z (snd newest - snd oldest) / time_diff * 60)%Q else 0%Q.
Proof.
  unfold speed_of_history. destruct mid as [|p mid]; cbn [app]; [reflexivity|].
  assert (H : last (oldest :: p :: mid ++ [newest]) = Some newest)
    by exact (last_snoc newest (oldest :: p :: mid)).
  rewrite H. reflexivity.
Qed.

Lemma round_zero q n : (q == 0)%Q -> (Py.round q n == 0)%Q.
Proof.
  intros H. unfold Py.round. cbv zeta.
  rewrite (round_half_even_Z _ 0); [reflexivity|]. rewrite H. reflexivity.
Qed.

(** The reported speed is 0 when the sample just taken is the only one
    younger than 60 seconds, and when the oldest retained sample already
    had the present done count. *)
Theorem speed_zero_without_progress now done failed st :
  let m := fst (calculate_speed_metrics now done failed st) in
  (Forall (fun p => (fst p <= now - 60)%Q) (_speed_history st) ->
     (speed_per_minute m == 0)%Q /\ data_points m = 1)
  /\ (forall t0, head (after_cutoff (now - 60) (_speed_history st)) = Some (t0, done) ->
        (speed_per_minute m == 0)%Q /\ (speed_per_hour m == 0)%Q).
Proof.
  cbv zeta. unfold calculate_speed_metrics. cbv zeta.
  rewrite (after_cutoff_snoc _ _ _ _ (speed_window_open now)).
  destruct (track_errors now failed st) as [last_count errors].
  cbn [fst speed_per_minute speed_per_hour data_points]. split.
  - intros Hold. rewrite (after_cutoff_all_old _ _ Hold). cbn. split; reflexivity.
  - intros t0 Hh.
    assert (Hs : (speed_of_history (after_cutoff (now - 60) (_speed_history st)
                                    ++ [(now, done)]) == 0)%Q).
    { destruct (after_cutoff (now - 60) (_speed_history st)) as [|p kept]; [discriminate|].
      injection Hh as ->.
      change ((((t0, done) :: kept) ++ [(now, done)])%list)
        with ((t0, done) :: (kept ++ [(now, done)]))%list.
      rewrite speed_of_history_ends. cbn [fst snd]. cbv zeta.
      destruct (Qltb 0 (now - t0)); [|reflexivity].
      rewrite Z.sub_diag. unfold Qdiv. rewrite !Qmult_0_l. reflexivity. }
    split; apply round_zero; [exact Hs|]. rewrite Hs. reflexivity.
Qed.

Lemma speed_zero_without_progress_witness :
  (speed_per_minute (fst (calculate_speed_metrics 100 7 0 metrics_init)) == 0)%Q
  /\ (speed_per_minute
        (fst (calculate_speed_metrics 100 7 0
                {| _speed_history := [(90%Q, 7%Z)]; _last_error_count := 0;
                   _error_rate_history := [] |})) == 0)%Q.
Proof.
  split.
  - apply (proj1 (speed_zero_without_progress 100 7 0 metrics_init)). constructor.
  - apply (proj2 (speed_zero_without_progress 100 7 0
                    {| _speed_history := [(90%Q, 7%Z)]; _last_error_count := 0;
                       _error_rate_history := [] |}) 90%Q).
    reflexivity.
Defined.

(** ** Percentages of the snapshot *)

(** The completeness of the output files lies between 0 and 100, is 100
    from four files on, and is 0 without any file even for a completed
    run. *)
Theorem excel_progress_range is_completed excel_count :
  0 <= excel_count ->
  (0 <= excel_progress is_completed excel_count)%Q
  /\ (excel_progress is_completed excel_count <= 100)%Q
  /\ (4 <= excel_count -> (excel_progress is_completed excel_count == 100)%Q)
  /\ (excel_count = 0 -> (excel_progress is_completed excel_count == 0)%Q).
Proof.
  intros Hn. unfold excel_progress, Py.min. cbv zeta.
  rewrite Zle_Qle in Hn. change (inject_Z 0) with 0%Q in Hn.
  assert (H4 : 4 <= excel_count -> (4 <= inject_Z excel_count)%Q)
    by (intros H; rewrite Zle_Qle in H; exact H).
  assert (H0 : excel_count = 0 -> (inject_Z excel_count == 0)%Q)
    by (intros ->; reflexivity).
  destruct (is_completed && (0 <? excel_count))%bool eqn:Ec.
  - split; [discriminate|]. split; [discriminate|]. split; [reflexivity|].
    intros ->. apply andb_true_iff in Ec. destruct Ec as [_ Ec]. discriminate.
  - set (x := inject_Z excel_count) in *.
    assert (E : (x / 4 * 100 == x * 25)%Q) by field.
    destruct (Qlt_le_dec (x / 4 * 100) 100) as [Hlt|Hge].
    + rewrite E in Hlt |- *. split; [lra|]. split; [lra|]. split.
      * intros H. specialize (H4 H). lra.
      * intros H. specialize (H0 H). lra.
    + rewrite E in Hge. split; [discriminate|]. split; [discriminate|].
      split; [reflexivity|]. intros H. specialize (H0 H). lra.
Qed.

Lemma excel_progress_range_witness :
  (excel_progress false 4 == 100)%Q /\ (excel_progress true 0 == 0)%Q.
Proof.
  split.
  - apply (proj1 (proj2 (proj2 (excel_progress_range false 4 ltac:(lia))))). lia.
  - apply (proj2 (proj2 (proj2 (excel_progress_range true 0 ltac:(lia))))). reflexivity.
Defined.

(** The overall percentage stays between 0 and 100 when the three
    percentages it blends do. *)
Theorem overall_progress_range lf_percent oal_workers oal_percent excel_percent :
  (0 <= lf_percent)%Q -> (lf_percent <= 100)%Q ->
  (0 <= oal_percent)%Q -> (oal_percent <= 100)%Q ->
  (0 <= excel_percent)%Q -> (excel_percent <= 100)%Q ->
  (0 <= overall_progress lf_percent oal_workers oal_percent excel_percent)%Q
  /\ (overall_progress lf_percent oal_workers oal_percent excel_percent <= 100)%Q.
Proof.
  intros. unfold overall_progress.
  destruct (_ && _)%bool; [split; discriminate|].
  destruct (0 <? oal_workers); split; lra.
Qed.

Lemma overall_progress_range_witness :
  (0 <= overall_progress 80 2 40 50)%Q /\ (overall_progress 80 2 40 50 <= 100)%Q.
Proof. apply overall_progress_range; discriminate. Defined.

(** ** Duration texts on whole minutes *)

Lemma Qltb_inject_Z a b : Qltb (inject_Z a) (inject_Z b) = (a <? b).
Proof.
  destruct (Z.ltb_spec a b) as [H|H].
  - apply Qltb_lt. rewrite <- Zlt_Qlt. exact H.
  - apply Qltb_ge. rewrite <- Zle_Qle. exact H.
Qed.

Lemma int_of_inject_Z n : Py.int_of (inject_Z n) = n.
Proof. unfold Py.int_of. cbn. apply Z.quot_1_r. Qed.

Lemma floordiv_inject_Z n : Py.floordiv (inject_Z n) 60 = inject_Z (n / 60).
Proof.
  unfold Py.floordiv. f_equal. unfold Qfloor, Qdiv, Qmult, Qinv, inject_Z. cbn.
  rewrite Z.mul_1_r. reflexivity.
Qed.

Lemma fmod_inject_Z n : Py.int_of (Py.fmod (inject_Z n) 60) = n mod 60.
Proof.
  unfold Py.fmod. change (Qfloor (inject_Z n / 60)) with (Qfloor (inject_Z n / 60)).
  assert (E : Qfloor (inject_Z n / 60) = n / 60).
  { unfold Qfloor, Qdiv, Qmult, Qinv, inject_Z. cbn. rewrite Z.mul_1_r. reflexivity. }
  rewrite E. unfold Py.int_of, Qminus, Qplus, Qopp, Qmult, inject_Z. cbn.
  rewrite Z.quot_1_r, Z.mod_eq by lia. lia.
Qed.

(** For a whole number of minutes the text is "< 1 min" below one minute,
    the number followed by " min" below an hour, and from an hour on the
    hours followed by the remaining minutes, which are left out when they
    are 0. *)
Theorem format_duration_whole_minutes n :
  format_duration (inject_Z n) =
  if n <? 1 then "< 1 min"
  else if n <? 60 then (Py.str_of_int n ++ " min")%string
  else if 0 <? n mod 60
       then (Py.str_of_int (n / 60) ++ "h " ++ Py.str_of_int (n mod 60) ++ "m")%string
       else (Py.str_of_int (n / 60) ++ "h")%string.
Proof.
  unfold format_duration.
  change 1%Q with (inject_Z 1). change 60%Q with (inject_Z 60).
  rewrite !Qltb_inject_Z. change (inject_Z 60) with 60%Q.
  rewrite int_of_inject_Z, floordiv_inject_Z, int_of_inject_Z, fmod_inject_Z.
  reflexivity.
Qed.

(** ** Path resolution: cache, consistency, fallback *)

Lemma path_parent_join p name : path_parent (path_join p name) = p.
Proof. unfold path_parent, path_join. apply removelast_last. Qed.

Lemma refresh_miss_timestamp PROJECT_ROOT BASE_OUTPUT_DIRS fs force st :
  cache_hit fs force st = false ->
  _last_active_scan_ts (fst (refresh_active_paths PROJECT_ROOT BASE_OUTPUT_DIRS fs force st))
  = fs_time fs.
Proof.
  intros Hc. unfold refresh_active_paths. cbv zeta. rewrite Hc.
  destruct (_read_pointer_file fs); [reflexivity|].
  destruct (scan_fallback BASE_OUTPUT_DIRS fs) as [[sel|] events]; reflexivity.
Qed.

(** A call that has resolved the paths is not repeated within the scan
    interval: an unforced call less than 2 seconds later touches neither
    the file system nor the module state. *)
Theorem resolution_cached_within_interval PROJECT_ROOT BASE_OUTPUT_DIRS fs1 fs2 force st :
  cache_hit fs1 force st = false ->
  (fs_time fs2 - fs_time fs1 < 2)%Q ->
  let st1 := fst (refresh_active_paths PROJECT_ROOT BASE_OUTPUT_DIRS fs1 force st) in
  refresh_active_paths PROJECT_ROOT BASE_OUTPUT_DIRS fs2 false st1 = (st1, []).
Proof.
  intros Hc Ht st1.
  assert (Hhit : cache_hit fs2 false st1 = true).
  { unfold cache_hit. subst st1.
    rewrite (refresh_miss_timestamp _ _ _ _ _ Hc). cbn [negb andb].
    apply Qltb_lt. exact Ht. }
  unfold refresh_active_paths at 1. cbv zeta. rewrite Hhit. reflexivity.
Qed.

Lemma resolution_cached_within_interval_witness :
  let st1 := fst (refresh_active_paths ["/"] [["/"; "outputs"]] Scenario.fs_pointer_ok true
                    Scenario.resolver_init) in
  refresh_active_paths ["/"] [["/"; "outputs"]]
    (with_pointer Scenario.fs_pointer_ok PointerAbsent) false st1 = (st1, []).
Proof.
  apply (resolution_cached_within_interval ["/"] [["/"; "outputs"]]
           Scenario.fs_pointer_ok (with_pointer Scenario.fs_pointer_ok PointerAbsent)
           true Scenario.resolver_init); reflexivity.
Defined.

(** Every call that is not answered from the cache leaves the module
    paths consistent with each other, whichever branch resolved them, and
    stamps the time of the call. *)
Theorem resolution_keeps_paths_consistent PROJECT_ROOT BASE_OUTPUT_DIRS fs force st :
  cache_hit fs force st = false ->
  let st' := fst (refresh_active_paths PROJECT_ROOT BASE_OUTPUT_DIRS fs force st) in
  resolver_consistent st' /\ _last_active_scan_ts st' = fs_time fs.
Proof.
  intros Hc st'. split; [|exact (refresh_miss_timestamp _ _ _ _ _ Hc)].
  subst st'. unfold refresh_active_paths. cbv zeta. rewrite Hc.
  destruct (_read_pointer_file fs) as [dir|].
  - cbn [fst]. unfold resolver_consistent, set_paths. cbn.
    rewrite path_parent_join. repeat split; reflexivity.
  - destruct (scan_fallback BASE_OUTPUT_DIRS fs) as [[sel|] events];
      cbn [fst]; unfold resolver_consistent, set_paths; cbn; repeat split; reflexivity.
Qed.

Lemma resolution_keeps_paths_consistent_witness :
  resolver_consistent
    (fst (refresh_active_paths ["/"] [["/"; "outputs"]] Scenario.fs_pointer_ok true
            Scenario.resolver_init)).
Proof.
  apply (resolution_keeps_paths_consistent ["/"] [["/"; "outputs"]]
           Scenario.fs_pointer_ok true Scenario.resolver_init eq_refl).
Defined.

Lemma select_none_iff fs files :
  _select_active_run_state_file fs files = None
  <-> forall f, In f files -> candidate_key fs f = None.
Proof.
  unfold _select_active_run_state_file.
  pose proof (fold_select_spec fs files None) as H.
  destruct (fold_left (select_step fs) files None) as [k|]; cbn.
  - destruct H as ([?|(f & Hin & Hk)] & _); [discriminate|].
    split; [discriminate|]. intros Hall. rewrite (Hall f Hin) in Hk. discriminate.
  - destruct H as [_ Hall]. split; [intros _; exact Hall | reflexivity].
Qed.

(** When the pointer is unusable and no candidate can be ranked (none is
    found, or each one fails), the paths fall back to the first base
    directory, or to [PROJECT_ROOT/outputs] when there is none, and the
    remembered run-state file is left as it was. *)
Theorem resolution_default_without_candidates PROJECT_ROOT BASE_OUTPUT_DIRS fs force st :
  cache_hit fs force st = false ->
  _read_pointer_file fs = None ->
  (forall f, In f (flat_map (fs_glob fs) BASE_OUTPUT_DIRS) -> candidate_key fs f = None) ->
  let st' := fst (refresh_active_paths PROJECT_ROOT BASE_OUTPUT_DIRS fs force st) in
  let base := default (path_join PROJECT_ROOT "outputs") (head BASE_OUTPUT_DIRS) in
  ACTIVE_OUTPUT_DIR st' = base
  /\ ACTIVE_CHECKPOINT_DIR st' = path_join base "checkpoints"
  /\ _active_run_state_file st' = _active_run_state_file st.
Proof.
  intros Hc Hp Hall st' base. subst st' base.
  unfold refresh_active_paths, scan_fallback. cbv zeta. rewrite Hc, Hp.
  rewrite (proj2 (select_none_iff fs _) Hall). cbn.
  rewrite path_parent_join. repeat split; reflexivity.
Qed.

Lemma resolution_default_without_candidates_witness :
  ACTIVE_CHECKPOINT_DIR
    (fst (refresh_active_paths ["/"] []
            (with_pointer Scenario.fs_pointer_ok PointerAbsent) true
            Scenario.resolver_init))
  = ["/"; "outputs"; "checkpoints"].
Proof.
  apply (resolution_default_without_candidates ["/"] []
           (with_pointer Scenario.fs_pointer_ok PointerAbsent) true
           Scenario.resolver_init eq_refl eq_refl).
  intros f [].
Defined.

(** A pointer file that does not parse, or that names a directory that is
    missing or has no "checkpoints" subdirectory, is rejected by the
    reader, and the resolution then goes exactly as with an absent pointer
    file.  Conversely the reader accepts a pointer only when it parses and
    both the directory and its "checkpoints" subdirectory exist, and then
    returns the directory it names. *)
Theorem unusable_pointer_is_absent PROJECT_ROOT BASE_OUTPUT_DIRS fs force st :
  (pointer_unusable fs ->
   _read_pointer_file fs = None
   /\ refresh_active_paths PROJECT_ROOT BASE_OUTPUT_DIRS fs force st
      = refresh_active_paths PROJECT_ROOT BASE_OUTPUT_DIRS (with_pointer fs PointerAbsent)
          force st)
  /\ (forall dir, _read_pointer_file fs = Some dir ->
       exists d, fs_pointer fs = PointerDoc d /\ dir = path_of_string (default "" d)
                 /\ fs_exists fs dir = true
                 /\ fs_exists fs (path_join dir "checkpoints") = true).
Proof.
  split.
  - intros Hbad.
    assert (Hp : _read_pointer_file fs = None).
    { unfold _read_pointer_file.
      destruct Hbad as [->|(d & -> & [Hd|Hc])]; [reflexivity | |]; cbv zeta.
      - rewrite Hd. reflexivity.
      - rewrite Hc, andb_false_r. reflexivity. }
    split; [exact Hp|].
    unfold refresh_active_paths. cbv zeta. rewrite Hp.
    change (_read_pointer_file (with_pointer fs PointerAbsent)) with (@None Path).
    reflexivity.
  - intros dir. unfold _read_pointer_file.
    destruct (fs_pointer fs) as [| |d]; [discriminate | discriminate|]. cbv zeta.
    destruct (fs_exists fs (path_of_string (default "" d))) eqn:Hd; [|discriminate].
    destruct (fs_exists fs (path_join (path_of_string (default "" d)) "checkpoints"))
      eqn:Hc; [|discriminate].
    intros [= <-]. exists d. auto.
Qed.

Lemma unusable_pointer_is_absent_witness :
  fs_exists Scenario.fs_no_checkpoints ["/"; "outputs"; "run_b"] = true
  /\ _read_pointer_file Scenario.fs_no_checkpoints = None
  /\ refresh_active_paths ["/"] [["/"; "outputs"]] Scenario.fs_no_checkpoints true
       Scenario.resolver_init
     = refresh_active_paths ["/"] [["/"; "outputs"]]
         (with_pointer Scenario.fs_no_checkpoints PointerAbsent) true
         Scenario.resolver_init.
Proof.
  split; [reflexivity|].
  apply (proj1 (unusable_pointer_is_absent ["/"] [["/"; "outputs"]]
                  Scenario.fs_no_checkpoints true Scenario.resolver_init)).
  right. exists (Some "/outputs/run_b"). split; [reflexivity|]. right. reflexivity.
Defined.

(** ** Ranking: order of the candidates, activity time *)

Lemma lex_eq c1 c2 : lex c1 c2 = Eq -> c1 = Eq /\ c2 = Eq.
Proof. destruct c1; cbn; intros H; try discriminate; auto. Qed.

Lemma key_compare_eq_path a b : key_compare a b = Eq -> k_path a = k_path b.
Proof.
  unfold key_compare. intros H.
  apply lex_eq in H. destruct H as [_ H].
  apply lex_eq in H. destruct H as [_ H].
  apply lex_eq in H. destruct H as [_ H].
  apply lex_eq in H. destruct H as [_ H].
  apply path_compare_eq. exact H.
Qed.

Lemma fold_select_perm fs files files' :
  Permutation files files' ->
  k_path <$> fold_left (select_step fs) files None
  = k_path <$> fold_left (select_step fs) files' None.
Proof.
  intros Hperm.
  pose proof (fold_select_spec fs files None) as H1.
  pose proof (fold_select_spec fs files' None) as H2.
  destruct (fold_left (select_step fs) files None) as [k1|],
           (fold_left (select_step fs) files' None) as [k2|]; cbn.
  - destruct H1 as ([?|(f1 & Hin1 & Hk1)] & _ & Hmax1); [discriminate|].
    destruct H2 as ([?|(f2 & Hin2 & Hk2)] & _ & Hmax2); [discriminate|].
    pose proof (Hmax2 f1 k1 (Permutation_in _ Hperm Hin1) Hk1) as H12.
    pose proof (Hmax1 f2 k2 (Permutation_in _ (Permutation_sym Hperm) Hin2) Hk2) as H21.
    f_equal. apply key_compare_eq_path.
    rewrite (gc_antisym _ good_key k1 k2) in H21.
    destruct (key_compare k1 k2); [reflexivity | exfalso; apply H21; reflexivity | congruence].
  - destruct H1 as ([?|(f1 & Hin1 & Hk1)] & _); [discriminate|].
    destruct H2 as [_ Hnone].
    rewrite (Hnone f1 (Permutation_in _ Hperm Hin1)) in Hk1. discriminate.
  - destruct H2 as ([?|(f2 & Hin2 & Hk2)] & _); [discriminate|].
    destruct H1 as [_ Hnone].
    rewrite (Hnone f2 (Permutation_in _ (Permutation_sym Hperm) Hin2)) in Hk2.
    discriminate.
  - reflexivity.
Qed.

(** The selected run-state file does not depend on the order in which
    the scan lists the candidates. *)
Theorem selection_ignores_order fs files files' :
  Permutation files files' ->
  _select_active_run_state_file fs files = _select_active_run_state_file fs files'.
Proof. intros H. unfold _select_active_run_state_file. apply fold_select_perm, H. Qed.

Lemma selection_ignores_order_witness :
  _select_active_run_state_file Scenario.fs_pointer_ok
    [Scenario.run_file "run_b"; Scenario.run_file "run_a"]
  = _select_active_run_state_file Scenario.fs_pointer_ok
      [Scenario.run_file "run_a"; Scenario.run_file "run_b"].
Proof. apply selection_ignores_order. apply perm_swap. Defined.

Lemma path_join_inj p a b : path_join p a = path_join p b -> a = b.
Proof.
  unfold path_join. intros H. apply app_inv_head in H. congruence.
Qed.


(** The activity time of a run looks at the five work artifacts only:
    two file systems that differ at most in [run_state.json] of the
    checkpoint directory give the same activity time. *)
Theorem activity_ignores_run_state_file fs fs' checkpoint_dir :
  (forall p, p <> path_join checkpoint_dir "run_state.json" ->
             fs_exists fs p = fs_exists fs' p /\ fs_stat fs p = fs_stat fs' p) ->
  _activity_timestamp_for_checkpoint fs checkpoint_dir
  = _activity_timestamp_for_checkpoint fs' checkpoint_dir.
Proof.
  intros Hsame. rewrite !activity_eq.
  assert (Hflat : forall names,
            Forall (fun n => n <> "run_state.json") names ->
            flat_map (fun p => if fs_exists fs p
                               then match fs_stat fs p with Some m => [m] | None => [] end
                               else []) (map (path_join checkpoint_dir) names)
            = flat_map (fun p => if fs_exists fs' p
                                 then match fs_stat fs' p with Some m => [m] | None => [] end
                                 else []) (map (path_join checkpoint_dir) names)).
  { induction 1 as [|n names Hn _ IH]; [reflexivity|]. cbn [map flat_map].
    destruct (Hsame (path_join checkpoint_dir n)) as [-> ->];
      [intros E; apply path_join_inj in E; contradiction|].
    rewrite IH. reflexivity. }
  rewrite Hflat; [reflexivity|].
  unfold activity_artifacts. repeat (apply List.Forall_cons; [discriminate|]).
  apply List.Forall_nil.
Qed.

Lemma activity_ignores_run_state_file_witness :
  fs_stat Scenario.fs_with_db (Scenario.run_file "run_b") = Some 50%Q
  /\ fs_stat Scenario.fs_touched (Scenario.run_file "run_b") = Some 99%Q
  /\ fs_exists Scenario.fs_touched (Scenario.run_db "run_b") = true
  /\ _activity_timestamp_for_checkpoint Scenario.fs_touched
       ["/"; "outputs"; "run_b"; "checkpoints"] = 50%Q
  /\ _activity_timestamp_for_checkpoint Scenario.fs_with_db
       ["/"; "outputs"; "run_b"; "checkpoints"]
     = _activity_timestamp_for_checkpoint Scenario.fs_touched
         ["/"; "outputs"; "run_b"; "checkpoints"].
Proof.
  split; [reflexivity|]. split; [reflexivity|]. split; [reflexivity|].
  split; [reflexivity|].
  apply (activity_ignores_run_state_file Scenario.fs_with_db Scenario.fs_touched
           ["/"; "outputs"; "run_b"; "checkpoints"]).
  intros p Hp. cbn [Scenario.fs_with_db Scenario.fs_touched fs_exists fs_stat]. split.
  - apply bool_decide_ext. split; [auto|]. intros [H|H]; [exact H | contradiction].
  - rewrite bool_decide_false by exact Hp.
    reflexivity.
Defined.


(** The activity time is at least the modification time of every work
    artifact that exists in the checkpoint directory, and it is 0 when no
    artifact exists. *)
Theorem activity_is_latest_artifact fs checkpoint_dir :
  (forall name m, In name activity_artifacts ->
     fs_exists fs (path_join checkpoint_dir name) = true ->
     fs_stat fs (path_join checkpoint_dir name) = Some m ->
     (m <= _activity_timestamp_for_checkpoint fs checkpoint_dir)%Q)
  /\ ((forall name, In name activity_artifacts ->
         fs_exists fs (path_join checkpoint_dir name) = false) ->
      _activity_timestamp_for_checkpoint fs checkpoint_dir = 0%Q).
Proof.
  rewrite activity_eq. split.
  - intros name m Hin He Hs.
    assert (Hm : In m (flat_map
                         (fun p => if fs_exists fs p
                                   then match fs_stat fs p with Some m => [m] | None => [] end
                                   else [])
                         (map (path_join checkpoint_dir) activity_artifacts))).
    { apply in_flat_map. exists (path_join checkpoint_dir name).
      split; [apply in_map; exact Hin|]. rewrite He, Hs. left. reflexivity. }
    destruct (flat_map _ _) as [|m0 rest]; [destruct Hm|].
    destruct (list_max_ge m0 rest) as [H0 Hrest].
    destruct Hm as [<-|Hm]; [exact H0 | exact (Hrest m Hm)].
  - intros Hnone.
    assert (Hall : forall names, (forall n, In n names -> In n activity_artifacts) ->
              flat_map (fun p => if fs_exists fs p
                                 then match fs_stat fs p with Some m => [m] | None => [] end
                                 else [])
                       (map (path_join checkpoint_dir) names) = []).
    { induction names as [|n names IH]; intros Hsub; [reflexivity|]. cbn [map flat_map].
      rewrite (Hnone n (Hsub n (or_introl eq_refl))).
      apply IH. intros n' Hn'. apply Hsub. right. exact Hn'. }
    rewrite (Hall activity_artifacts (fun n H => H)). reflexivity.
Qed.

Lemma activity_is_latest_artifact_witness :
  _activity_timestamp_for_checkpoint Scenario.fs_pointer_ok ["/"; "outputs"; "run_a"] = 0%Q
  /\ (50 <= _activity_timestamp_for_checkpoint Scenario.fs_with_db
              ["/"; "outputs"; "run_b"; "checkpoints"])%Q.
Proof.
  split.
  - apply (proj2 (activity_is_latest_artifact Scenario.fs_pointer_ok
                    ["/"; "outputs"; "run_a"])).
    intros name Hin. unfold activity_artifacts in Hin. cbn in Hin.
    destruct Hin as [<-|[<-|[<-|[<-|[<-|[]]]]]]; reflexivity.
  - apply (proj1 (activity_is_latest_artifact Scenario.fs_with_db
                    ["/"; "outputs"; "run_b"; "checkpoints"]) "chunk_state.db");
      [left; reflexivity | reflexivity | reflexivity].
Defined.

(** ** Status mapping and running-task detail of the SQLite backend *)

Lemma lower_upper_ascii c : Py.lower_ascii (Py.upper_ascii c) = Py.lower_ascii c.
Proof.
  destruct c as [[] [] [] [] [] [] [] []]; reflexivity.
Qed.

Lemma lower_lower_ascii c : Py.lower_ascii (Py.lower_ascii c) = Py.lower_ascii c.
Proof.
  destruct c as [[] [] [] [] [] [] [] []]; reflexivity.
Qed.

Lemma lower_upper s : Py.lower (Py.upper s) = Py.lower s.
Proof. induction s as [|c s IH]; cbn; [reflexivity|]. rewrite lower_upper_ascii, IH. reflexivity. Qed.

Lemma lower_lower s : Py.lower (Py.lower s) = Py.lower s.
Proof. induction s as [|c s IH]; cbn; [reflexivity|]. rewrite lower_lower_ascii, IH. reflexivity. Qed.

(** The status of a database state written in ASCII does not depend on
    the letter case of the state; the status of any state is one of the
    four status words, and a [NULL] or empty state is "PENDING". *)
Theorem status_mapping_ignores_case s :
  (is_ascii s ->
   _map_sqlite_state_to_task_status (Some (Py.upper s))
     = _map_sqlite_state_to_task_status (Some s)
   /\ _map_sqlite_state_to_task_status (Some (Py.lower s))
      = _map_sqlite_state_to_task_status (Some s))
  /\ In (_map_sqlite_state_to_task_status (Some s)) ["RUNNING"; "DONE"; "FAILED"; "PENDING"]
  /\ _map_sqlite_state_to_task_status None = "PENDING"
  /\ _map_sqlite_state_to_task_status (Some "") = "PENDING".
Proof.
  unfold _map_sqlite_state_to_task_status. cbv zeta. cbn [default from_option id].
  rewrite lower_upper, lower_lower.
  split; [intros _; split; reflexivity|]. split; [|split; reflexivity].
  repeat case_decide; cbn; auto.
Qed.

Lemma status_mapping_ignores_case_witness :
  _map_sqlite_state_to_task_status (Some "FAILED_Exhausted") = "FAILED"
  /\ _map_sqlite_state_to_task_status (Some (Py.upper "FAILED_Exhausted"))
     = _map_sqlite_state_to_task_status (Some "FAILED_Exhausted").
Proof.
  split; [reflexivity|].
  apply (proj1 (status_mapping_ignores_case "FAILED_Exhausted")).
  unfold is_ascii. cbn [list_ascii_of_string].
  repeat (apply List.Forall_cons; [reflexivity|]). apply List.Forall_nil.
Defined.

Lemma running_detail_status now row :
  tr_state row = Some "running" ->
  d_status (running_detail now row) = JStr "RUNNING"
  /\ d_completed_at (running_detail now row) = JNull.
Proof. intros H. unfold running_detail. cbn. rewrite H. split; reflexivity. Qed.

(** Whenever the SQLite summary is returned, its task detail holds one
    entry for each row whose state is exactly "running", and every entry
    has the status "RUNNING" and no completion time. *)
Theorem sqlite_detail_is_running now db p :
  _calculate_progress_from_sqlite now db = Ok p ->
  length (p_tasks_detail p)
    = length (filter (fun r => tr_state r = Some "running") (chunk_tasks db))
  /\ Forall (fun d => d_status d = JStr "RUNNING" /\ d_completed_at d = JNull)
            (p_tasks_detail p).
Proof.
  unfold _calculate_progress_from_sqlite, _sqlite_get_task_stats, sqlite_fetchall.
  destruct (db_raises db QStateCounts); cbn [mbind result_bind]; [discriminate|].
  destruct (db_raises db QRunningTasks); cbn [mbind result_bind]; [discriminate|].
  cbv zeta. intros [= <-]. cbn [p_tasks_detail].
  set (rows := filter (fun r => tr_state r = Some "running") (chunk_tasks db)).
  pose proof (merge_sort_Permutation updated_desc rows) as Hperm.
  split.
  - rewrite length_map. apply Permutation_length. exact Hperm.
  - apply List.Forall_map.
    assert (Hrows : Forall (fun r => tr_state r = Some "running") rows).
    { subst rows. apply Forall_forall. intros r Hr.
      apply list_elem_of_filter in Hr. apply Hr. }
    rewrite <- Hperm in Hrows.
    eapply Forall_impl; [exact Hrows|]. intros r Hr. apply running_detail_status, Hr.
Qed.

Lemma sqlite_detail_is_running_witness :
  exists p,
    _calculate_progress_from_sqlite 0 Scenario.db_known = Ok p
    /\ length (p_tasks_detail p) = 1%nat.
Proof.
  eexists. split; [reflexivity|].
  apply (proj1 (sqlite_detail_is_running 0 Scenario.db_known _ eq_refl)).
Defined.

(** ** Live log tail *)

Lemma rstrip_idem s : Py.rstrip (Py.rstrip s) = Py.rstrip s.
Proof.
  induction s as [|c s IH]; [reflexivity|]. cbn [Py.rstrip].
  destruct (Py.rstrip s) as [|c' r'] eqn:E.
  - destruct (Py.is_space c) eqn:Ec; [reflexivity|]. cbn [Py.rstrip]. rewrite Ec. reflexivity.
  - cbn [Py.rstrip] in IH |- *. rewrite IH. reflexivity.
Qed.

Lemma rstrip_head c r :
  Py.is_space c = false -> exists r', Py.rstrip (String c r) = String c r'.
Proof.
  intros Hc. cbn [Py.rstrip]. destruct (Py.rstrip r); [rewrite Hc|]; eauto.
Qed.

Lemma lstrip_head s :
  Py.lstrip s = "" \/ exists c r, Py.lstrip s = String c r /\ Py.is_space c = false.
Proof.
  induction s as [|c s IH]; [left; reflexivity|]. cbn [Py.lstrip].
  destruct (Py.is_space c) eqn:Ec; [exact IH | right; eauto].
Qed.

Lemma strip_idem s : Py.strip (Py.strip s) = Py.strip s.
Proof.
  unfold Py.strip. destruct (lstrip_head s) as [E|(c & r & E & Hc)]; rewrite E.
  - reflexivity.
  - destruct (rstrip_head c r Hc) as [r' Er]. rewrite Er at 1.
    cbn [Py.lstrip]. rewrite Hc, <- Er. apply rstrip_idem.
Qed.

Lemma latest_log_spec files best mb f :
  log_mtime best = Some mb ->
  latest_log (best, mb) files = Some f ->
  In f (best :: files)
  /\ exists m, log_mtime f = Some m /\ (mb <= m)%Q
     /\ forall g, In g files -> exists mg, log_mtime g = Some mg /\ (mg <= m)%Q.
Proof.
  revert best mb. induction files as [|g files IH]; intros best mb Hb;
    cbn [latest_log fst snd].
  - intros [= <-]. split; [left; reflexivity|].
    exists mb. split; [exact Hb|]. split; [apply Qle_refl | intros ? []].
  - destruct (log_mtime g) as [mg|] eqn:Eg; [|discriminate].
    destruct (Qltb mb mg) eqn:Elt; intros H.
    + apply Qltb_lt in Elt.
      destruct (IH g mg Eg H) as (Hin & m & Hm & Hle & Hall).
      split; [destruct Hin as [<-|?]; right; [left; reflexivity | right; assumption]|].
      exists m. split; [exact Hm|].
      split; [eapply Qle_trans; [apply Qlt_le_weak; exact Elt | exact Hle]|].
      intros g' [<-|Hg']; [eauto | exact (Hall g' Hg')].
    + apply Qltb_ge in Elt.
      destruct (IH best mb Hb H) as (Hin & m & Hm & Hle & Hall).
      split; [destruct Hin as [<-|?]; [left; reflexivity | right; right; assumption]|].
      exists m. split; [exact Hm|]. split; [exact Hle|].
      intros g' [<-|Hg']; [|exact (Hall g' Hg')].
      exists mg. split; [exact Eg | eapply Qle_trans; eassumption].
Qed.

Lemma format_lines_stripped tail :
  Forall (fun l => l <> "" /\ Py.strip l = l /\ exists raw, In raw tail /\ l = Py.strip raw)
         (format_lines tail).
Proof.
  unfold format_lines. apply List.Forall_map. apply Forall_forall. intros raw Hraw.
  apply list_elem_of_filter in Hraw. destruct Hraw as [[_ Hne] Hin].
  split; [exact Hne|]. split; [apply strip_idem|].
  exists raw. split; [apply list_elem_of_In; exact Hin | reflexivity].
Qed.

(** When the log tail is returned without error, it comes from the log
    file with the greatest modification time; it holds at most
    [max_lines] lines, each of them the stripped form of a line of that
    file, none of them empty and none with white space at either end; and
    [total_lines] is the number of lines of the whole file. *)
Theorem live_logs_tail max_lines files :
  ll_error (get_live_logs max_lines files) = None ->
  exists latest lines m,
    In latest files /\ log_lines latest = Some lines /\ log_mtime latest = Some m
    /\ (forall g, In g files -> exists mg, log_mtime g = Some mg /\ (mg <= m)%Q)
    /\ ll_file (get_live_logs max_lines files) = Some (log_basename latest)
    /\ ll_total_lines (get_live_logs max_lines files) = Some (Z.of_nat (length lines))
    /\ Z.of_nat (length (ll_lines (get_live_logs max_lines files))) <= max_lines
    /\ Forall (fun l => l <> "" /\ Py.strip l = l
                        /\ exists raw, In raw lines /\ l = Py.strip raw)
              (ll_lines (get_live_logs max_lines files)).
Proof.
  unfold get_live_logs. destruct files as [|f rest]; [discriminate|].
  destruct (log_mtime f) as [mf|] eqn:Ef; [|discriminate].
  destruct (latest_log (f, mf) rest) as [latest|] eqn:El; [|discriminate].
  destruct (log_lines latest) as [lines|] eqn:Elines; [|discriminate].
  destruct (Z.ltb_spec max_lines 0) as [Hneg|Hpos]; [discriminate|].
  intros _. cbn [ll_file ll_total_lines ll_lines].
  destruct (latest_log_spec rest f mf latest Ef El) as (Hin & m & Hm & Hle & Hall).
  exists latest, lines, m. split; [exact Hin|]. split; [exact Elines|].
  split; [exact Hm|]. split.
  { intros g [<-|Hg]; [eauto | exact (Hall g Hg)]. }
  split; [reflexivity|]. split; [reflexivity|]. split.
  - unfold format_lines, tail_lines. rewrite length_map.
    pose proof (length_filter (fun line : string => line <> "" /\ Py.strip line <> "")
                  (drop (length lines - Z.to_nat max_lines) lines)) as Hf.
    rewrite length_drop in Hf. lia.
  - eapply Forall_impl; [apply format_lines_stripped|].
    intros l (Hne & Hs & raw & Hraw & ->). split; [exact Hne|]. split; [exact Hs|].
    exists raw. split; [|reflexivity].
    unfold tail_lines in Hraw. apply list_elem_of_In in Hraw.
    apply list_elem_of_In. exact (subseteq_drop _ _ _ Hraw).
Qed.

Lemma live_logs_tail_witness :
  ll_lines (get_live_logs 3 Scenario.log_files) = ["step 1"; "step 2"]
  /\ exists latest lines m,
       In latest Scenario.log_files /\ log_lines latest = Some lines
       /\ log_mtime latest = Some m
       /\ ll_total_lines (get_live_logs 3 Scenario.log_files)
          = Some (Z.of_nat (length lines)).
Proof.
  split; [reflexivity|].
  destruct (live_logs_tail 3 Scenario.log_files eq_refl)
    as (latest & lines & m & Hin & Hl & Hm & _ & _ & Ht & _).
  exists latest, lines, m. auto.
Defined.




(** ** ETA: numbers and texts agree *)

(** In every result of [calculate_eta] a phase with an ETA in minutes
    shows the text of that duration, and a phase without one shows one of
    the words "N/A", "Done" or "Disabled" (the latter for the secondary
    phase only). *)
Theorem eta_texts_match_minutes total done speed oal_state oal_workers :
  let e := calculate_eta total done speed oal_state oal_workers in
  match lf_eta e with
  | Some t => lf_eta_formatted e = format_duration t
  | None => lf_eta_formatted e = "N/A" \/ lf_eta_formatted e = "Done"
  end
  /\ match oal_eta e with
     | Some t => oal_eta_formatted e = format_duration t
     | None => oal_eta_formatted e = "N/A" \/ oal_eta_formatted e = "Done"
               \/ oal_eta_formatted e = "Disabled"
     end
  /\ match total_eta e with
     | Some t => total_eta_formatted e = format_duration t
     | None => total_eta_formatted e = "N/A" \/ total_eta_formatted e = "Done"
     end.
Proof.
  cbv zeta. destruct (Qlt_le_dec 0 speed) as [Hs|Hs].
  - rewrite calculate_eta_speed by exact Hs. cbv zeta.
    cbn [lf_eta oal_eta total_eta lf_eta_formatted oal_eta_formatted total_eta_formatted].
    split; [|split].
    + unfold eta_lf. cbv zeta. destruct (0 <? total - done); cbn; auto.
    + unfold eta_oal. destruct oal_state as [st|]; cbv zeta.
      * destruct (0 <? oal_workers).
        -- destruct (0 <? _); [destruct (0 <? _)|]; cbn; auto.
        -- destruct (oal_workers =? 0); cbn; auto.
      * destruct (oal_workers =? 0); cbn; auto.
    + unfold eta_total. cbv zeta. destruct (Qltb 0 _); [reflexivity|].
      destruct (_ && _)%bool; cbn; auto.
  - rewrite calculate_eta_no_speed by exact Hs. cbn. auto.
Qed.

(** ** Ranking: active runs first, then the most recent activity *)


Lemma candidate_key_active fs f k :
  candidate_key fs f = Some k ->
  (k_is_active k = 0 \/ k_is_active k = 1)
  /\ (k_is_active k = 0
      <-> shutdown_type_of (fs_run_state fs f ≫= rs_shutdown_type) = Some "COMPLETED").
Proof.
  unfold candidate_key. cbv zeta.
  destruct (shutdown_type_of _) as [sd|]; cbn; [|discriminate].
  destruct (fs_stat fs f); cbn; [|discriminate].
  intros [= <-]. cbn [k_is_active].
  destruct (String.eqb_spec sd "COMPLETED") as [->|Hne].
  - split; [left; reflexivity | split; reflexivity].
  - split; [right; reflexivity|]. split; [discriminate | congruence].
Qed.

Lemma key_le_components k' k :
  key_compare k' k <> Gt ->
  k_is_active k' <= k_is_active k
  /\ (k_is_active k' = k_is_active k -> (k_activity_ts k' <= k_activity_ts k)%Q).
Proof.
  unfold key_compare. intros H.
  destruct (k_is_active k' ?= k_is_active k) eqn:Ea; cbn [lex] in H.
  - apply Z.compare_eq in Ea. split; [lia|]. intros _.
    destruct (k_activity_ts k' ?= k_activity_ts k)%Q eqn:Eb; cbn [lex] in H.
    + apply Qeq_alt in Eb. rewrite Eb. apply Qle_refl.
    + apply Qlt_alt in Eb. apply Qlt_le_weak. exact Eb.
    + congruence.
  - pose proof (proj1 (Z.compare_lt_iff _ _) Ea) as Hlt.
    split; [lia | intros E; exfalso; lia].
  - congruence.
Qed.


Lemma shutdown_completed_iff marker :
  shutdown_type_of marker = Some "COMPLETED"
  <-> exists s, marker = Some (JStr s) /\ Py.upper (Py.strip s) = "COMPLETED".
Proof.
  unfold shutdown_type_of. split.
  - destruct marker as [[|[]|n|s]|]; try discriminate.
    + destruct (n =? 0); discriminate.
    + intros [= H]. exists s. auto.
  - intros (s & -> & H). rewrite H. reflexivity.
Qed.

Lemma candidate_key_activity fs f k :
  candidate_key fs f = Some k ->
  k_activity_ts k = _activity_timestamp_for_checkpoint fs (path_parent f).
Proof.
  unfold candidate_key. cbv zeta.
  destruct (shutdown_type_of _); cbn [mbind option_bind]; [|discriminate].
  destruct (fs_stat fs f); cbn [mbind option_bind]; [|discriminate].
  intros [= <-]. reflexivity.
Qed.

Lemma candidate_key_completed fs f k :
  candidate_key fs f = Some k ->
  (k_is_active k = 0 \/ k_is_active k = 1)
  /\ (k_is_active k = 0 <-> marked_completed fs f).
Proof.
  intros Hk. destruct (candidate_key_active fs f k Hk) as [H01 Hiff].
  split; [exact H01|]. unfold marked_completed.
  rewrite Hiff. apply shutdown_completed_iff.
Qed.

(** A run whose run state carries the shutdown type "COMPLETED" is never
    selected while the list holds a candidate that can be ranked and is
    not so marked; and among the candidates that agree with the selected
    one on being marked "COMPLETED" or not, none has work artifacts
    modified later than those of the selected one. *)
Theorem ranking_prefers_active_then_recent fs files p f :
  _select_active_run_state_file fs files = Some p ->
  In f files -> ~ unrankable fs f ->
  (~ marked_completed fs f -> ~ marked_completed fs p)
  /\ ((marked_completed fs f <-> marked_completed fs p) ->
      (_activity_timestamp_for_checkpoint fs (path_parent f)
       <= _activity_timestamp_for_checkpoint fs (path_parent p))%Q).
Proof.
  unfold _select_active_run_state_file. intros Hsel Hin Hrank.
  pose proof (fold_select_spec fs files None) as H.
  destruct (fold_left (select_step fs) files None) as [k|]; [|discriminate].
  cbn in Hsel. injection Hsel as <-.
  destruct H as ([?|(f0 & Hin0 & Hk0)] & _ & Hmax); [discriminate|].
  rewrite (candidate_key_path fs f0 k Hk0).
  destruct (candidate_key fs f) as [k'|] eqn:Hk'.
  2:{ exfalso. apply Hrank. apply candidate_key_none_iff. exact Hk'. }
  destruct (key_le_components k' k (Hmax f k' Hin Hk')) as [Hle Hact].
  destruct (candidate_key_completed fs f0 k Hk0) as [H01 Hc].
  destruct (candidate_key_completed fs f k' Hk') as [H01' Hc'].
  rewrite <- (candidate_key_activity fs f0 k Hk0), <- (candidate_key_activity fs f k' Hk').
  split.
  - intros Hf Hp. apply Hf. apply Hc'. apply Hc in Hp. lia.
  - intros Hiff. apply Hact.
    destruct H01 as [E|E], H01' as [E'|E']; try lia.
    exfalso. apply Hc' in E'. apply Hiff in E'. apply Hc in E'. lia.
Qed.

Lemma ranking_prefers_active_then_recent_witness :
  marked_completed Scenario.fs_ranked (Scenario.run_file "run_a")
  /\ (_activity_timestamp_for_checkpoint Scenario.fs_ranked
        (path_parent (Scenario.run_file "run_c"))
      < _activity_timestamp_for_checkpoint Scenario.fs_ranked
          (path_parent (Scenario.run_file "run_a")))%Q
  /\ ~ marked_completed Scenario.fs_ranked (Scenario.run_file "run_c")
  /\ (_activity_timestamp_for_checkpoint Scenario.fs_ranked
        (path_parent (Scenario.run_file "run_b"))
      <= _activity_timestamp_for_checkpoint Scenario.fs_ranked
           (path_parent (Scenario.run_file "run_c")))%Q.
Proof.
  split; [exists " completed "; split; reflexivity|].
  split; [reflexivity|].
  assert (Hb : ~ marked_completed Scenario.fs_ranked (Scenario.run_file "run_b")).
  { intros (s & Hs & _). vm_compute in Hs. discriminate Hs. }
  destruct (ranking_prefers_active_then_recent Scenario.fs_ranked
              [Scenario.run_file "run_a"; Scenario.run_file "run_b";
               Scenario.run_file "run_c"]
              (Scenario.run_file "run_c") (Scenario.run_file "run_b")
              eq_refl (or_intror (or_introl eq_refl))) as [Hc Hact].
  { intros [H|[H|(n & _ & H)]]; vm_compute in H; discriminate H. }
  split; [exact (Hc Hb)|].
  apply Hact. split; intros H; exfalso; [exact (Hb H) | exact (Hc Hb H)].
Defined.
